(** * Alter backend: capture, speech gate, transcription and transcript log

    A shallow embedding of the Python sources

      - [audio/capture.py]        (class [AudioCapture])
      - [transcription/vad.py]    (class [VoiceActivityDetector])
      - [transcription/engine.py] (class [TranscriptionEngine])
      - [session/manager.py]      (class [SessionManager])
      - [ai/learning.py]          (class [LearningStore])
      - [ws/router.py]            (class [AlterBackend], the transcription
                                   loop)

    Python objects become records, methods become functions that take
    the object and return the updated object, exceptions are values of
    [Py.result], and what the outside world answers (the voice-activity
    model, the speech-to-text model, the clock, the disk) is an explicit
    argument.  Python [float] is IEEE binary64, modelled by Rocq's
    primitive floats; a [str] is a list of code points.  The library
    functions the sources call ([numpy], [json], text files) are
    modelled next to them, and the calls of [transcribe_chunk] that run
    side by side are modelled as threads stepping through it. *)

From Stdlib Require Import ZArith NArith List String Ascii Bool Lia Floats.
From stdpp Require Import base gmap.
Import ListNotations.

Local Open Scope Z_scope.
Set Warnings "-register-all".

(* ================================================================= *)
(** * The fragment of the Python runtime the sources rely on *)

Module Py.

(** A [str] is a sequence of Unicode code points. *)
Definition str := list N.

(** Literals are written as Rocq strings of ASCII characters. *)
Definition of_string (s : string) : str :=
  map N_of_ascii (list_ascii_of_string s).

(** The outcome of a call: a value, or a raised exception of which
    only [str(e)] is ever inspected by the sources. *)
Inductive result (A : Type) : Type :=
| Ok (a : A)
| Raise (msg : str).
Arguments Ok {A} a.
Arguments Raise {A} msg.

Definition bind {A B} (r : result A) (k : A -> result B) : result B :=
  match r with
  | Ok a => k a
  | Raise e => Raise e
  end.

(** [range(start, stop, step)] for a positive [step]. *)
Definition range (start stop step : Z) : list Z :=
  if stop <=? start then []
  else map (fun k => start + step * Z.of_nat k)
           (seq 0 (Z.to_nat ((stop - start + step - 1) / step))).

(** Normalisation of one bound of a slice over a sequence of length
    [len]: negative bounds count from the end, everything is clamped. *)
Definition clamp_index (len i : Z) : nat :=
  Z.to_nat (if i <? 0 then Z.max (len + i) 0 else Z.min i len).

(** [l[lo:hi]]. *)
Definition slice {A} (l : list A) (lo hi : Z) : list A :=
  let len := Z.of_nat (length l) in
  let a := clamp_index len lo in
  let b := clamp_index len hi in
  firstn (b - a)%nat (skipn a l).

(** [l[:hi]] and [l[lo:]]. *)
Definition slice_to {A} (l : list A) (hi : Z) : list A := slice l 0 hi.
Definition slice_from {A} (l : list A) (lo : Z) : list A :=
  slice l lo (Z.of_nat (length l)).

(** ** Strings *)

(** [c.isspace()], the characters [str.strip()] removes. *)
Definition isspace (c : N) : bool :=
  ((9 <=? c) && (c <=? 13) || (28 <=? c) && (c <=? 32)
   || (c =? 133) || (c =? 160) || (c =? 5760)
   || (8192 <=? c) && (c <=? 8202) || (c =? 8232) || (c =? 8233)
   || (c =? 8239) || (c =? 8287) || (c =? 12288))%N.

Fixpoint lstrip (s : str) : str :=
  match s with
  | c :: s' => if isspace c then lstrip s' else s
  | [] => []
  end.

Definition rstrip (s : str) : str := rev (lstrip (rev s)).

(** [s.strip()]. *)
Definition strip (s : str) : str := rstrip (lstrip s).

(** [sep.join(parts)]. *)
Fixpoint join (sep : str) (parts : list str) : str :=
  match parts with
  | [] => []
  | [p] => p
  | p :: rest => p ++ sep ++ join sep rest
  end.

Fixpoint startswith (s prefix : str) {struct prefix} : bool :=
  match prefix with
  | [] => true
  | p :: prefix' =>
      match s with
      | c :: s' => (p =? c)%N && startswith s' prefix'
      | [] => false
      end
  end.

(** [needle in s]. *)
Fixpoint contains (needle s : str) : bool :=
  startswith s needle ||
  match s with
  | [] => false
  | _ :: s' => contains needle s'
  end.

Definition is_ascii (c : N) : bool := (c <? 128)%N.

Definition ascii_lower (c : N) : N :=
  if ((65 <=? c) && (c <=? 90))%N then (c + 32)%N else c.

(** [s.lower()].  ASCII letters are folded here; what Python's Unicode
    tables do to a character outside ASCII, which may depend on where
    it stands in the string (final sigma), is the parameter [table],
    given the whole string and the position. *)
Fixpoint lower_from (table : str -> nat -> str) (whole : str) (i : nat)
  (rest : str) : str :=
  match rest with
  | [] => []
  | c :: rest' =>
      (if is_ascii c then [ascii_lower c] else table whole i)
        ++ lower_from table whole (S i) rest'
  end.

Definition lower (table : str -> nat -> str) (s : str) : str :=
  lower_from table s 0 s.

(** A string of ASCII characters none of which is an upper-case letter:
    [lower] leaves it alone, wherever it stands. *)
Definition ascii_lowercase (s : str) : bool :=
  forallb (fun c => is_ascii c && (ascii_lower c =? c)%N) s.

(** [a == b] on strings. *)
Fixpoint str_eqb (a b : str) : bool :=
  match a, b with
  | [], [] => true
  | x :: a', y :: b' => (x =? y)%N && str_eqb a' b'
  | _, _ => false
  end.

(** [not s]: the empty string is the only false one. *)
Definition is_empty (s : str) : bool :=
  match s with [] => true | _ => false end.

(** A string that is not empty and neither starts nor ends with white
    space. *)
Definition trimmed (s : str) : bool :=
  match s, rev s with
  | c :: _, z :: _ => negb (isspace c) && negb (isspace z)
  | _, _ => false
  end.

(** [a <= b] on strings: code point by code point, the first difference
    decides, and a prefix comes first. *)
Fixpoint str_leb (a b : str) : bool :=
  match a, b with
  | [], _ => true
  | _ :: _, [] => false
  | x :: a', y :: b' => (x <? y)%N || ((x =? y)%N && str_leb a' b')
  end.

(** [sorted(names, reverse=True)] where names compare as their [key]s
    do: the greatest key first, names of equal keys in the order they
    had (the sort is stable).  [insert_reverse] puts a name in front
    of the first one whose key is not greater than its own. *)
Fixpoint insert_reverse (key : str -> str) (name : str) (sorted : list str)
  : list str :=
  match sorted with
  | [] => [name]
  | first :: rest =>
      if str_leb (key first) (key name) then name :: first :: rest
      else first :: insert_reverse key name rest
  end.

Fixpoint sorted_reverse (key : str -> str) (names : list str) : list str :=
  match names with
  | [] => []
  | name :: rest => insert_reverse key name (sorted_reverse key rest)
  end.

(** ** Numbers *)

(** [float(n)] for an [int] below [2^63] (exact below [2^53]). *)
Definition float_of_int (n : Z) : float :=
  if n <? 0 then PrimFloat.opp (PrimFloat.of_uint63 (Uint63.of_Z (- n)))
  else PrimFloat.of_uint63 (Uint63.of_Z n).

(** [int(x)]: truncation towards zero; infinities and NaN raise. *)
Definition int_of_float (x : float) : result Z :=
  match Prim2SF x with
  | S754_finite s m e =>
      let v := if 0 <=? e then Z.shiftl (Zpos m) e
               else Z.shiftr (Zpos m) (- e) in
      Ok (if s then - v else v)
  | S754_zero _ => Ok 0
  | S754_infinity _ =>
      Raise (of_string "cannot convert float infinity to integer")
  | S754_nan => Raise (of_string "cannot convert float NaN to integer")
  end.

(** [a / b] on two [int]s (exact operands below [2^53]). *)
Definition int_truediv (a b : Z) : result float :=
  if b =? 0 then Raise (of_string "division by zero")
  else Ok (PrimFloat.div (float_of_int a) (float_of_int b)).

(** Rounding of a binary64 value to the nearest binary32 value, as
    [astype(np.float32)] does; float32 arithmetic is the binary64
    operation followed by this rounding. *)
Definition f32 (x : float) : float :=
  match Prim2SF x with
  | S754_finite s m e => SF2Prim (binary_round 24 128 s m e)
  | _ => x
  end.

End Py.

Arguments Py.Ok {A} a.
Arguments Py.Raise {A} msg.

(* ================================================================= *)
(** * transcription/vad.py *)

Module VoiceActivityDetector.
Section WithModel.

(** The Silero model is an external, stateful capability: [S] is the
    loaded model with its recurrent state, [score m window sample_rate]
    is the call [m(window, sample_rate).item()], which returns a
    confidence or raises and leaves the model in a new state. *)
Variable S : Type.
Variable score : S -> list float -> Z -> Py.result float * S.
Variable reset_states : S -> S.

Record t : Type := mk {
  threshold : float;
  sample_rate : Z;
  _model : option S
}.

(** [__init__]. *)
Definition init (threshold : float) (sample_rate : Z) : t :=
  mk threshold sample_rate None.

(** [_load_model]; [hub] is what [torch.hub.load] answers if called. *)
Definition _load_model (hub : Py.result S) (self : t) : t :=
  match _model self with
  | Some _ => self
  | None =>
      match hub with
      | Py.Ok m => mk (threshold self) (sample_rate self) (Some m)
      | Py.Raise _ => self
      end
  end.

Definition window_size : Z := 512.

(** The body of the [for i in range(...)] loop of [contains_speech],
    over the remaining values of [i]: [Ok true] is the early
    [return True], [Ok false] is falling out of the loop. *)
Fixpoint scan (threshold : float) (sample_rate : Z) (tensor : list float)
  (m : S) (idxs : list Z) : Py.result bool * S :=
  match idxs with
  | [] => (Py.Ok false, m)
  | i :: rest =>
      let window := Py.slice tensor i (i + window_size) in
      match score m window sample_rate with
      | (Py.Raise e, m') => (Py.Raise e, m')
      | (Py.Ok confidence, m') =>
          if PrimFloat.ltb threshold confidence then (Py.Ok true, m')
          else scan threshold sample_rate tensor m' rest
      end
  end.

(** The values [i] takes in [contains_speech]. *)
Definition window_starts (audio : list float) : list Z :=
  Py.range 0 (Z.of_nat (length audio) - window_size) window_size.

(** [contains_speech]. *)
Definition contains_speech (hub : Py.result S) (self : t)
  (audio : list float) : bool * t :=
  let self := _load_model hub self in
  match _model self with
  | None => (true, self)
  | Some m =>
      let tensor := audio in
      let '(r, m') :=
        scan (threshold self) (sample_rate self) tensor m
             (window_starts tensor) in
      let self' := mk (threshold self) (sample_rate self) (Some m') in
      match r with
      | Py.Ok b => (b, self')
      | Py.Raise _ => (true, self')
      end
  end.

(** [reset]. *)
Definition reset (self : t) : t :=
  match _model self with
  | Some m => mk (threshold self) (sample_rate self) (Some (reset_states m))
  | None => self
  end.

End WithModel.
End VoiceActivityDetector.

(* ================================================================= *)
(** * The numpy functions [_read_stream] calls *)

Module Numpy.

(** [np.arange(n)] as float64. *)
Definition arange (n : Z) : list float :=
  map (fun k => Py.float_of_int (Z.of_nat k)) (seq 0 (Z.to_nat n)).

Fixpoint set_last (l : list float) (v : float) : list float :=
  match l with
  | [] => []
  | [_] => [v]
  | x :: l' => x :: set_last l' v
  end.

(** [np.linspace(start, stop, num)]: [num] points [start + i * step]
    with [step = (stop - start) / (num - 1)], the last one overwritten
    by [stop]. *)
Definition linspace (start stop : float) (num : Z) : Py.result (list float) :=
  if num <? 0 then
    Py.Raise (Py.of_string "Number of samples must be non-negative.")
  else
    let div := num - 1 in
    let delta := PrimFloat.sub stop start in
    let y := arange num in
    let y :=
      if 0 <? div then
        let step := PrimFloat.div delta (Py.float_of_int div) in
        if PrimFloat.eqb step 0%float then
          map (fun v => PrimFloat.mul
                          (PrimFloat.div v (Py.float_of_int div)) delta) y
        else map (fun v => PrimFloat.mul v step) y
      else map (fun v => PrimFloat.mul v delta) y in
    let y := map (fun v => PrimFloat.add v start) y in
    Py.Ok (if 1 <? num then set_last y stop else y).

(** The number of sample points not above [x], for increasing [xp]. *)
Definition count_le (xp : list float) (x : float) : Z :=
  Z.of_nat (length (List.filter (fun p => PrimFloat.leb p x) xp)).

Definition at_index (l : list float) (j : Z) : float :=
  nth (Z.to_nat j) l nan.

(** One value of [np.interp(x, xp, fp)], [xp] increasing and as long
    as [fp]: piecewise linear between the sample points, constant
    outside them. *)
Definition interp1 (xp fp : list float) (x : float) : float :=
  let n := Z.of_nat (length xp) in
  if n =? 1 then at_index fp 0
  else if PrimFloat.is_nan x then x
  else
    let j := count_le xp x - 1 in
    if j <? 0 then at_index fp 0
    else if n - 1 <=? j then at_index fp (n - 1)
    else if PrimFloat.eqb (at_index xp j) x then at_index fp j
    else
      let slope :=
        PrimFloat.div
          (PrimFloat.sub (at_index fp (j + 1)) (at_index fp j))
          (PrimFloat.sub (at_index xp (j + 1)) (at_index xp j)) in
      let r := PrimFloat.add
                 (PrimFloat.mul slope (PrimFloat.sub x (at_index xp j)))
                 (at_index fp j) in
      if PrimFloat.is_nan r then
        let r' := PrimFloat.add
                    (PrimFloat.mul slope
                       (PrimFloat.sub x (at_index xp (j + 1))))
                    (at_index fp (j + 1)) in
        if PrimFloat.is_nan r'
           && PrimFloat.eqb (at_index fp j) (at_index fp (j + 1))
        then at_index fp j else r'
      else r.

(** [np.interp(x, xp, fp)]. *)
Definition interp (x xp fp : list float) : Py.result (list float) :=
  match xp with
  | [] => Py.Raise (Py.of_string "array of sample points is empty")
  | _ :: _ =>
      if negb (length fp =? length xp)%nat then
        Py.Raise (Py.of_string "fp and xp are not of the same length.")
      else Py.Ok (map (interp1 xp fp) x)
  end.

(** [a.reshape(-1, k).mean(axis=1)] on a float32 array, [0 < k]: the
    rows are summed left to right and divided by [k], in float32. *)
Definition row_mean (k : Z) (row : list float) : float :=
  match row with
  | [] => nan
  | x :: rest =>
      Py.f32 (PrimFloat.div
                (fold_left (fun acc v => Py.f32 (PrimFloat.add acc v)) rest x)
                (Py.float_of_int k))
  end.

Definition reshape_mean (k : Z) (a : list float) : Py.result (list float) :=
  let n := Z.of_nat (length a) in
  if negb (n mod k =? 0) then
    Py.Raise (Py.of_string "cannot reshape array")
  else
    Py.Ok (map (fun r => row_mean k (Py.slice a (Z.of_nat r * k)
                                       (Z.of_nat r * k + k)))
               (seq 0 (Z.to_nat (n / k)))).

End Numpy.

(* ================================================================= *)
(** * audio/capture.py *)

Module AudioCapture.

(** [AudioChunk]: [source] is "you" or "target", [data] the float32
    mono samples, [timestamp] a Unix time. *)
Record AudioChunk : Type := mkChunk {
  source : Py.str;
  data : list float;
  timestamp : float
}.

(** The capture object: its settings and the queue the two capture
    threads share (oldest chunk first).  [ticks] counts the calls of
    [time.time()] made so far. *)
Record t : Type := mk {
  sample_rate : Z;
  chunk_duration : float;
  chunk_size : Z;
  audio_queue : list AudioChunk;
  ticks : nat
}.

(** [int(sample_rate * chunk_duration)]. *)
Definition chunk_samples (sample_rate : Z) (chunk_duration : float)
  : Py.result Z :=
  Py.int_of_float (PrimFloat.mul (Py.float_of_int sample_rate) chunk_duration).

(** [__init__], device indices left out. *)
Definition init (sample_rate : Z) (chunk_duration : float) : Py.result t :=
  Py.bind (chunk_samples sample_rate chunk_duration)
    (fun n => Py.Ok (mk sample_rate chunk_duration n [] 0)).

Section WithClock.

(** What the k-th call of [time.time()] returns. *)
Variable time_at : nat -> float.

(** [self.audio_queue.put(AudioChunk(source, data, time.time()))]. *)
Definition put (self : t) (source : Py.str) (data : list float) : t :=
  mk (sample_rate self) (chunk_duration self) (chunk_size self)
     (audio_queue self ++ [mkChunk source data (time_at (ticks self))])
     (Datatypes.S (ticks self)).

(** Lines 169-170 of [_read_stream]: stereo to mono. *)
Definition to_mono (channels : Z) (audio : list float)
  : Py.result (list float) :=
  if 1 <? channels then Numpy.reshape_mean channels audio else Py.Ok audio.

(** [int(len(audio) * ratio)] with [ratio = sample_rate / native_rate]. *)
Definition new_length (sample_rate native_rate n : Z) : Py.result Z :=
  Py.bind (Py.int_truediv sample_rate native_rate)
    (fun ratio => Py.int_of_float (PrimFloat.mul (Py.float_of_int n) ratio)).

(** Lines 173-177 of [_read_stream], the branch taken when the rates
    differ. *)
Definition resample (sample_rate native_rate : Z) (audio : list float)
  : Py.result (list float) :=
  let n := Z.of_nat (length audio) in
  Py.bind (new_length sample_rate native_rate n) (fun len =>
  Py.bind (Numpy.linspace 0%float (Py.float_of_int (n - 1)) len)
    (fun indices =>
  Py.bind (Numpy.interp indices (Numpy.arange n) audio) (fun out =>
  Py.Ok (map Py.f32 out)))).

(** Lines 166-177: from the samples read to the samples appended to
    the buffer. *)
Definition prepare (sample_rate native_rate channels : Z)
  (audio : list float) : Py.result (list float) :=
  Py.bind (to_mono channels audio) (fun audio =>
  if negb (native_rate =? sample_rate)
  then resample sample_rate native_rate audio
  else Py.Ok audio).

(** Lines 182-189, the loop [while len(buffer) >= target_chunk_samples].
    [None] stands for a loop that has not ended within [fuel] rounds. *)
Fixpoint emit_chunks (fuel : nat) (source : Py.str)
  (target_chunk_samples : Z) (buffer : list float) (self : t)
  : option (list float * t) :=
  if Z.of_nat (length buffer) <? target_chunk_samples
  then Some (buffer, self)
  else
    match fuel with
    | O => None
    | Datatypes.S fuel' =>
        let chunk_data := Py.slice_to buffer target_chunk_samples in
        let buffer := Py.slice_from buffer target_chunk_samples in
        emit_chunks fuel' source target_chunk_samples buffer
          (put self source chunk_data)
    end.

(** One round of the [while self._running] loop of [_read_stream];
    [raw] is what [np.frombuffer(stream.read(...))] gives.  An exception
    in the [try] block leaves buffer and queue as they were. *)
Definition read_once (source : Py.str) (native_rate channels : Z)
  (target_chunk_samples : Z) (raw : Py.result (list float))
  (buffer : list float) (self : t) : option (list float * t) :=
  match Py.bind raw (prepare (sample_rate self) native_rate channels) with
  | Py.Raise _ => Some (buffer, self)
  | Py.Ok audio =>
      let buffer := buffer ++ audio in
      emit_chunks (Datatypes.S (length buffer)) source target_chunk_samples
        buffer self
  end.

(** The rounds of the loop of [_read_stream], one per read that happens
    while [_running] holds. *)
Fixpoint read_rounds (source : Py.str) (native_rate channels : Z)
  (target_chunk_samples : Z) (reads : list (Py.result (list float)))
  (buffer : list float) (self : t) : option (list float * t) :=
  match reads with
  | [] => Some (buffer, self)
  | raw :: reads' =>
      match read_once source native_rate channels target_chunk_samples raw
              buffer self with
      | None => None
      | Some (buffer', self') =>
          read_rounds source native_rate channels target_chunk_samples
            reads' buffer' self'
      end
  end.

(** [_read_stream]: the chunk length is computed, the buffer starts
    empty, then the loop runs. *)
Definition _read_stream (source : Py.str) (native_rate channels : Z)
  (reads : list (Py.result (list float))) (self : t)
  : Py.result (option (list float * t)) :=
  Py.bind (chunk_samples (sample_rate self) (chunk_duration self))
    (fun target_chunk_samples =>
       Py.Ok (read_rounds source native_rate channels target_chunk_samples
                reads [] self)).

(** One round of [_dummy_stream]: a chunk of [np.zeros(chunk_size)]. *)
Definition dummy_once (source : Py.str) (self : t) : Py.result t :=
  if chunk_size self <? 0 then
    Py.Raise (Py.of_string "negative dimensions are not allowed")
  else
    Py.Ok (put self source (repeat 0%float (Z.to_nat (chunk_size self)))).

(** ** The capture threads together

    Each source has one thread with its own buffer; the queue is
    shared.  A run is the order in which the rounds of the threads'
    loops take place. *)
Inductive action : Type :=
| Read (source : Py.str) (native_rate channels : Z)
    (raw : Py.result (list float))
| Dummy (source : Py.str).

Definition buffers := Py.str -> list float.

Definition set_buffer (bufs : buffers) (source : Py.str)
  (buffer : list float) : buffers :=
  fun s => if Py.str_eqb s source then buffer else bufs s.

(** A round of a thread; [None] when its inner loop does not end.  A
    thread that dies of an uncaught exception changes nothing. *)
Definition step (a : action) (bufs : buffers) (self : t)
  : option (buffers * t) :=
  match a with
  | Read source native_rate channels raw =>
      match chunk_samples (sample_rate self) (chunk_duration self) with
      | Py.Raise _ => Some (bufs, self)
      | Py.Ok target =>
          match read_once source native_rate channels target raw
                  (bufs source) self with
          | None => None
          | Some (buffer', self') =>
              Some (set_buffer bufs source buffer', self')
          end
      end
  | Dummy source =>
      match dummy_once source self with
      | Py.Ok self' => Some (bufs, self')
      | Py.Raise _ => Some (bufs, self)
      end
  end.

Fixpoint run (actions : list action) (bufs : buffers) (self : t)
  : option (buffers * t) :=
  match actions with
  | [] => Some (bufs, self)
  | a :: rest =>
      match step a bufs self with
      | None => None
      | Some (bufs', self') => run rest bufs' self'
      end
  end.

(** The samples a source hands to its chunking loop during a run: what
    [prepare] makes of each successful read. *)
Definition fed_by (source : Py.str) (self : t) (a : action) : list float :=
  match a with
  | Read s native_rate channels raw =>
      if Py.str_eqb s source then
        match chunk_samples (sample_rate self) (chunk_duration self),
              Py.bind raw (prepare (sample_rate self) native_rate channels)
        with
        | Py.Ok _, Py.Ok audio => audio
        | _, _ => []
        end
      else []
  | Dummy _ => []
  end.

Definition fed (source : Py.str) (self : t) (actions : list action)
  : list float :=
  concat (map (fed_by source self) actions).

Definition is_read (a : action) : bool :=
  match a with Read _ _ _ _ => true | Dummy _ => false end.

(** A read at the target rate from a mono device: nothing is resampled
    or mixed. *)
Definition plain_read (sample_rate : Z) (a : action) : bool :=
  match a with
  | Read _ native_rate channels _ =>
      (native_rate =? sample_rate) && negb (1 <? channels)
  | Dummy _ => false
  end.

(** The samples read for a source during a run, in order; a failed
    read delivers none. *)
Definition raw_by (source : Py.str) (a : action) : list float :=
  match a with
  | Read s _ _ (Py.Ok raw) => if Py.str_eqb s source then raw else []
  | _ => []
  end.

Definition raw_samples (source : Py.str) (actions : list action)
  : list float :=
  concat (map (raw_by source) actions).

(** The samples of the chunks of one source, in queue order. *)
Definition emitted (source : Py.str) (queue : list AudioChunk) : list float :=
  concat (map data
            (List.filter (fun c => Py.str_eqb (AudioCapture.source c) source)
                    queue)).

(** Every queued chunk holds exactly [n] samples. *)
Definition all_full (n : Z) (queue : list AudioChunk) : Prop :=
  Forall (fun c => Z.of_nat (length (data c)) = n) queue.

End WithClock.

(** The capture settings never change. *)
Definition same_config (a b : t) : Prop :=
  sample_rate a = sample_rate b
  /\ chunk_duration a = chunk_duration b
  /\ chunk_size a = chunk_size b.

(** The chunks [new] were cut by [source] with [target] samples each. *)
Definition cut_by (source : Py.str) (target : Z) (new : list AudioChunk)
  : Prop :=
  Forall (fun c => AudioCapture.source c = source
                   /\ Z.of_nat (length (data c)) = target) new.

Definition with_queue (self : t) (queue : list AudioChunk) : t :=
  mk (sample_rate self) (chunk_duration self) (chunk_size self) queue
     (ticks self).

(** [get_chunk]: the oldest chunk leaves the queue; [None] when the
    queue has stayed empty for the whole [timeout]. *)
Definition get_chunk (self : t) : option AudioChunk * t :=
  match audio_queue self with
  | [] => (None, self)
  | chunk :: rest => (Some chunk, with_queue self rest)
  end.

(** ** The capture threads and the consumer of the queue

    The transcription loop calls [get_chunk] while the capture threads
    run: a turn is a round of a capture thread or a call of
    [get_chunk]. *)
Inductive turn : Type :=
| Capture (a : action)
| Consume.

(** The rounds of the capture threads among the turns. *)
Definition captures (turns : list turn) : list action :=
  flat_map (fun t => match t with Capture a => [a] | Consume => [] end) turns.

Section WithConsumer.

Variable time_at : nat -> float.

(** The turns one after the other: the chunks the calls of [get_chunk]
    returned, in the order of the calls, and where buffers and capture
    object end up.  [None] when a capture round does not end. *)
Fixpoint serve (turns : list turn) (bufs : buffers) (self : t)
  : option (list AudioChunk * buffers * t) :=
  match turns with
  | [] => Some ([], bufs, self)
  | Capture a :: rest =>
      match step time_at a bufs self with
      | None => None
      | Some (bufs', self') => serve rest bufs' self'
      end
  | Consume :: rest =>
      let '(got, self') := get_chunk self in
      match serve rest bufs self' with
      | None => None
      | Some (chunks, bufs', self'') =>
          Some (match got with
                | Some chunk => chunk :: chunks
                | None => chunks
                end, bufs', self'')
      end
  end.

End WithConsumer.

End AudioCapture.

(* ================================================================= *)
(** * transcription/engine.py *)

Module TranscriptionEngine.

Import AudioCapture.

Record TranscriptSegment : Type := mkSegment {
  speaker : Py.str;
  text : Py.str;
  seg_timestamp : float;
  duration : float
}.

Definition cuda : Py.str := Py.of_string "cuda".
Definition cublas : Py.str := Py.of_string "cublas".
Definition cpu : Py.str := Py.of_string "cpu".
Definition int8 : Py.str := Py.of_string "int8".

(** What the engine did to the speech-to-text library, in order.  The
    trace is not part of the Python object: it records the calls the
    methods make so that statements can talk about them. *)
Inductive event : Type :=
| EvConstruct (device compute_type : Py.str) (ok : bool)
    (** [WhisperModel(name, device=..., compute_type=...)] *)
| EvTranscribe (device : Py.str) (outcome : Py.result (list Py.str)).
    (** [model.transcribe(...)] on a model built for [device], with
        the fragments it returned or the exception it raised *)

Section WithBackend.

(** The speech-to-text library: [W] is the state of everything
    outside the engine (drivers, accelerator, the library itself), [M]
    a loaded model.  [WhisperModel w name device compute_type] is the
    constructor; [model_transcribe w m data language] is the call
    [m.transcribe(data, language=..., beam_size=3, ...)] together with
    the iteration over the segments it yields, giving their [text]s. *)
Variables W M : Type.
Variable WhisperModel :
  W -> Py.str -> Py.str -> Py.str -> Py.result M * W.
Variable model_transcribe :
  W -> M -> list float -> Py.str -> Py.result (list Py.str) * W.

(** The voice-activity model of [VoiceActivityDetector]. *)
Variable S : Type.
Variable score : S -> list float -> Z -> Py.result float * S.

(** Python's lower-casing of characters outside ASCII. *)
Variable lower_table : Py.str -> nat -> Py.str.

(** A loaded model, with the constructor arguments it was built from
    (kept for the trace, the Python handle does not expose them). *)
Record loaded : Type := mkLoaded {
  handle : M;
  built_device : Py.str;
  built_compute_type : Py.str
}.

Record t : Type := mk {
  model_name : Py.str;
  device : Py.str;
  compute_type : Py.str;
  language : Py.str;
  sample_rate : Z;
  _model : option loaded;
  _vad : VoiceActivityDetector.t S;
  _on_transcript : option (TranscriptSegment -> W -> Py.result unit * W)
}.

Definition set_device_model (self : t) (d c : Py.str) (m : option loaded)
  : t :=
  mk (model_name self) d c (language self) (sample_rate self) m
     (_vad self) (_on_transcript self).

Definition set_vad (self : t) (v : VoiceActivityDetector.t S) : t :=
  mk (model_name self) (device self) (compute_type self) (language self)
     (sample_rate self) (_model self) v (_on_transcript self).

(** [set_callback]. *)
Definition set_callback (self : t)
  (callback : TranscriptSegment -> W -> Py.result unit * W) : t :=
  mk (model_name self) (device self) (compute_type self) (language self)
     (sample_rate self) (_model self) (_vad self) (Some callback).

(** [__init__], without the CUDA availability check, which only prints. *)
Definition init (model_name device compute_type language : Py.str)
  (vad_threshold : float) (sample_rate : Z) : t :=
  mk model_name device compute_type language sample_rate None
     (VoiceActivityDetector.init S vad_threshold sample_rate) None.

(** [_fallback_to_cpu]. *)
Definition _fallback_to_cpu (self : t) (w : W) : t * W * list event :=
  let self := set_device_model self cpu int8 None in
  match WhisperModel w (model_name self) cpu int8 with
  | (Py.Ok m, w') =>
      (set_device_model self cpu int8 (Some (mkLoaded m cpu int8)), w',
       [EvConstruct cpu int8 true])
  | (Py.Raise _, w') =>
      (set_device_model self cpu int8 None, w',
       [EvConstruct cpu int8 false])
  end.

(** [load_model]. *)
Definition load_model (self : t) (w : W) : t * W * list event :=
  match _model self with
  | Some _ => (self, w, [])
  | None =>
      let d := device self in
      let c := compute_type self in
      match WhisperModel w (model_name self) d c with
      | (Py.Ok m, w') =>
          (set_device_model self d c (Some (mkLoaded m d c)), w',
           [EvConstruct d c true])
      | (Py.Raise _, w') =>
          if Py.str_eqb (device self) cuda then
            let '(self', w'', evs) := _fallback_to_cpu self w' in
            (self', w'', EvConstruct d c false :: evs)
          else (self, w', [EvConstruct d c false])
      end
  end.

(** Lines 156-166 of [transcribe_chunk]: the stripped, non-empty
    fragments joined by one space, [None] when nothing is left. *)
Definition collect_texts (segments : list Py.str) : list Py.str :=
  List.filter (fun text => negb (Py.is_empty text)) (map Py.strip segments).

Definition full_text (segments : list Py.str) : option Py.str :=
  match collect_texts segments with
  | [] => None
  | texts => Some (Py.join (Py.of_string " ") texts)
  end.

(** [len(chunk.data) / self.sample_rate]. *)
Definition chunk_duration (n sample_rate : Z) : Py.result float :=
  Py.int_truediv n sample_rate.

(** The test of the [except] branch of [transcribe_chunk]. *)
Definition is_backend_fault (error_msg : Py.str) : bool :=
  Py.contains cublas (Py.lower lower_table error_msg)
  || Py.contains cuda (Py.lower lower_table error_msg).

(** The [with self._lock:] block of [transcribe_chunk], entered with a
    loaded model [m]. *)
Definition locked_region (self : t) (m : loaded) (chunk : AudioChunk)
  (w : W) : Py.result (option TranscriptSegment) * W * list event :=
  match model_transcribe w (handle m) (data chunk) (language self) with
  | (Py.Raise e, w') =>
      (Py.Raise e, w', [EvTranscribe (built_device m) (Py.Raise e)])
  | (Py.Ok segments, w') =>
      let ev := [EvTranscribe (built_device m) (Py.Ok segments)] in
      match full_text segments with
      | None => (Py.Ok None, w', ev)
      | Some full =>
          match chunk_duration (Z.of_nat (length (data chunk)))
                               (sample_rate self) with
          | Py.Raise e => (Py.Raise e, w', ev)
          | Py.Ok dur =>
              let result :=
                mkSegment (source chunk) full (timestamp chunk) dur in
              match _on_transcript self with
              | None => (Py.Ok (Some result), w', ev)
              | Some callback =>
                  match callback result w' with
                  | (Py.Ok _, w'') => (Py.Ok (Some result), w'', ev)
                  | (Py.Raise e, w'') => (Py.Raise e, w'', ev)
                  end
              end
          end
      end
  end.

(** [transcribe_chunk]; [hub] is what loading the voice-activity model
    answers during this call. *)
Definition transcribe_chunk (hub : Py.result S) (chunk : AudioChunk)
  (self : t) (w : W)
  : Py.result (option TranscriptSegment) * t * W * list event :=
  let '(speech, vad') :=
    VoiceActivityDetector.contains_speech S score hub (_vad self)
      (data chunk) in
  let self := set_vad self vad' in
  if negb speech then (Py.Ok None, self, w, [])
  else
    let '(self, w, evs) := load_model self w in
    match _model self with
    | None => (Py.Ok None, self, w, evs)
    | Some m =>
        match locked_region self m chunk w with
        | (Py.Ok r, w', evs') => (Py.Ok r, self, w', evs ++ evs')
        | (Py.Raise error_msg, w', evs') =>
            if is_backend_fault error_msg then
              let '(self', w'', evs'') := _fallback_to_cpu self w' in
              (Py.Ok None, self', w'', evs ++ evs' ++ evs'')
            else (Py.Ok None, self, w', evs ++ evs')
        end
    end.

(** A sequence of calls of [transcribe_chunk] on one engine, each with
    its chunk and what the voice-activity hub answers; the results and
    the events of all calls are collected in order. *)
Fixpoint transcribe_all (calls : list (Py.result S * AudioChunk))
  (self : t) (w : W)
  : list (Py.result (option TranscriptSegment)) * t * W * list event :=
  match calls with
  | [] => ([], self, w, [])
  | (hub, chunk) :: rest =>
      let '(r, self', w', evs) := transcribe_chunk hub chunk self w in
      let '(rs, self'', w'', evs') := transcribe_all rest self' w' in
      (r :: rs, self'', w'', evs ++ evs')
  end.

(** The paths through [transcribe_chunk]. *)
Inductive path (hub : Py.result S) (chunk : AudioChunk) (self : t)
  (w : W) : Prop :=
| PathNoSpeech vad' :
    VoiceActivityDetector.contains_speech S score hub (_vad self)
      (data chunk) = (false, vad') ->
    transcribe_chunk hub chunk self w
    = (Py.Ok None, set_vad self vad', w, []) ->
    path hub chunk self w
| PathNoModel vad' self1 w1 evs1 :
    load_model (set_vad self vad') w = (self1, w1, evs1) ->
    _model self1 = None ->
    transcribe_chunk hub chunk self w = (Py.Ok None, self1, w1, evs1) ->
    path hub chunk self w
| PathReturned vad' self1 w1 evs1 m v w2 out :
    load_model (set_vad self vad') w = (self1, w1, evs1) ->
    _model self1 = Some m ->
    locked_region self1 m chunk w1
    = (Py.Ok v, w2, [EvTranscribe (built_device m) out]) ->
    transcribe_chunk hub chunk self w
    = (Py.Ok v, self1, w2, evs1 ++ [EvTranscribe (built_device m) out]) ->
    path hub chunk self w
| PathOtherError vad' self1 w1 evs1 m msg w2 out :
    load_model (set_vad self vad') w = (self1, w1, evs1) ->
    _model self1 = Some m ->
    locked_region self1 m chunk w1
    = (Py.Raise msg, w2, [EvTranscribe (built_device m) out]) ->
    is_backend_fault msg = false ->
    transcribe_chunk hub chunk self w
    = (Py.Ok None, self1, w2,
       evs1 ++ [EvTranscribe (built_device m) out]) ->
    path hub chunk self w
| PathBackendFault vad' self1 w1 evs1 m msg w2 out self2 w3 ok :
    load_model (set_vad self vad') w = (self1, w1, evs1) ->
    _model self1 = Some m ->
    locked_region self1 m chunk w1
    = (Py.Raise msg, w2, [EvTranscribe (built_device m) out]) ->
    is_backend_fault msg = true ->
    _fallback_to_cpu self1 w2 = (self2, w3, [EvConstruct cpu int8 ok]) ->
    transcribe_chunk hub chunk self w
    = (Py.Ok None, self2, w3,
       evs1 ++ [EvTranscribe (built_device m) out]
            ++ [EvConstruct cpu int8 ok]) ->
    path hub chunk self w.

(** The engine has left the primary backend: it is configured for the
    CPU and holds no model built for anything else. *)
Definition on_cpu (self : t) : Prop :=
  device self = cpu
  /\ compute_type self = int8
  /\ forall m, _model self = Some m -> built_device m = cpu.

(** What a method leaves alone. *)
Definition same_settings (a b : t) : Prop :=
  model_name a = model_name b
  /\ language a = language b
  /\ sample_rate a = sample_rate b
  /\ _on_transcript a = _on_transcript b.

(** A callback that never raises (none registered is one). *)
Definition callback_ok (self : t) : Prop :=
  forall cb, _on_transcript self = Some cb ->
  forall seg w, exists w', cb seg w = (Py.Ok tt, w').

End WithBackend.

(** An event that touches the CPU backend only. *)
Definition cpu_event (e : event) : Prop :=
  match e with
  | EvConstruct d _ _ => d = cpu
  | EvTranscribe d _ => d = cpu
  end.

Definition is_construct (e : event) : Prop :=
  match e with EvConstruct _ _ _ => True | EvTranscribe _ _ => False end.

End TranscriptionEngine.

(* ================================================================= *)
(** * The [json] functions [SessionManager] calls *)

Module Json.

(** A Python value that [json] reads or writes.  A [dict] keeps its
    keys in insertion order.  A number is kept as its literal, the
    [repr] of the Python number: [float(repr(x)) == x] and
    [int(repr(n)) == n], so equal literals stand for equal numbers. *)
Inductive value : Type :=
| Null
| Bool (b : bool)
| Num (literal : Py.str)
| Str (s : Py.str)
| Arr (items : list value)
| Obj (members : list (Py.str * value)).

Definition quote : N := 34.
Definition backslash : N := 92.
Definition newline : N := 10.
Definition carriage_return : N := 13.

Definition hex_digit (d : N) : N :=
  if (d <? 10)%N then (48 + d)%N else (87 + d)%N.

(** What the encoder writes for one character of a string
    ([ensure_ascii=False]): the two-character escapes, [\u00XX] for the
    other control characters, the character itself otherwise. *)
Definition escape_char (c : N) : Py.str :=
  if (c =? quote)%N then [backslash; quote]
  else if (c =? backslash)%N then [backslash; backslash]
  else if (c =? 8)%N then [backslash; 98%N]
  else if (c =? 12)%N then [backslash; 102%N]
  else if (c =? newline)%N then [backslash; 110%N]
  else if (c =? carriage_return)%N then [backslash; 114%N]
  else if (c =? 9)%N then [backslash; 116%N]
  else if (c <? 32)%N then
    [backslash; 117%N; 48%N; 48%N; hex_digit (c / 16); hex_digit (c mod 16)]
  else [c].

Definition encode_string (s : Py.str) : Py.str :=
  quote :: flat_map escape_char s ++ [quote].

(** [json.dumps(v, ensure_ascii=False)], separators [", "] and [": "]. *)
Fixpoint dumps (v : value) : Py.str :=
  match v with
  | Null => Py.of_string "null"
  | Bool true => Py.of_string "true"
  | Bool false => Py.of_string "false"
  | Num literal => literal
  | Str s => encode_string s
  | Arr items =>
      91%N :: Py.join (Py.of_string ", ") (map dumps items) ++ [93%N]
  | Obj members =>
      123%N
        :: Py.join (Py.of_string ", ")
             (map (fun kv => encode_string (fst kv) ++ Py.of_string ": "
                               ++ dumps (snd kv)) members)
        ++ [125%N]
  end.

(** ** Decoding *)

Definition is_ws (c : N) : bool :=
  ((c =? 32) || (c =? 9) || (c =? 10) || (c =? 13))%N.

Fixpoint skip_ws (s : Py.str) : Py.str :=
  match s with
  | c :: r => if is_ws c then skip_ws r else s
  | [] => []
  end.

Definition is_digit (c : N) : bool := ((48 <=? c) && (c <=? 57))%N.

Definition hex_value (c : N) : option N :=
  if is_digit c then Some (c - 48)%N
  else if ((97 <=? c) && (c <=? 102))%N then Some (c - 87)%N
  else if ((65 <=? c) && (c <=? 70))%N then Some (c - 55)%N
  else None.

(** The four hexadecimal digits after [\u]. *)
Definition decode_uXXXX (s : Py.str) : option (N * Py.str) :=
  match s with
  | a :: b :: c :: d :: rest =>
      match hex_value a, hex_value b, hex_value c, hex_value d with
      | Some a, Some b, Some c, Some d =>
          Some (((a * 16 + b) * 16 + c) * 16 + d, rest)%N
      | _, _, _, _ => None
      end
  | _ => None
  end.

(** The string scanner in strict mode, started after the opening
    quote; [acc] holds the characters read so far, last first. *)
Fixpoint scanstring (fuel : nat) (s : Py.str) (acc : Py.str)
  : option (Py.str * Py.str) :=
  match fuel with
  | O => None
  | Datatypes.S fuel' =>
      match s with
      | [] => None
      | c :: r =>
          if (c =? quote)%N then Some (rev acc, r)
          else if (c =? backslash)%N then
            match r with
            | [] => None
            | e :: r' =>
                if (e =? 117)%N then
                  match decode_uXXXX r' with
                  | None => None
                  | Some (uni, r'') =>
                      let pair :=
                        if ((55296 <=? uni) && (uni <=? 56319))%N then
                          match r'' with
                          | b :: u :: r3 =>
                              if ((b =? backslash) && (u =? 117))%N then
                                match decode_uXXXX r3 with
                                | Some (uni2, r4) =>
                                    if ((56320 <=? uni2)
                                        && (uni2 <=? 57343))%N
                                    then Some
                                           (65536 + ((uni - 55296) * 1024
                                                     + (uni2 - 56320)),
                                            r4)%N
                                    else None
                                | None => None
                                end
                              else None
                          | _ => None
                          end
                        else None in
                      match pair with
                      | Some (joined, r4) => scanstring fuel' r4 (joined :: acc)
                      | None => scanstring fuel' r'' (uni :: acc)
                      end
                  end
                else
                  let plain :=
                    if (e =? quote)%N then Some quote
                    else if (e =? backslash)%N then Some backslash
                    else if (e =? 47)%N then Some 47%N
                    else if (e =? 98)%N then Some 8%N
                    else if (e =? 102)%N then Some 12%N
                    else if (e =? 110)%N then Some newline
                    else if (e =? 114)%N then Some carriage_return
                    else if (e =? 116)%N then Some 9%N
                    else None in
                  match plain with
                  | Some ch => scanstring fuel' r' (ch :: acc)
                  | None => None
                  end
            end
          else if (c <? 32)%N then None
          else scanstring fuel' r (c :: acc)
      end
  end.

(** The longest run of digits at the head of [s], and what follows. *)
Fixpoint digits (s : Py.str) : Py.str * Py.str :=
  match s with
  | c :: r =>
      if is_digit c then let '(ds, r') := digits r in (c :: ds, r')
      else ([], s)
  | [] => ([], [])
  end.

(** The pieces of the number pattern of the decoder, each giving the
    text it matches at the head of [s] and what follows: an optional
    minus sign; 0, or a non-zero digit followed by digits; optionally a
    point and digits; optionally e or E, a sign and digits. *)
Definition sign_part (s : Py.str) : Py.str * Py.str :=
  match s with
  | c :: r => if (c =? 45)%N then ([c], r) else ([], s)
  | [] => ([], s)
  end.

Definition int_part (s : Py.str) : option (Py.str * Py.str) :=
  match s with
  | c :: r =>
      if (c =? 48)%N then Some ([c], r)
      else if is_digit c then let '(ds, r') := digits r in Some (c :: ds, r')
      else None
  | [] => None
  end.

Definition frac_part (s : Py.str) : Py.str * Py.str :=
  match s with
  | c :: r =>
      if (c =? 46)%N then
        match digits r with
        | ([], _) => ([], s)
        | (ds, r') => (c :: ds, r')
        end
      else ([], s)
  | [] => ([], s)
  end.

Definition exp_sign (s : Py.str) : Py.str * Py.str :=
  match s with
  | c :: r => if ((c =? 43) || (c =? 45))%N then ([c], r) else ([], s)
  | [] => ([], s)
  end.

Definition exp_part (s : Py.str) : Py.str * Py.str :=
  match s with
  | c :: r =>
      if ((c =? 101) || (c =? 69))%N then
        let '(esign, r1) := exp_sign r in
        match digits r1 with
        | ([], _) => ([], s)
        | (ds, r') => (c :: esign ++ ds, r')
        end
      else ([], s)
  | [] => ([], s)
  end.

(** The number pattern: the text matched and what follows it. *)
Definition scan_number (s : Py.str) : option (Py.str * Py.str) :=
  let '(sign, s1) := sign_part s in
  match int_part s1 with
  | None => None
  | Some (int, s2) =>
      let '(frac, s3) := frac_part s2 in
      let '(exp, s4) := exp_part s3 in
      Some (sign ++ int ++ frac ++ exp, s4)
  end.

(** [d[k] = v] on a [dict]. *)
Fixpoint dict_set (members : list (Py.str * value)) (k : Py.str) (v : value)
  : list (Py.str * value) :=
  match members with
  | [] => [(k, v)]
  | (k', v') :: rest =>
      if Py.str_eqb k' k then (k', v) :: rest
      else (k', v') :: dict_set rest k v
  end.

Definition strip_prefix (prefix s : Py.str) : option Py.str :=
  if Py.startswith s prefix then Some (skipn (length prefix) s) else None.

(** The scanner: one value at the head of [s], and what follows. *)
Fixpoint scan_once (fuel : nat) (s : Py.str) : option (value * Py.str) :=
  match fuel with
  | O => None
  | Datatypes.S fuel' =>
      match s with
      | [] => None
      | c :: r =>
          if (c =? quote)%N then
            match scanstring (length r) r [] with
            | Some (str, r') => Some (Str str, r')
            | None => None
            end
          else if (c =? 123)%N then
            match skip_ws r with
            | c' :: r' =>
                if (c' =? 125)%N then Some (Obj [], r')
                else scan_members fuel' (c' :: r') []
            | [] => None
            end
          else if (c =? 91)%N then
            match skip_ws r with
            | c' :: r' =>
                if (c' =? 93)%N then Some (Arr [], r')
                else scan_items fuel' (c' :: r') []
            | [] => None
            end
          else
            match strip_prefix (Py.of_string "null") s,
                  strip_prefix (Py.of_string "true") s,
                  strip_prefix (Py.of_string "false") s with
            | Some r', _, _ => Some (Null, r')
            | _, Some r', _ => Some (Bool true, r')
            | _, _, Some r' => Some (Bool false, r')
            | None, None, None =>
                match scan_number s with
                | Some (literal, r') => Some (Num literal, r')
                | None =>
                    match strip_prefix (Py.of_string "NaN") s,
                          strip_prefix (Py.of_string "Infinity") s,
                          strip_prefix (Py.of_string "-Infinity") s with
                    | Some r', _, _ => Some (Num (Py.of_string "NaN"), r')
                    | _, Some r', _ =>
                        Some (Num (Py.of_string "Infinity"), r')
                    | _, _, Some r' =>
                        Some (Num (Py.of_string "-Infinity"), r')
                    | None, None, None => None
                    end
                end
            end
      end
  end

(** The members of an object, from a key on; [acc] is the [dict] built
    so far. *)
with scan_members (fuel : nat) (s : Py.str) (acc : list (Py.str * value))
  : option (value * Py.str) :=
  match fuel with
  | O => None
  | Datatypes.S fuel' =>
      match s with
      | c :: r =>
          if (c =? quote)%N then
            match scanstring (length r) r [] with
            | None => None
            | Some (key, r1) =>
                match skip_ws r1 with
                | c1 :: r2 =>
                    if (c1 =? 58)%N then
                      match scan_once fuel' (skip_ws r2) with
                      | None => None
                      | Some (v, r3) =>
                          let acc := dict_set acc key v in
                          match skip_ws r3 with
                          | c3 :: r4 =>
                              if (c3 =? 125)%N then Some (Obj acc, r4)
                              else if (c3 =? 44)%N then
                                scan_members fuel' (skip_ws r4) acc
                              else None
                          | [] => None
                          end
                      end
                    else None
                | [] => None
                end
            end
          else None
      | [] => None
      end
  end

(** The items of an array, from a value on. *)
with scan_items (fuel : nat) (s : Py.str) (acc : list value)
  : option (value * Py.str) :=
  match fuel with
  | O => None
  | Datatypes.S fuel' =>
      match scan_once fuel' s with
      | None => None
      | Some (v, r) =>
          match skip_ws r with
          | c :: r' =>
              if (c =? 93)%N then Some (Arr (acc ++ [v]), r')
              else if (c =? 44)%N then
                scan_items fuel' (skip_ws r') (acc ++ [v])
              else None
          | [] => None
          end
      end
  end.

(** [json.loads(s)]: one value, white space around it, nothing else. *)
Definition loads (s : Py.str) : Py.result value :=
  match scan_once (Datatypes.S (length s)) (skip_ws s) with
  | Some (v, r) =>
      match skip_ws r with
      | [] => Py.Ok v
      | _ :: _ => Py.Raise (Py.of_string "Extra data")
      end
  | None => Py.Raise (Py.of_string "Expecting value")
  end.

(** A character no number goes on with. *)
Definition ends_number (c : N) : bool :=
  negb (is_digit c || (c =? 46) || (c =? 101) || (c =? 69) || (c =? 43)
        || (c =? 45))%N.

(** A character a number can hold. *)
Definition number_char (c : N) : bool :=
  (is_digit c || (c =? 46) || (c =? 101) || (c =? 69) || (c =? 43)
   || (c =? 45))%N.

(** A literal the number pattern matches whole. *)
Definition number_literal (literal : Py.str) : bool :=
  match scan_number literal with
  | Some (matched, []) => Py.str_eqb matched literal
  | _ => false
  end.

(** [d.get(k)] on a [dict]. *)
Fixpoint dict_get (members : list (Py.str * value)) (k : Py.str)
  : option value :=
  match members with
  | [] => None
  | (k', v) :: rest => if Py.str_eqb k' k then Some v else dict_get rest k
  end.

End Json.

(* ================================================================= *)
(** * session/manager.py *)

Module SessionManager.

Record SessionMetadata : Type := mkMetadata {
  id : Py.str;
  name : Py.str;
  created_at : Py.str;
  updated_at : Py.str;
  mic_device : Py.str;
  speaker_device : Py.str
}.

(** What lies under [sessions_dir]: the session directories that exist
    and the text of the files in them, by session id and file name
    (ids are taken to be plain names, without path separators). *)
Record disk : Type := mkDisk {
  dirs : gset Py.str;
  files : gmap (Py.str * Py.str) Py.str
}.

Definition transcript_jsonl : Py.str := Py.of_string "transcript.jsonl".
Definition metadata_json : Py.str := Py.of_string "metadata.json".

(** A text the UTF-8 codec accepts: code points below [0x110000], no
    surrogates. *)
Definition encodable (s : Py.str) : bool :=
  forallb (fun c => (c <? 1114112)%N
                    && negb ((55296 <=? c)%N && (c <=? 57343)%N)) s.

(** [f.write(chunk)] for each chunk in turn, stopping at the first the
    codec refuses: the text that reached the file, and whether all of
    it did. *)
Fixpoint write_chunks (chunks : list Py.str) : Py.str * bool :=
  match chunks with
  | [] => ([], true)
  | chunk :: rest =>
      if encodable chunk then
        let '(text, ok) := write_chunks rest in (chunk ++ text, ok)
      else ([], false)
  end.

Definition no_such_directory : Py.str :=
  Py.of_string "No such file or directory".
Definition cannot_encode : Py.str :=
  Py.of_string "'utf-8' codec can't encode character: surrogates not allowed".

(** [with open(path, mode, encoding="utf-8") as f: f.write(...)], for
    mode "w" ([append = false]) or "a" ([append = true]). *)
Definition write_file (append : bool) (session_id filename : Py.str)
  (chunks : list Py.str) (d : disk) : Py.result unit * disk :=
  if bool_decide (session_id ∈ dirs d) then
    let old :=
      if append then default [] (files d !! (session_id, filename))
      else [] in
    let '(text, ok) := write_chunks chunks in
    let d' :=
      mkDisk (dirs d) (<[(session_id, filename) := old ++ text]> (files d)) in
    (if ok then Py.Ok tt else Py.Raise cannot_encode, d')
  else (Py.Raise no_such_directory, d).

(** The chunks [json.dump(asdict(metadata), f, ensure_ascii=False,
    indent=2)] writes. *)
Definition metadata_field (key : string) (v : Py.str) : list Py.str :=
  [Json.encode_string (Py.of_string key); Py.of_string ": ";
   Json.encode_string v].

Definition metadata_chunks (metadata : SessionMetadata) : list Py.str :=
  let sep := [[44%N; Json.newline; 32%N; 32%N]] in
  [[123%N]; [Json.newline; 32%N; 32%N]]
    ++ metadata_field "id" (id metadata) ++ sep
    ++ metadata_field "name" (name metadata) ++ sep
    ++ metadata_field "created_at" (created_at metadata) ++ sep
    ++ metadata_field "updated_at" (updated_at metadata) ++ sep
    ++ metadata_field "mic_device" (mic_device metadata) ++ sep
    ++ metadata_field "speaker_device" (speaker_device metadata)
    ++ [[Json.newline]; [125%N]].

Record t : Type := mk {
  _current_session : option SessionMetadata;
  _transcript_log : list Json.value
}.

(** [__init__] (the sessions directory is taken to exist). *)
Definition init : t := mk None [].

(** [_save_metadata]. *)
Definition _save_metadata (metadata : SessionMetadata) (d : disk)
  : Py.result unit * disk :=
  write_file false (id metadata) metadata_json (metadata_chunks metadata) d.

(** [create_session]; [session_id], [session_name] and [now] are what
    the clock and the caller's [name] give. *)
Definition create_session (session_id session_name now : Py.str)
  (self : t) (d : disk) : Py.result SessionMetadata * t * disk :=
  let d := mkDisk (dirs d ∪ {[session_id]}) (files d) in
  let metadata := mkMetadata session_id session_name now now [] [] in
  match _save_metadata metadata d with
  | (Py.Raise e, d') => (Py.Raise e, self, d')
  | (Py.Ok _, d') => (Py.Ok metadata, mk (Some metadata) [], d')
  end.

(** [_append_to_log]. *)
Definition _append_to_log (filename : Py.str) (entry : Json.value)
  (self : t) (d : disk) : Py.result unit * disk :=
  match _current_session self with
  | None => (Py.Ok tt, d)
  | Some session =>
      write_file true (id session) filename
        [Json.dumps entry ++ [Json.newline]] d
  end.

(** [_update_timestamp]; [now] is [datetime.now().isoformat()]. *)
Definition _update_timestamp (now : Py.str) (self : t) (d : disk)
  : Py.result unit * t * disk :=
  match _current_session self with
  | None => (Py.Ok tt, self, d)
  | Some session =>
      let session :=
        mkMetadata (id session) (name session) (created_at session) now
          (mic_device session) (speaker_device session) in
      let self := mk (Some session) (_transcript_log self) in
      let '(r, d') := _save_metadata session d in
      (r, self, d')
  end.

(** The [dict] [add_transcript] builds. *)
Definition entry (speaker text timestamp : Py.str) : Json.value :=
  Json.Obj [(Py.of_string "speaker", Json.Str speaker);
            (Py.of_string "text", Json.Str text);
            (Py.of_string "timestamp", Json.Num timestamp)].

(** [add_transcript]; the [timestamp] is given by its [repr]. *)
Definition add_transcript (speaker text timestamp : Py.str) (now : Py.str)
  (self : t) (d : disk) : Py.result unit * t * disk :=
  let entry := entry speaker text timestamp in
  let self := mk (_current_session self) (_transcript_log self ++ [entry]) in
  match _current_session self with
  | None => (Py.Ok tt, self, d)
  | Some _ =>
      match _append_to_log transcript_jsonl entry self d with
      | (Py.Raise e, d') => (Py.Raise e, self, d')
      | (Py.Ok _, d') => _update_timestamp now self d'
      end
  end.

(** Reading a text file: [\r\n] and [\r] become [\n].  [pending_cr]
    tells that the character just read was a [\r]. *)
Fixpoint translate_newlines (pending_cr : bool) (s : Py.str) : Py.str :=
  match s with
  | [] => []
  | c :: r =>
      if (c =? Json.carriage_return)%N then
        Json.newline :: translate_newlines true r
      else if (c =? Json.newline)%N && pending_cr then
        translate_newlines false r
      else c :: translate_newlines false r
  end.

Definition universal_newlines (s : Py.str) : Py.str :=
  translate_newlines false s.

(** The lines of a text, each with its newline; [cur] is the line being
    read, last character first. *)
Fixpoint split_lines (s : Py.str) (cur : Py.str) : list Py.str :=
  match s with
  | [] => match cur with [] => [] | _ :: _ => [rev cur] end
  | c :: r =>
      if (c =? Json.newline)%N then rev (c :: cur) :: split_lines r []
      else split_lines r (c :: cur)
  end.

(** [for line in f]. *)
Definition readlines (text : Py.str) : list Py.str :=
  split_lines (universal_newlines text) [].

(** The loop of [_load_transcript] over the lines that remain. *)
Fixpoint load_lines (lines : list Py.str) (entries : list Json.value)
  : Py.result (list Json.value) :=
  match lines with
  | [] => Py.Ok entries
  | line :: rest =>
      let line := Py.strip line in
      if Py.is_empty line then load_lines rest entries
      else
        match Json.loads line with
        | Py.Raise e => Py.Raise e
        | Py.Ok v => load_lines rest (entries ++ [v])
        end
  end.

(** [_load_transcript]. *)
Definition _load_transcript (session_id : Py.str) (d : disk)
  : Py.result (list Json.value) :=
  match files d !! (session_id, transcript_jsonl) with
  | None => Py.Ok []
  | Some text => load_lines (readlines text) []
  end.

(** The segments handed to [add_transcript] one after the other, each
    with the clock reading of its call; an exception of one call does
    not keep the pipeline loop from making the next. *)
Fixpoint add_transcripts
  (segments : list (Py.str * Py.str * Py.str * Py.str)) (self : t) (d : disk)
  : t * disk :=
  match segments with
  | [] => (self, d)
  | (speaker, text, timestamp, now) :: rest =>
      let '(_, self', d') := add_transcript speaker text timestamp now self d in
      add_transcripts rest self' d'
  end.

(** A segment the log can hold: text the codec accepts and a timestamp
    that is a number. *)
Definition storable (segment : Py.str * Py.str * Py.str * Py.str) : bool :=
  let '(speaker, text, timestamp, _) := segment in
  encodable speaker && encodable text && Json.number_literal timestamp.

Definition entry_of (segment : Py.str * Py.str * Py.str * Py.str)
  : Json.value :=
  let '(speaker, text, timestamp, _) := segment in
  entry speaker text timestamp.

(** The text of the transcript file of a session, empty when there is
    none. *)
Definition transcript_text (session_id : Py.str) (d : disk) : Py.str :=
  default [] (files d !! (session_id, transcript_jsonl)).

(** A text without line breaks. *)
Definition no_breaks (s : Py.str) : bool :=
  forallb (fun c => negb (c =? Json.newline)%N
                    && negb (c =? Json.carriage_return)%N) s.

(** A text that is empty or ends with a newline. *)
Definition ends_lines (text : Py.str) : bool :=
  match rev text with
  | [] => true
  | c :: _ => (c =? Json.newline)%N
  end.

(** ** The other records of a session *)

Definition ai_responses_jsonl : Py.str := Py.of_string "ai_responses.jsonl".

(** The [dict] [add_ai_response] builds; [timestamp] is the [repr] of
    what [time.time()] returned. *)
Definition ai_entry (selected_text answer provider timestamp : Py.str)
  : Json.value :=
  Json.Obj [(Py.of_string "selected_text", Json.Str selected_text);
            (Py.of_string "answer", Json.Str answer);
            (Py.of_string "provider", Json.Str provider);
            (Py.of_string "timestamp", Json.Num timestamp)].

(** [add_ai_response]. *)
Definition add_ai_response (selected_text answer provider timestamp : Py.str)
  (self : t) (d : disk) : Py.result unit * t * disk :=
  let entry := ai_entry selected_text answer provider timestamp in
  match _current_session self with
  | None => (Py.Ok tt, self, d)
  | Some _ =>
      let '(r, d') := _append_to_log ai_responses_jsonl entry self d in
      (r, self, d')
  end.

(** ** Reading a session back *)

(** [asdict(metadata)]: the fields in the order of their declaration. *)
Definition asdict (metadata : SessionMetadata) : list (Py.str * Py.str) :=
  [(Py.of_string "id", id metadata);
   (Py.of_string "name", name metadata);
   (Py.of_string "created_at", created_at metadata);
   (Py.of_string "updated_at", updated_at metadata);
   (Py.of_string "mic_device", mic_device metadata);
   (Py.of_string "speaker_device", speaker_device metadata)].

Definition field_names : list Py.str :=
  [Py.of_string "id"; Py.of_string "name"; Py.of_string "created_at";
   Py.of_string "updated_at"; Py.of_string "mic_device";
   Py.of_string "speaker_device"].

Definition as_str (v : Json.value) : option Py.str :=
  match v with Json.Str s => Some s | _ => None end.

(** [SessionMetadata] called with the members of [data] as its keyword
    arguments.  The call raises a [TypeError] when
    [data] is not a [dict], holds a key that is not a field, or lacks
    one of the four fields without a default.  The constructor does not
    look at the values: Python builds the record whatever they are.
    The records of this development hold strings, which is what the
    program itself writes; a [dict] that passes the checks with a value
    of another type is outside them, and gives [None]. *)
Definition construct (data : Json.value)
  : option (Py.result SessionMetadata) :=
  match data with
  | Json.Obj members =>
      if negb (forallb (fun kv => existsb (Py.str_eqb (fst kv)) field_names)
                 members)
      then Some (Py.Raise (Py.of_string "got an unexpected keyword argument"))
      else
        match Json.dict_get members (Py.of_string "id"),
              Json.dict_get members (Py.of_string "name"),
              Json.dict_get members (Py.of_string "created_at"),
              Json.dict_get members (Py.of_string "updated_at") with
        | Some i, Some n, Some c, Some u =>
            match as_str i, as_str n, as_str c, as_str u,
                  as_str (default (Json.Str [])
                            (Json.dict_get members
                               (Py.of_string "mic_device"))),
                  as_str (default (Json.Str [])
                            (Json.dict_get members
                               (Py.of_string "speaker_device"))) with
            | Some i, Some n, Some c, Some u, Some mic, Some speaker =>
                Some (Py.Ok (mkMetadata i n c u mic speaker))
            | _, _, _, _, _, _ => None
            end
        | _, _, _, _ =>
            Some (Py.Raise
                    (Py.of_string "missing required positional arguments"))
        end
  | _ =>
      Some (Py.Raise (Py.of_string "argument after ** must be a mapping"))
  end.

(** [load_session]: what is returned and the manager afterwards; [None]
    where [construct] gives [None].  The session becomes the current
    one before its transcript is read, so a transcript that cannot be
    read leaves the new session with the old log. *)
Definition load_session (session_id : Py.str) (self : t) (d : disk)
  : option (option SessionMetadata * t) :=
  match files d !! (session_id, metadata_json) with
  | None => Some (None, self)
  | Some text =>
      match Json.loads (universal_newlines text) with
      | Py.Raise _ => Some (None, self)
      | Py.Ok data =>
          match construct data with
          | None => None
          | Some (Py.Raise _) => Some (None, self)
          | Some (Py.Ok metadata) =>
              let self := mk (Some metadata) (_transcript_log self) in
              match _load_transcript session_id d with
              | Py.Raise _ => Some (None, self)
              | Py.Ok entries =>
                  Some (Some metadata, mk (Some metadata) entries)
              end
          end
      end
  end.

(** ** Renaming *)

(** The chunks [json.dump(data, f, ensure_ascii=False, indent=2)]
    writes for a [dict] whose values are strings. *)
Fixpoint member_chunks (fields : list (Py.str * Py.str)) : list Py.str :=
  match fields with
  | [] => []
  | (k, v) :: rest =>
      [Json.encode_string k; Py.of_string ": "; Json.encode_string v]
        ++ match rest with
           | [] => []
           | _ :: _ =>
               [[44%N; Json.newline; 32%N; 32%N]] ++ member_chunks rest
           end
  end.

Definition dict_chunks (fields : list (Py.str * Py.str)) : list Py.str :=
  match fields with
  | [] => [Py.of_string "{}"]
  | _ :: _ =>
      [[123%N]; [Json.newline; 32%N; 32%N]] ++ member_chunks fields
        ++ [[Json.newline]; [125%N]]
  end.

(** The members of a [dict] if all its values are strings. *)
Fixpoint string_members (members : list (Py.str * Json.value))
  : option (list (Py.str * Py.str)) :=
  match members with
  | [] => Some []
  | (k, Json.Str v) :: rest =>
      match string_members rest with
      | Some fields => Some ((k, v) :: fields)
      | None => None
      end
  | _ :: _ => None
  end.

Definition with_name (session : SessionMetadata) (new_name : Py.str)
  : SessionMetadata :=
  mkMetadata (id session) new_name (created_at session) (updated_at session)
    (mic_device session) (speaker_device session).

(** [rename_session]; [now] is [datetime.now().isoformat()].  The
    metadata file is read, two keys are set and the [dict] is written
    back; the current session, if it is the one renamed, gets the new
    name (its [updated_at] stays).  Modelled for metadata whose values
    are strings: [None] otherwise, where the indented dump of nested
    values and of numbers read from the file would be needed. *)
Definition rename_session (session_id new_name now : Py.str) (self : t)
  (d : disk) : option (Py.result unit * t * disk) :=
  match files d !! (session_id, metadata_json) with
  | None => Some (Py.Ok tt, self, d)
  | Some text =>
      match Json.loads (universal_newlines text) with
      | Py.Raise e => Some (Py.Raise e, self, d)
      | Py.Ok (Json.Obj members) =>
          let members :=
            Json.dict_set
              (Json.dict_set members (Py.of_string "name")
                 (Json.Str new_name))
              (Py.of_string "updated_at") (Json.Str now) in
          match string_members members with
          | None => None
          | Some fields =>
              match write_file false session_id metadata_json
                      (dict_chunks fields) d with
              | (Py.Raise e, d') => Some (Py.Raise e, self, d')
              | (Py.Ok _, d') =>
                  Some (Py.Ok tt,
                        match _current_session self with
                        | Some session =>
                            if Py.str_eqb (id session) session_id
                            then mk (Some (with_name session new_name))
                                    (_transcript_log self)
                            else self
                        | None => self
                        end, d')
              end
          end
      | Py.Ok _ =>
          Some (Py.Raise
                  (Py.of_string "object does not support item assignment"),
                self, d)
      end
  end.

(** A session as the program leaves it on the disk: its directory is
    there and its metadata file holds the dump of the record, every
    chunk of which the codec accepted. *)
Definition stored (session : SessionMetadata) (d : disk) : Prop :=
  id session ∈ dirs d
  /\ files d !! (id session, metadata_json)
     = Some (concat (metadata_chunks session))
  /\ forallb encodable (metadata_chunks session) = true.

(** A text without carriage returns: reading it translates nothing. *)
Definition no_returns (s : Py.str) : bool :=
  forallb (fun c => negb (c =? Json.carriage_return)%N) s.

(** The [dict] the decoder builds from members read one after the
    other. *)
Definition dict_of (fields : list (Py.str * Py.str))
  (acc : list (Py.str * Json.value)) : list (Py.str * Json.value) :=
  fold_left (fun acc kv => Json.dict_set acc (fst kv) (Json.Str (snd kv)))
    fields acc.

(** The record [_update_timestamp] leaves. *)
Definition touched (session : SessionMetadata) (now : Py.str)
  : SessionMetadata :=
  mkMetadata (id session) (name session) (created_at session) now
    (mic_device session) (speaker_device session).

(** ** The sessions on the disk *)

(** The body of the loop of [list_sessions] for one directory:
    [Some None] where it goes on to the next directory (no metadata
    file, or an exception while reading it), [None] where [construct]
    gives [None]. *)
Definition read_metadata (session_id : Py.str) (d : disk)
  : option (option SessionMetadata) :=
  match files d !! (session_id, metadata_json) with
  | None => Some None
  | Some text =>
      match Json.loads (universal_newlines text) with
      | Py.Raise _ => Some None
      | Py.Ok data =>
          match construct data with
          | None => None
          | Some (Py.Raise _) => Some None
          | Some (Py.Ok metadata) => Some (Some metadata)
          end
      end
  end.

(** The loop of [list_sessions] over the directories that remain. *)
Fixpoint list_from (names : list Py.str) (d : disk)
  : option (list SessionMetadata) :=
  match names with
  | [] => Some []
  | session_id :: rest =>
      match read_metadata session_id d, list_from rest d with
      | Some (Some metadata), Some sessions => Some (metadata :: sessions)
      | Some None, Some sessions => Some sessions
      | _, _ => None
      end
  end.

(** [list_sessions]: the directories of the sessions directory, the
    greatest path first.  Paths of one directory compare as their names
    do once the platform has folded their case: [normcase] is the
    identity on a POSIX system and [str.lower] on Windows, and the
    folded names compare by code points.  [elements] stands for the
    order in which [iterdir] yields the directories. *)
Definition list_sessions (normcase : Py.str -> Py.str) (d : disk)
  : option (list SessionMetadata) :=
  list_from (Py.sorted_reverse normcase (elements (dirs d))) d.

(** [load_latest_session]: the session loaded is the one whose
    directory is named by the [id] the first listed metadata holds. *)
Definition load_latest_session (normcase : Py.str -> Py.str) (self : t)
  (d : disk) : option (option SessionMetadata * t) :=
  match list_sessions normcase d with
  | None => None
  | Some [] => Some (None, self)
  | Some (latest :: _) => load_session (id latest) self d
  end.

End SessionManager.

(* ================================================================= *)
(** * Calls of [transcribe_chunk] running side by side *)

Module Concurrent.

(** Where a thread stands in [transcribe_chunk], as far as the lock is
    concerned. *)
Inductive pc : Type :=
| AtVad        (** line 138, before [contains_speech] *)
| AtLoad       (** line 142, before [load_model] *)
| AtLock       (** line 147, waiting at [with self._lock:] *)
| AtInvoke     (** line 148, lock held, before [self._model.transcribe] *)
| InInference  (** lines 148-161, the model is running *)
| AtCollect    (** lines 163-179, lock held, the fragments are in *)
| AtRaise      (** lock held, an exception is leaving the [with] block *)
| AtHandler    (** lines 181-189, the [except] branch *)
| Returned.

(** The pcs at which the thread is inside the [with] block. *)
Definition holds_lock (p : pc) : bool :=
  match p with
  | AtInvoke | InInference | AtCollect | AtRaise => true
  | _ => false
  end.

(** [lock] is the thread that holds [self._lock], [pcs] the threads,
    [in_flight] the number of calls of the model in progress and
    [high_water] the largest value [in_flight] has taken. *)
Record state : Type := mk {
  lock : option nat;
  pcs : list pc;
  in_flight : nat;
  high_water : nat
}.

(** [n] calls submitted, none started. *)
Definition init (n : nat) : state := mk None (replicate n AtVad) 0 0.

Definition move (st : state) (i : nat) (p : pc) : state :=
  mk (lock st) (<[i := p]> (pcs st)) (in_flight st) (high_water st).

(** One step of thread [i]; [choice] is what the outside answers where
    the code branches on it (speech or not, a model or none, fragments
    or an exception, lines 163-179 running through or raising, the
    callback for one).  [None] when the thread cannot move: it has
    returned, or it waits for a lock another thread holds. *)
Definition step (i : nat) (choice : bool) (st : state) : option state :=
  match pcs st !! i with
  | Some AtVad => Some (move st i (if choice then AtLoad else Returned))
  | Some AtLoad => Some (move st i (if choice then AtLock else Returned))
  | Some AtLock =>
      match lock st with
      | None =>
          Some (mk (Some i) (<[i := AtInvoke]> (pcs st)) (in_flight st)
                  (high_water st))
      | Some _ => None
      end
  | Some AtInvoke =>
      Some (mk (lock st) (<[i := InInference]> (pcs st))
              (Datatypes.S (in_flight st))
              (Nat.max (high_water st) (Datatypes.S (in_flight st))))
  | Some InInference =>
      Some (mk (lock st)
              (<[i := if choice then AtCollect else AtRaise]> (pcs st))
              (Nat.pred (in_flight st)) (high_water st))
  | Some AtCollect =>
      if choice then
        Some (mk None (<[i := Returned]> (pcs st)) (in_flight st)
                (high_water st))
      else Some (move st i AtRaise)
  | Some AtRaise =>
      Some (mk None (<[i := AtHandler]> (pcs st)) (in_flight st)
              (high_water st))
  | Some AtHandler => Some (move st i Returned)
  | Some Returned => None
  | None => None
  end.

(** A schedule: which thread moves next, and with which answer. *)
Fixpoint run (schedule : list (nat * bool)) (st : state) : option state :=
  match schedule with
  | [] => Some st
  | (i, choice) :: rest =>
      match step i choice st with
      | Some st' => run rest st'
      | None => None
      end
  end.

(** What every reachable state satisfies: a thread inside the [with]
    block is the one that holds the lock, and the count of calls in
    progress is 1 when the holder is in the model and 0 otherwise. *)
Definition exclusive (st : state) : Prop :=
  (forall i p, pcs st !! i = Some p -> holds_lock p = true ->
               lock st = Some i)
  /\ ((in_flight st = 0%nat
       /\ forall i, pcs st !! i <> Some InInference)
      \/ (in_flight st = 1%nat
          /\ exists i, lock st = Some i /\ pcs st !! i = Some InInference))
  /\ (high_water st <= 1)%nat.

End Concurrent.

(* ================================================================= *)
(** * ai/learning.py *)

Module LearningStore.

(** [UserUtterance]; the [timestamp], a [float], is kept as the literal
    [json] writes for it. *)
Record UserUtterance : Type := mkUtterance {
  text : Py.str;
  timestamp : Py.str;
  session_id : Py.str;
  context : Py.str
}.

(** [asdict(utterance)]. *)
Definition asdict (utterance : UserUtterance) : Json.value :=
  Json.Obj [(Py.of_string "text", Json.Str (text utterance));
            (Py.of_string "timestamp", Json.Num (timestamp utterance));
            (Py.of_string "session_id", Json.Str (session_id utterance));
            (Py.of_string "context", Json.Str (context utterance))].

(** [record], on the text of [utterances.jsonl] ([None]: no such file
    yet; its directory exists since [__init__]).  The file is opened for
    appending, which creates it, and one line is written; an exception
    is printed, not raised. *)
Definition record (utterance : UserUtterance) (file : option Py.str)
  : option Py.str :=
  let line := Json.dumps (asdict utterance) ++ [Json.newline] in
  if SessionManager.encodable line then Some (default [] file ++ line)
  else Some (default [] file).

(** ** Reading the examples back *)

Definition field_names : list Py.str :=
  [Py.of_string "text"; Py.of_string "timestamp"; Py.of_string "session_id";
   Py.of_string "context"].

Definition as_num (v : Json.value) : option Py.str :=
  match v with Json.Num literal => Some literal | _ => None end.

(** [UserUtterance] called with the members of [data] as its keyword
    arguments.  The call raises a [TypeError] when [data] is not a
    [dict], holds a key that is not a field, or lacks one of the three
    fields without a default.  The constructor does not look at the
    values; the records of this development hold strings and, for the
    timestamp, the literal of a number, which is what [record] writes:
    a [dict] that passes the checks with a value of another type is
    outside them, and gives [None]. *)
Definition construct (data : Json.value) : option (Py.result UserUtterance) :=
  match data with
  | Json.Obj members =>
      if negb (forallb (fun kv => existsb (Py.str_eqb (fst kv)) field_names)
                 members)
      then Some (Py.Raise (Py.of_string "got an unexpected keyword argument"))
      else
        match Json.dict_get members (Py.of_string "text"),
              Json.dict_get members (Py.of_string "timestamp"),
              Json.dict_get members (Py.of_string "session_id") with
        | Some t, Some ts, Some sid =>
            match SessionManager.as_str t, as_num ts,
                  SessionManager.as_str sid,
                  SessionManager.as_str
                    (default (Json.Str [])
                       (Json.dict_get members (Py.of_string "context"))) with
            | Some t, Some ts, Some sid, Some c =>
                Some (Py.Ok (mkUtterance t ts sid c))
            | _, _, _, _ => None
            end
        | _, _, _ =>
            Some (Py.Raise
                    (Py.of_string "missing required positional arguments"))
        end
  | _ =>
      Some (Py.Raise (Py.of_string "argument after ** must be a mapping"))
  end.

(** The loop of [get_recent_examples] over the lines that remain;
    [None] where [construct] gives [None]. *)
Fixpoint load_examples (lines : list Py.str) (utterances : list UserUtterance)
  : option (Py.result (list UserUtterance)) :=
  match lines with
  | [] => Some (Py.Ok utterances)
  | line :: rest =>
      let line := Py.strip line in
      if Py.is_empty line then load_examples rest utterances
      else
        match Json.loads line with
        | Py.Raise e => Some (Py.Raise e)
        | Py.Ok data =>
            match construct data with
            | None => None
            | Some (Py.Raise e) => Some (Py.Raise e)
            | Some (Py.Ok utterance) =>
                load_examples rest (utterances ++ [utterance])
            end
        end
  end.

(** [get_recent_examples(n)], on the text of [utterances.jsonl]: no
    file, no examples; an exception anywhere in the reading is printed
    and the list returned is empty. *)
Definition get_recent_examples (n : Z) (file : option Py.str)
  : option (list UserUtterance) :=
  match file with
  | None => Some []
  | Some text =>
      let lines := SessionManager.readlines text in
      let recent :=
        if n <=? Z.of_nat (length lines) then Py.slice_from lines (- n)
        else lines in
      match load_examples recent [] with
      | None => None
      | Some (Py.Raise _) => Some []
      | Some (Py.Ok utterances) => Some utterances
      end
  end.

(** An utterance the file can hold: text the codec accepts and a
    timestamp that is a number. *)
Definition storable (utterance : UserUtterance) : bool :=
  SessionManager.encodable (text utterance)
  && Json.number_literal (timestamp utterance)
  && SessionManager.encodable (session_id utterance)
  && SessionManager.encodable (context utterance).

(** Utterances recorded one after the other. *)
Definition records (utterances : list UserUtterance) (file : option Py.str)
  : option Py.str :=
  fold_left (fun file utterance => record utterance file) utterances file.

End LearningStore.

(* ================================================================= *)
(** * ws/router.py: the transcription loop *)

Module AlterBackend.

Section WithBackend.

Variables W M : Type.
Variable WhisperModel :
  W -> Py.str -> Py.str -> Py.str -> Py.result M * W.
Variable model_transcribe :
  W -> M -> list float -> Py.str -> Py.result (list Py.str) * W.
Variable S : Type.
Variable score : S -> list float -> Z -> Py.result float * S.
Variable lower_table : Py.str -> nat -> Py.str.

(** What [json] writes for a [float]: its [repr], or [NaN],
    [Infinity], [-Infinity]. *)
Variable float_literal : float -> Py.str.

(** The backend as far as the loop touches it: the session manager and
    the sessions directory, the utterance file of the learning store,
    the engine, the capture object, and whether a socket is connected.
    [sent] lists the messages handed to [send_json], in order; it is
    not part of the Python object. *)
Record t : Type := mk {
  session_manager : SessionManager.t;
  sessions : SessionManager.disk;
  utterances : option Py.str;
  transcription_engine : TranscriptionEngine.t W M S;
  audio_capture : AudioCapture.t;
  _ws : bool;
  sent : list Json.value
}.

(** The message of type "transcript". *)
Definition transcript_message (segment : TranscriptionEngine.TranscriptSegment)
  : Json.value :=
  Json.Obj [(Py.of_string "type", Json.Str (Py.of_string "transcript"));
            (Py.of_string "speaker",
             Json.Str (TranscriptionEngine.speaker segment));
            (Py.of_string "text", Json.Str (TranscriptionEngine.text segment));
            (Py.of_string "timestamp",
             Json.Num (float_literal
                         (TranscriptionEngine.seg_timestamp segment)))].

(** [send_message]: nothing without a socket; what [send_json] raises
    is dropped. *)
Definition send_message (msg : Json.value) (self : t) : t :=
  if _ws self then
    mk (session_manager self) (sessions self) (utterances self)
       (transcription_engine self) (audio_capture self) (_ws self)
       (sent self ++ [msg])
  else self.

(** Lines 243-266 of [_transcription_loop]: what is done with a
    segment.  [now] is what the clock gives [add_transcript].  An
    exception of [add_transcript] ends the round: nothing is recorded
    in the learning store and nothing is sent. *)
Definition handle_segment (segment : TranscriptionEngine.TranscriptSegment)
  (now : Py.str) (self : t) : t :=
  let timestamp :=
    float_literal (TranscriptionEngine.seg_timestamp segment) in
  let '(r, manager, disk) :=
    SessionManager.add_transcript (TranscriptionEngine.speaker segment)
      (TranscriptionEngine.text segment) timestamp now
      (session_manager self) (sessions self) in
  let self :=
    mk manager disk (utterances self) (transcription_engine self)
       (audio_capture self) (_ws self) (sent self) in
  match r with
  | Py.Raise _ => self
  | Py.Ok _ =>
      let file :=
        if Py.str_eqb (TranscriptionEngine.speaker segment)
             (Py.of_string "you")
        then
          let session_id :=
            match SessionManager._current_session manager with
            | Some session => SessionManager.id session
            | None => []
            end in
          LearningStore.record
            (LearningStore.mkUtterance (TranscriptionEngine.text segment)
               timestamp session_id [])
            (utterances self)
        else utterances self in
      send_message (transcript_message segment)
        (mk manager disk file (transcription_engine self)
            (audio_capture self) (_ws self) (sent self))
  end.

(** One round of the [while True] loop of [_transcription_loop]; [hub]
    is what loading the voice-activity model answers during the
    round. *)
Definition transcription_round (hub : Py.result S) (now : Py.str)
  (self : t) (w : W) : t * W :=
  match AudioCapture.get_chunk (audio_capture self) with
  | (None, _) => (self, w)
  | (Some chunk, capture) =>
      let '(r, engine, w, _) :=
        TranscriptionEngine.transcribe_chunk W M WhisperModel
          model_transcribe S score lower_table hub chunk
          (transcription_engine self) w in
      let self :=
        mk (session_manager self) (sessions self) (utterances self) engine
           capture (_ws self) (sent self) in
      match r with
      | Py.Ok (Some segment) => (handle_segment segment now self, w)
      | Py.Ok None => (self, w)
      | Py.Raise _ => (self, w)
      end
  end.

(** The rounds of the loop until it is cancelled. *)
Fixpoint _transcription_loop (rounds : list (Py.result S * Py.str))
  (self : t) (w : W) : t * W :=
  match rounds with
  | [] => (self, w)
  | (hub, now) :: rest =>
      let '(self', w') := transcription_round hub now self w in
      _transcription_loop rest self' w'
  end.

(** The entry of the transcript log for a segment. *)
Definition entry_of (segment : TranscriptionEngine.TranscriptSegment)
  : Json.value :=
  SessionManager.entry (TranscriptionEngine.speaker segment)
    (TranscriptionEngine.text segment)
    (float_literal (TranscriptionEngine.seg_timestamp segment)).

(** The segments among the results of calls of [transcribe_chunk]. *)
Fixpoint segments_of
  (results : list (Py.result (option TranscriptionEngine.TranscriptSegment)))
  : list TranscriptionEngine.TranscriptSegment :=
  match results with
  | [] => []
  | Py.Ok (Some segment) :: rest => segment :: segments_of rest
  | _ :: rest => segments_of rest
  end.

(** A segment the transcript file can hold. *)
Definition storable (segment : TranscriptionEngine.TranscriptSegment)
  : bool :=
  SessionManager.encodable (TranscriptionEngine.speaker segment)
  && SessionManager.encodable (TranscriptionEngine.text segment)
  && Json.number_literal
       (float_literal (TranscriptionEngine.seg_timestamp segment)).

End WithBackend.

End AlterBackend.

(* ================================================================= *)
(** * Quantities as the specification words them *)

Module Spec.



(** "the whitespace-trimmed non-empty fragments":
    [trimmed_nonempty fragments parts] says that [parts] are, in their
    order, the fragments that are not white space only, each without
    the white space before and after it. *)
Inductive trimmed_nonempty : list Py.str -> list Py.str -> Prop :=
| trimmed_done : trimmed_nonempty [] []
| trimmed_keep (before part after : Py.str) fragments parts :
    forallb Py.isspace before = true ->
    forallb Py.isspace after = true ->
    Py.trimmed part = true ->
    trimmed_nonempty fragments parts ->
    trimmed_nonempty ((before ++ part ++ after) :: fragments) (part :: parts)
| trimmed_skip (blank : Py.str) fragments parts :
    forallb Py.isspace blank = true ->
    trimmed_nonempty fragments parts ->
    trimmed_nonempty (blank :: fragments) parts.

End Spec.

(* ================================================================= *)
(** * Stand-ins for the external models, used to run the definitions *)

Module Doubles.

(** A voice-activity model without memory: confidence 1 on a window
    holding a non-zero sample, 0 on a silent one. *)
Definition energy_score (m : unit) (window : list float) (sample_rate : Z)
  : Py.result float * unit :=
  (Py.Ok (if existsb (fun x => negb (PrimFloat.eqb x 0%float)) window
          then 1%float else 0%float), tt).

(** A voice-activity model that raises on every window. *)
Definition broken_score (m : unit) (window : list float) (sample_rate : Z)
  : Py.result float * unit :=
  (Py.Raise (Py.of_string "vad failure"), tt).

(** A voice-activity model that scores silence and raises on a window
    that holds a sample other than zero. *)
Definition choking_score (m : unit) (window : list float) (sample_rate : Z)
  : Py.result float * unit :=
  if existsb (fun x => negb (PrimFloat.eqb x 0%float)) window
  then (Py.Raise (Py.of_string "vad failure"), tt)
  else (Py.Ok 0%float, tt).

(** Three windows of 512 samples, silence then signal: the loop scores
    the first two. *)
Definition silence_then_long_signal : list float :=
  repeat 0%float 512 ++ repeat 1%float 1024.

(** Two windows of 512 samples, silence then signal. *)
Definition silence_then_signal : list float :=
  repeat 0%float 512 ++ repeat 1%float 512.

Definition gate (m : option unit) : VoiceActivityDetector.t unit :=
  VoiceActivityDetector.mk unit 0.5%float 16000 m.

(** A speech-to-text library that builds every model asked for, whose
    GPU models fail at inference and whose CPU models return three
    fragments.  A model is represented by the device it was built for. *)
Definition WhisperModel (w : unit) (name device compute_type : Py.str)
  : Py.result Py.str * unit :=
  (Py.Ok device, tt).

Definition cublas_missing : Py.str :=
  Py.of_string "Library cublas64_12.dll is not found or cannot be loaded".

Definition model_transcribe (w : unit) (m : Py.str) (data : list float)
  (language : Py.str) : Py.result (list Py.str) * unit :=
  if Py.str_eqb m TranscriptionEngine.cuda then (Py.Raise cublas_missing, tt)
  else (Py.Ok [Py.of_string "Hello"; Py.of_string ""; Py.of_string "world"],
        tt).

(** A library whose models return fragments with white space around
    them and one of white space only: "Hello" after two blanks and
    before one, a blank and a tab, "world." before a newline. *)
Definition padded_fragments : list Py.str :=
  [[32; 32; 72; 101; 108; 108; 111; 32]%N; [32; 9]%N;
   [119; 111; 114; 108; 100; 46; 10]%N].

Definition padded_transcribe (w : unit) (m : Py.str) (data : list float)
  (language : Py.str) : Py.result (list Py.str) * unit :=
  (Py.Ok padded_fragments, tt).

(** Lower-casing that leaves the characters outside ASCII alone. *)
Definition plain_table (s : Py.str) (i : nat) : Py.str :=
  match nth_error s i with Some c => [c] | None => [] end.

Definition engine (device compute_type : Py.str)
  : TranscriptionEngine.t unit Py.str unit :=
  TranscriptionEngine.init unit Py.str unit (Py.of_string "large-v3")
    device compute_type (Py.of_string "ja") 0.5%float 16000.

Definition chunk : AudioCapture.AudioChunk :=
  AudioCapture.mkChunk (Py.of_string "you") silence_then_signal
    1700000000%float.

(** One call of [transcribe_chunk] with the voice-activity model
    unavailable, so that the gate lets the chunk through. *)
Definition call (self : TranscriptionEngine.t unit Py.str unit) :=
  TranscriptionEngine.transcribe_chunk unit Py.str WhisperModel
    model_transcribe unit energy_score plain_table
    (Py.Raise (Py.of_string "no network")) chunk self tt.

Definition padded_call (self : TranscriptionEngine.t unit Py.str unit) :=
  TranscriptionEngine.transcribe_chunk unit Py.str WhisperModel
    padded_transcribe unit energy_score plain_table
    (Py.Raise (Py.of_string "no network")) chunk self tt.

(** A clock that advances by one second per call. *)
Definition clock (k : nat) : float :=
  Py.float_of_int (1700000000 + Z.of_nat k).

Definition you : Py.str := Py.of_string "you".
Definition target : Py.str := Py.of_string "target".

(** A capture object with chunks of two samples: 4 Hz, half a second. *)
Definition small_capture : AudioCapture.t :=
  AudioCapture.mk 4 0.5%float 2 [] 0.

(** Reads of both threads at the target rate, one of them failing. *)
Definition plain_rounds : list AudioCapture.action :=
  [AudioCapture.Read you 4 1 (Py.Ok [1; 2; 3]%float);
   AudioCapture.Read target 4 1 (Py.Ok [9]%float);
   AudioCapture.Read you 4 1 (Py.Raise (Py.of_string "input overflowed"));
   AudioCapture.Read you 4 1 (Py.Ok [4]%float)].



(** A session created on an empty disk. *)
Definition session_id : Py.str := Py.of_string "2026-01-01_120000".

Definition session : SessionManager.SessionMetadata :=
  SessionManager.mkMetadata session_id (Py.of_string "meeting")
    (Py.of_string "2026-01-01T12:00:00") (Py.of_string "2026-01-01T12:00:00")
    [] [].

Definition created :=
  SessionManager.create_session session_id (Py.of_string "meeting")
    (Py.of_string "2026-01-01T12:00:00") SessionManager.init
    (SessionManager.mkDisk ∅ ∅).

Definition manager : SessionManager.t := snd (fst created).
Definition disk : SessionManager.disk := snd created.

(** Three segments: Japanese text, text with a line break, quotes and
    a backslash, and text with spaces around it. *)
Definition segments : list (Py.str * Py.str * Py.str * Py.str) :=
  [(you, [12371; 12435; 12395; 12385; 12399]%N,
    Py.of_string "1700000000.5", Py.of_string "2026-01-01T12:00:01");
   (target, [72; 105; 10; 34; 92; 34]%N,
    Py.of_string "1700000002.25", Py.of_string "2026-01-01T12:00:03");
   (you, Py.of_string "  ok  ",
    Py.of_string "1700000004.0", Py.of_string "2026-01-01T12:00:05")].

(** Two calls side by side: the second reaches the lock while the
    first is in the model, and enters once the first has left. *)
Definition two_calls : list (nat * bool) :=
  [(0, true); (1, true); (0, true); (1, true); (0, true); (0, true);
   (0, true); (0, true); (1, true); (1, true); (1, false); (1, true);
   (1, true)]%nat.

(** A speech-to-text library without a usable backend: no model can be
    built. *)
Definition no_backend (w : unit) (name device compute_type : Py.str)
  : Py.result Py.str * unit :=
  (Py.Raise (Py.of_string "Unable to open file 'model.bin'"), tt).

(** A library that builds CPU models only. *)
Definition cpu_only (w : unit) (name device compute_type : Py.str)
  : Py.result Py.str * unit :=
  if Py.str_eqb device TranscriptionEngine.cpu then (Py.Ok device, tt)
  else (Py.Raise (Py.of_string "CUDA driver version is insufficient"), tt).

(** An engine that holds a CPU model. *)
Definition loaded_engine : TranscriptionEngine.t unit Py.str unit :=
  TranscriptionEngine.set_device_model unit Py.str unit
    (engine TranscriptionEngine.cpu TranscriptionEngine.int8)
    TranscriptionEngine.cpu TranscriptionEngine.int8
    (Some (TranscriptionEngine.mkLoaded Py.str TranscriptionEngine.cpu
             TranscriptionEngine.cpu TranscriptionEngine.int8)).

(** A callback that fails with a message naming the accelerator. *)
Definition raising_callback (seg : TranscriptionEngine.TranscriptSegment)
  (w : unit) : Py.result unit * unit :=
  (Py.Raise (Py.of_string "CUDA error: out of memory"), tt).

(** A full window of signal and nothing more. *)
Definition one_window : list float := repeat 1%float 512.

(** Capture rounds of one thread with calls of [get_chunk] in between,
    one of them on an empty queue. *)
Definition served_rounds : list AudioCapture.turn :=
  [AudioCapture.Capture (AudioCapture.Read you 4 1 (Py.Ok [1; 2; 3]%float));
   AudioCapture.Consume;
   AudioCapture.Consume;
   AudioCapture.Capture (AudioCapture.Read you 4 1 (Py.Ok [4; 5; 6]%float));
   AudioCapture.Consume].

(** Where the capture rounds alone end. *)
Definition served_run : option (AudioCapture.buffers * AudioCapture.t) :=
  AudioCapture.run clock (AudioCapture.captures served_rounds) (fun _ => [])
    small_capture.

Definition served_buffers : AudioCapture.buffers :=
  match served_run with Some (bufs, _) => bufs | None => fun _ => [] end.

Definition served_capture : AudioCapture.t :=
  match served_run with Some (_, self) => self | None => small_capture end.

(** The disk of the session with a transcript file that is not JSON. *)
Definition corrupt_disk : SessionManager.disk :=
  SessionManager.mkDisk (SessionManager.dirs disk)
    (<[(session_id, SessionManager.transcript_jsonl)
       := Py.of_string "{not json"]> (SessionManager.files disk)).

(** A manager that holds another session and one entry of it. *)
Definition other_manager : SessionManager.t :=
  SessionManager.mk
    (Some (SessionManager.mkMetadata (Py.of_string "2025-12-31_090000")
             (Py.of_string "yesterday") (Py.of_string "2025-12-31T09:00:00")
             (Py.of_string "2025-12-31T09:30:00") [] []))
    [SessionManager.entry you (Py.of_string "hello")
       (Py.of_string "1699999999.0")].

(** What [json] writes for the timestamp of [chunk], the only one that
    reaches the log in the runs below. *)
Definition literal (x : float) : Py.str := Py.of_string "1700000000.0".

(** A backend for the loop: the session of [disk] as the current one, a
    socket connected, two chunks queued, the engine on the CPU. *)

Definition backend (d : SessionManager.disk)
  : AlterBackend.t unit Py.str unit :=
  AlterBackend.mk unit Py.str unit manager d None
    (engine TranscriptionEngine.cpu TranscriptionEngine.int8)
    (AudioCapture.mk 16000 2%float 32000
       [chunk; AudioCapture.mkChunk target one_window 1700000002%float] 2)
    true [].

Definition loop_rounds : list (Py.result unit * Py.str) :=
  [(Py.Raise (Py.of_string "no network"), Py.of_string "2026-01-01T12:00:01");
   (Py.Ok tt, Py.of_string "2026-01-01T12:00:03");
   (Py.Ok tt, Py.of_string "2026-01-01T12:00:05")].

Definition run_loop (d : SessionManager.disk) :=
  AlterBackend._transcription_loop unit Py.str WhisperModel model_transcribe
    unit energy_score plain_table literal loop_rounds (backend d) tt.

(** The disk of [disk] with an older session directory whose metadata
    file is not JSON. *)
Definition older_id : Py.str := Py.of_string "2025-12-31_090000".

Definition shelf : SessionManager.disk :=
  SessionManager.mkDisk ({[older_id]} ∪ SessionManager.dirs disk)
    (<[(older_id, SessionManager.metadata_json)
       := Py.of_string "{not json"]> (SessionManager.files disk)).

(** A sessions directory whose directories were renamed by hand:
    "Beta" holds a stored session, "alpha" holds nothing.  By code
    points "alpha" comes after "Beta"; with the case folded, as on
    Windows, "beta" comes after "alpha". *)
Definition beta : SessionManager.SessionMetadata :=
  SessionManager.mkMetadata (Py.of_string "Beta") (Py.of_string "renamed")
    (Py.of_string "2026-01-01T12:00:00") (Py.of_string "2026-01-01T12:00:00")
    [] [].

Definition mixed_case : SessionManager.disk :=
  snd (SessionManager.create_session (Py.of_string "Beta")
         (Py.of_string "renamed") (Py.of_string "2026-01-01T12:00:00")
         SessionManager.init
         (SessionManager.mkDisk {[Py.of_string "alpha"]} ∅)).

(** Three utterances of the user: with and without the remark they
    answer, and one with a line break and a quote in it. *)
Definition said : list LearningStore.UserUtterance :=
  [LearningStore.mkUtterance (Py.of_string "Sounds good.")
     (Py.of_string "1700000000.5") session_id [];
   LearningStore.mkUtterance [12399; 12356]%N
     (Py.of_string "1700000002.25") session_id
     (Py.of_string "Can you hear me?");
   LearningStore.mkUtterance [72; 105; 10; 34]%N
     (Py.of_string "1700000004.0") session_id []].

End Doubles.

(* ================================================================= *)
(** * Theorems *)

(** ** [Py] *)

Lemma range_In start stop step i :
  0 < step ->
  In i (Py.range start stop step) ->
  start <= i < stop /\ exists k, 0 <= k /\ i = start + step * k.
Proof.
  intros Hstep. unfold Py.range.
  destruct (stop <=? start) eqn:E; [intros []|].
  apply Z.leb_gt in E.
  rewrite in_map_iff. intros (k & <- & Hk). apply in_seq in Hk.
  assert (Hq : Z.of_nat k < (stop - start + step - 1) / step).
  { destruct Hk as [_ Hk]. simpl in Hk.
    apply Nat2Z.inj_lt in Hk. rewrite Z2Nat.id in Hk; [lia|].
    apply Z.div_pos; lia. }
  assert (Hm : step * ((stop - start + step - 1) / step)
               <= stop - start + step - 1)
    by (apply Z.mul_div_le; lia).
  split; [nia | exists (Z.of_nat k); lia].
Qed.

Lemma startswith_spec s p :
  Py.startswith s p = true <-> exists post, s = p ++ post.
Proof.
  revert s. induction p as [|c p IH]; intros s; simpl.
  - split; [intros _; now exists s | reflexivity].
  - destruct s as [|d s].
    + split; [discriminate | intros (post & H); discriminate].
    + rewrite andb_true_iff, N.eqb_eq, IH. split.
      * intros (-> & post & ->). eauto.
      * intros (post & H). injection H as -> ->. eauto.
Qed.

Lemma contains_spec needle s :
  Py.contains needle s = true <-> exists pre post, s = pre ++ needle ++ post.
Proof.
  induction s as [|c s IH].
  - cbn [Py.contains]. rewrite orb_false_r, startswith_spec. split.
    + intros (post & H). exists [], post. exact H.
    + intros (pre & post & H). destruct pre; simpl in H; [eauto|discriminate].
  - cbn [Py.contains]. rewrite orb_true_iff, startswith_spec, IH. split.
    + intros [(post & ->) | (pre & post & ->)].
      * exists [], post. reflexivity.
      * exists (c :: pre), post. reflexivity.
    + intros (pre & post & H). destruct pre as [|d pre]; simpl in H.
      * left. eauto.
      * right. injection H as -> ->. eauto.
Qed.

Lemma lower_from_app table whole i a b :
  Py.lower_from table whole i (a ++ b)
  = Py.lower_from table whole i a
    ++ Py.lower_from table whole (i + length a) b.
Proof.
  revert i. induction a as [|c a IH]; intros i; simpl.
  - now rewrite Nat.add_0_r.
  - rewrite IH, <- app_assoc. now rewrite Nat.add_succ_r.
Qed.

Lemma lower_from_fixed table whole i s :
  Py.ascii_lowercase s = true -> Py.lower_from table whole i s = s.
Proof.
  revert i. induction s as [|c s IH]; intros i; simpl; [reflexivity|].
  rewrite !andb_true_iff, N.eqb_eq. intros [[-> ->] Hs].
  simpl. now rewrite IH.
Qed.

Lemma contains_lower table needle s :
  Py.ascii_lowercase needle = true ->
  Py.contains needle s = true ->
  Py.contains needle (Py.lower table s) = true.
Proof.
  intros Hn. rewrite !contains_spec. intros (pre & post & ->).
  unfold Py.lower. rewrite !lower_from_app, (lower_from_fixed _ _ _ _ Hn).
  eauto.
Qed.

Lemma str_eqb_spec a b : Py.str_eqb a b = true <-> a = b.
Proof.
  revert b. induction a as [|x a IH]; destruct b as [|y b]; simpl;
    try (split; congruence).
  rewrite andb_true_iff, N.eqb_eq, IH. split.
  - intros [-> ->]. reflexivity.
  - intros H. injection H as -> ->. auto.
Qed.

(** ** Comparison of floats *)

Lemma SFcompare_antisym x y c :
  SFcompare x y = Some c -> SFcompare y x = Some (CompOpp c).
Proof.
  destruct x as [sx|sx| |sx mx ex], y as [sy|sy| |sy my ey]; simpl;
    try discriminate;
    try (intros H; injection H as <-;
         repeat match goal with b : bool |- _ => destruct b end;
         reflexivity).
  intros H; injection H as <-. f_equal.
  rewrite (Z.compare_antisym ex ey).
  pose proof (Pos.compare_cont_antisym mx my Eq) as Hp. simpl in Hp.
  rewrite <- Hp.
  destruct sx, sy; simpl; try reflexivity;
    destruct (ex ?= ey); simpl; try reflexivity;
    destruct (Pos.compare_cont Eq mx my); reflexivity.
Qed.

(** [c <= t] excludes [t < c], also for infinities; with a NaN on either
    side both comparisons are false. *)
Lemma leb_not_ltb (c t : float) :
  PrimFloat.leb c t = true -> PrimFloat.ltb t c = false.
Proof.
  rewrite leb_spec, ltb_spec. unfold SFleb, SFltb.
  destruct (SFcompare (Prim2SF c) (Prim2SF t)) as [o|] eqn:E;
    [|discriminate].
  rewrite (SFcompare_antisym _ _ _ E).
  destruct o; simpl; congruence.
Qed.

(** ** Lists *)

Lemma skipn_repeat {A} (x : A) a n :
  skipn a (repeat x n) = repeat x (n - a).
Proof.
  revert n. induction a as [|a IH]; intros [|n]; simpl; auto.
Qed.

Lemma firstn_repeat {A} (x : A) k n :
  (k <= n)%nat -> firstn k (repeat x n) = repeat x k.
Proof.
  revert n. induction k as [|k IH]; intros [|n] H; simpl; auto; try lia.
  rewrite IH; [reflexivity | lia].
Qed.

Lemma slice_repeat {A} (x : A) n lo k :
  0 <= lo -> 0 <= k -> lo + k <= Z.of_nat n ->
  Py.slice (repeat x n) lo (lo + k) = repeat x (Z.to_nat k).
Proof.
  intros Hlo Hk Hn. unfold Py.slice, Py.clamp_index.
  rewrite repeat_length.
  destruct (lo <? 0) eqn:E1; [apply Z.ltb_lt in E1; lia|].
  destruct (lo + k <? 0) eqn:E2; [apply Z.ltb_lt in E2; lia|].
  rewrite !Z.min_l by lia.
  rewrite skipn_repeat, firstn_repeat by lia.
  f_equal. lia.
Qed.

(** ** The speech gate ([VoiceActivityDetector]) *)

Lemma range_spec start stop step i :
  0 < step ->
  In i (Py.range start stop step) <->
  exists k, 0 <= k /\ i = start + step * k /\ i < stop.
Proof.
  intros Hstep. split.
  - intros H. destruct (range_In _ _ _ _ Hstep H) as ([_ Hi] & k & Hk & ->).
    exists k. auto.
  - intros (k & Hk & -> & Hlt). unfold Py.range.
    destruct (stop <=? start) eqn:E; [apply Z.leb_le in E; nia|].
    apply in_map_iff. exists (Z.to_nat k). split; [f_equal; lia|].
    apply in_seq. split; [lia|]. simpl.
    apply Z2Nat.inj_lt; [lia | apply Z.div_pos; lia |].
    assert (k + 1 <= (stop - start + step - 1) / step)
      by (apply Z.div_le_lower_bound; nia).
    lia.
Qed.

(** The sub-windows [contains_speech] scores start at the multiples of
    512 that leave MORE than 512 samples after them. *)
Lemma window_starts_spec audio i :
  In i (VoiceActivityDetector.window_starts audio) <->
  exists k, 0 <= k /\ i = 512 * k /\ i + 512 < Z.of_nat (length audio).
Proof.
  unfold VoiceActivityDetector.window_starts,
    VoiceActivityDetector.window_size.
  rewrite range_spec by lia. split; intros (k & Hk & -> & H);
    exists k; repeat split; lia.
Qed.

(** When the chunk is a whole number of windows, the last one is not
    among them. *)
Lemma final_window_not_scanned audio k :
  0 <= k -> Z.of_nat (length audio) = 512 * (k + 1) ->
  ~ In (512 * k) (VoiceActivityDetector.window_starts audio).
Proof.
  intros Hk Hlen Hin. apply window_starts_spec in Hin as (j & _ & _ & H).
  lia.
Qed.

Section Gate.

Context {S : Type}.
Variable score : S -> list float -> Z -> Py.result float * S.

Import VoiceActivityDetector.

(** An exception leaving the loop is one the model raised on one of
    the windows. *)
Lemma scan_raise thr sr tensor idxs : forall m e m',
  scan S score thr sr tensor m idxs = (Py.Raise e, m') ->
  exists i m0,
    In i idxs /\
    score m0 (Py.slice tensor i (i + window_size)) sr = (Py.Raise e, m').
Proof.
  induction idxs as [|i idxs IH]; intros m e m'; simpl; [discriminate|].
  destruct (score m _ sr) as [[c|e0] m1] eqn:E.
  - destruct (PrimFloat.ltb thr c); [discriminate|].
    intros H. destruct (IH _ _ _ H) as (j & m0 & Hj & Hs). eauto.
  - intros H. injection H as -> ->. eauto.
Qed.

(** If every window scored stays at or below the threshold, in
    whatever state the model is, the loop runs to its end. *)
Lemma scan_quiet thr sr tensor idxs :
  (forall i m0, In i idxs ->
     exists c, fst (score m0 (Py.slice tensor i (i + window_size)) sr)
               = Py.Ok c /\ PrimFloat.leb c thr = true) ->
  forall m, fst (scan S score thr sr tensor m idxs) = Py.Ok false.
Proof.
  induction idxs as [|i idxs IH]; intros Hq m; simpl; [reflexivity|].
  destruct (Hq i m (or_introl eq_refl)) as (c & Hc & Hle).
  destruct (score m _ sr) as [r m1]. simpl in Hc. subst r.
  rewrite (leb_not_ltb _ _ Hle).
  apply IH. intros j m0 Hj. apply Hq. now right.
Qed.

(** A window exceeding the threshold, with every window before it
    scored without an exception, makes the loop return [True]. *)
Lemma scan_loud thr sr tensor pre i post :
  (forall j m0, In j pre ->
     exists c, fst (score m0 (Py.slice tensor j (j + window_size)) sr)
               = Py.Ok c) ->
  (forall m0,
     exists c, fst (score m0 (Py.slice tensor i (i + window_size)) sr)
               = Py.Ok c /\ PrimFloat.ltb thr c = true) ->
  forall m,
    fst (scan S score thr sr tensor m (pre ++ i :: post)) = Py.Ok true.
Proof.
  intros Hpre Hi. induction pre as [|j pre IH]; intros m; simpl.
  - destruct (Hi m) as (c & Hc & Hlt).
    destruct (score m _ sr) as [r m1]. simpl in Hc. subst r.
    now rewrite Hlt.
  - destruct (Hpre j m (or_introl eq_refl)) as (c & Hc).
    destruct (score m _ sr) as [r m1]. simpl in Hc. subst r.
    destruct (PrimFloat.ltb thr c); [reflexivity|].
    apply IH. intros k m0 Hk. apply Hpre. now right.
Qed.

(** A window on which the model raises, in whatever state it is, keeps
    the loop from falling out of its end: it returns [True] before it
    gets there, or the exception leaves it. *)
Lemma scan_raising thr sr tensor idxs i :
  In i idxs ->
  (forall m0,
     exists e, fst (score m0 (Py.slice tensor i (i + window_size)) sr)
               = Py.Raise e) ->
  forall m, fst (scan S score thr sr tensor m idxs) <> Py.Ok false.
Proof.
  intros Hi Hraise. induction idxs as [|j idxs IH]; [contradiction|].
  intros m. cbn [scan].
  destruct (score m (Py.slice tensor j (j + window_size)) sr)
    as [[c|e0] m1] eqn:E.
  - destruct (PrimFloat.ltb thr c); [discriminate|].
    destruct Hi as [->|Hi]; [|now apply IH].
    destruct (Hraise m) as (e & He). rewrite E in He. discriminate.
  - discriminate.
Qed.

Lemma contains_speech_unavailable self audio msg :
  _model S self = None ->
  fst (contains_speech S score (Py.Raise msg) self audio) = true.
Proof.
  intros H. unfold contains_speech, _load_model. now rewrite H, H.
Qed.

Lemma contains_speech_loaded hub self audio m :
  _model S (_load_model S hub self) = Some m ->
  fst (contains_speech S score hub self audio)
  = match fst (scan S score (threshold S self) (sample_rate S self)
                 audio m (window_starts audio)) with
    | Py.Ok b => b
    | Py.Raise _ => true
    end.
Proof.
  intros H. unfold contains_speech. rewrite H.
  assert (Ht : threshold S (_load_model S hub self) = threshold S self
               /\ sample_rate S (_load_model S hub self)
                  = sample_rate S self).
  { unfold _load_model. destruct (_model S self); [auto|].
    destruct hub; auto. }
  destruct Ht as [-> ->].
  destruct (scan _ _ _ _ _ _ _) as [[b|e] m']; reflexivity.
Qed.

End Gate.


(** C3 (the code departs from the claim): on a chunk of exactly two
    512-sample windows whose second window, and only it, scores above
    the threshold, [contains_speech] answers [False]: the loop bound
    [len(tensor) - window_size] leaves the last window unscored, although
    the gate is meant to accept speech anywhere in the chunk. *)
Theorem contains_speech_misses_final_window :
  length Doubles.silence_then_signal = 1024%nat
  /\ Doubles.energy_score tt (Py.slice Doubles.silence_then_signal 512 1024)
       16000 = (Py.Ok 1%float, tt)
  /\ PrimFloat.ltb 0.5 1 = true
  /\ VoiceActivityDetector.window_starts Doubles.silence_then_signal = [0]
  /\ fst (VoiceActivityDetector.contains_speech unit Doubles.energy_score
            (Py.Ok tt) (Doubles.gate (Some tt)) Doubles.silence_then_signal)
     = false.
Proof. vm_compute. repeat split. Qed.

(** C4: the gate fails open and rejects scored silence.
    (1) With no model loaded and the load failing, every chunk is
    accepted.  (2) With a model, when the model raises on one of the
    windows the loop scores (whatever state it is in by then, and
    whatever it answers on the windows before), the call answers
    [True].  (3) With a model, a chunk of zeros on which the model, in
    whatever state, gives a confidence at or below the threshold is
    rejected. *)
Theorem contains_speech_fail_open :
  forall (S : Type) (score : S -> list float -> Z -> Py.result float * S)
         (self : VoiceActivityDetector.t S),
    (forall audio msg,
       VoiceActivityDetector._model S self = None ->
       fst (VoiceActivityDetector.contains_speech S score (Py.Raise msg)
              self audio) = true)
    /\ (forall audio hub m k,
          VoiceActivityDetector._model S
            (VoiceActivityDetector._load_model S hub self) = Some m ->
          0 <= k ->
          512 * k + 512 < Z.of_nat (length audio) ->
          (forall m0, exists e,
             fst (score m0 (Py.slice audio (512 * k) (512 * k + 512))
                    (VoiceActivityDetector.sample_rate S self))
             = Py.Raise e) ->
          fst (VoiceActivityDetector.contains_speech S score hub self audio)
          = true)
    /\ (forall n hub m,
          VoiceActivityDetector._model S
            (VoiceActivityDetector._load_model S hub self) = Some m ->
          (forall m0, exists c,
             fst (score m0 (repeat 0%float 512)
                    (VoiceActivityDetector.sample_rate S self)) = Py.Ok c
             /\ PrimFloat.leb c (VoiceActivityDetector.threshold S self)
                = true) ->
          fst (VoiceActivityDetector.contains_speech S score hub self
                 (repeat 0%float n)) = false).
Proof.
  intros S score self. split; [|split].
  - intros audio msg H. now apply contains_speech_unavailable.
  - intros audio hub m k Hm Hk Hlt Hraise.
    rewrite (contains_speech_loaded score hub self audio m Hm).
    pose proof (scan_raising score
                  (VoiceActivityDetector.threshold S self)
                  (VoiceActivityDetector.sample_rate S self) audio
                  (VoiceActivityDetector.window_starts audio) (512 * k)
                  (proj2 (window_starts_spec audio (512 * k))
                     (ex_intro _ k (conj Hk (conj eq_refl Hlt))))
                  Hraise m)
      as Hscan.
    destruct (fst (VoiceActivityDetector.scan S score _ _ audio m _))
      as [[|]|e]; [reflexivity|contradiction|reflexivity].
  - intros n hub m Hm Hq.
    rewrite (contains_speech_loaded score hub self _ m Hm).
    rewrite scan_quiet; [reflexivity|].
    intros i m0 Hi. apply window_starts_spec in Hi as (k & Hk & -> & Hlt).
    rewrite repeat_length in Hlt.
    unfold VoiceActivityDetector.window_size.
    rewrite slice_repeat by lia. apply Hq.
Qed.

Lemma contains_speech_fail_open_witness :
  fst (VoiceActivityDetector.contains_speech unit Doubles.energy_score
         (Py.Raise (Py.of_string "no network")) (Doubles.gate None)
         Doubles.silence_then_signal) = true
  /\ fst (VoiceActivityDetector.contains_speech unit Doubles.choking_score
            (Py.Ok tt) (Doubles.gate None) Doubles.silence_then_long_signal)
     = true
  /\ fst (VoiceActivityDetector.contains_speech unit Doubles.energy_score
            (Py.Ok tt) (Doubles.gate None)
            (repeat 0%float (Z.to_nat 32000))) = false.
Proof.
  split; [|split].
  - apply (proj1 (contains_speech_fail_open unit Doubles.energy_score
                    (Doubles.gate None))).
    reflexivity.
  - apply (proj1 (proj2 (contains_speech_fail_open unit Doubles.choking_score
                           (Doubles.gate None)))
             Doubles.silence_then_long_signal (Py.Ok tt) tt 1).
    + reflexivity.
    + lia.
    + vm_compute. reflexivity.
    + intros m0. exists (Py.of_string "vad failure").
      vm_compute. reflexivity.
  - apply (proj2 (proj2 (contains_speech_fail_open unit Doubles.energy_score
                           (Doubles.gate None)))
             (Z.to_nat 32000) (Py.Ok tt) tt).
    + reflexivity.
    + intros m0. exists 0%float. split; vm_compute; reflexivity.
Defined.


(** ** Stripped text *)

Lemma lstrip_split s :
  exists ws, s = ws ++ Py.lstrip s /\ forallb Py.isspace ws = true.
Proof.
  induction s as [|c s (ws & Hs & Hws)]; simpl.
  - exists []. auto.
  - destruct (Py.isspace c) eqn:Ec.
    + exists (c :: ws). simpl. rewrite Ec, Hws. split; [congruence|reflexivity].
    + exists []. auto.
Qed.

Lemma lstrip_head s c r :
  Py.lstrip s = c :: r -> Py.isspace c = false.
Proof.
  induction s as [|d s IH]; simpl; [discriminate|].
  destruct (Py.isspace d) eqn:Ed; [exact IH|].
  intros [= <- <-]. exact Ed.
Qed.

(** What [strip] leaves, if anything, starts and ends with a character
    that is not white space. *)
Lemma strip_trimmed x :
  Py.is_empty (Py.strip x) = false -> Py.trimmed (Py.strip x) = true.
Proof.
  unfold Py.strip, Py.rstrip, Py.trimmed.
  destruct (lstrip_split (rev (Py.lstrip x))) as (ws & Hs & _).
  destruct (Py.lstrip (rev (Py.lstrip x))) as [|z zs] eqn:Ez;
    [discriminate|].
  intros _.
  pose proof (lstrip_head _ _ _ Ez) as Hz.
  assert (Hy : Py.lstrip x = rev (z :: zs) ++ rev ws).
  { rewrite <- rev_app_distr, <- Hs. now rewrite rev_involutive. }
  destruct (rev (z :: zs)) as [|c cs] eqn:Er.
  { apply (f_equal (@length N)) in Er. rewrite length_rev in Er.
    discriminate. }
  rewrite <- Er, rev_involutive.
  simpl in Hy. rewrite (lstrip_head _ _ _ Hy), Hz. reflexivity.
Qed.

Lemma lstrip_all ws rest :
  forallb Py.isspace ws = true -> Py.lstrip (ws ++ rest) = Py.lstrip rest.
Proof.
  induction ws as [|c ws IH]; [reflexivity|]. cbn [forallb app Py.lstrip].
  rewrite andb_true_iff. intros [-> Hws]. auto.
Qed.

Lemma forallb_rev {A} (f : A -> bool) l :
  forallb f (rev l) = forallb f l.
Proof.
  induction l as [|x l IH]; [reflexivity|]. cbn [rev forallb].
  rewrite forallb_app, IH. cbn [forallb]. rewrite andb_true_r.
  apply andb_comm.
Qed.

(** [strip] removes the white space around a text that starts and ends
    with something else, and nothing more. *)
Lemma strip_wrapped a mid z ws :
  Py.isspace a = false -> Py.isspace z = false ->
  forallb Py.isspace ws = true ->
  Py.strip (a :: mid ++ z :: ws) = a :: mid ++ [z].
Proof.
  intros Ha Hz Hws. unfold Py.strip, Py.rstrip.
  cbn [Py.lstrip]. rewrite Ha.
  change (a :: mid ++ z :: ws) with ((a :: mid) ++ z :: ws).
  rewrite rev_app_distr. cbn [rev]. rewrite <- app_assoc.
  rewrite lstrip_all by (now rewrite forallb_rev).
  cbn [app Py.lstrip]. rewrite Hz.
  change (rev (z :: rev (a :: mid)) = a :: mid ++ [z]).
  cbn [rev]. rewrite rev_app_distr, rev_involutive. reflexivity.
Qed.

(** [strip] takes white space, and nothing else, from both ends. *)
Lemma strip_split s :
  exists before after,
    s = before ++ Py.strip s ++ after
    /\ forallb Py.isspace before = true
    /\ forallb Py.isspace after = true.
Proof.
  destruct (lstrip_split s) as (ws & Hs & Hws).
  destruct (lstrip_split (rev (Py.lstrip s))) as (ws' & Hr & Hws').
  exists ws, (rev ws').
  split; [|split; [exact Hws | now rewrite forallb_rev]].
  unfold Py.strip, Py.rstrip.
  rewrite <- rev_app_distr, <- Hr, rev_involutive. exact Hs.
Qed.

(** [strip] finds the text the white space surrounds. *)
Lemma strip_surrounded before part after :
  forallb Py.isspace before = true ->
  forallb Py.isspace after = true ->
  Py.trimmed part = true ->
  Py.strip (before ++ part ++ after) = part.
Proof.
  intros Hb Ha Hp. unfold Py.trimmed in Hp.
  destruct part as [|c part']; [discriminate|].
  destruct (rev (c :: part')) as [|z r] eqn:Er; [discriminate|].
  apply andb_true_iff in Hp as [Hc Hz]. apply negb_true_iff in Hc, Hz.
  unfold Py.strip, Py.rstrip. rewrite lstrip_all by exact Hb.
  cbn [app Py.lstrip]. rewrite Hc.
  change (c :: part' ++ after) with ((c :: part') ++ after).
  rewrite rev_app_distr, lstrip_all by (now rewrite forallb_rev).
  rewrite Er. cbn [Py.lstrip]. rewrite Hz, <- Er. apply rev_involutive.
Qed.

Lemma strip_blank blank :
  forallb Py.isspace blank = true -> Py.strip blank = [].
Proof.
  intros H. unfold Py.strip, Py.rstrip.
  rewrite <- (app_nil_r blank), lstrip_all by exact H. reflexivity.
Qed.

(** The texts the loop of [transcribe_chunk] collects are the
    whitespace-trimmed non-empty fragments, and nothing else is. *)
Lemma collect_texts_trimmed_nonempty fragments :
  Spec.trimmed_nonempty fragments
    (TranscriptionEngine.collect_texts fragments).
Proof.
  unfold TranscriptionEngine.collect_texts.
  induction fragments as [|f fragments IH]; [constructor|].
  cbn [map List.filter].
  destruct (strip_split f) as (before & after & Hf & Hb & Ha).
  destruct (Py.is_empty (Py.strip f)) eqn:E; cbn [negb].
  - apply Spec.trimmed_skip; [|exact IH].
    destruct (Py.strip f); [|discriminate].
    rewrite Hf, forallb_app, Hb. exact Ha.
  - rewrite Hf at 1. apply Spec.trimmed_keep; auto.
    now apply strip_trimmed.
Qed.

Lemma trimmed_nonempty_collect fragments parts :
  Spec.trimmed_nonempty fragments parts ->
  parts = TranscriptionEngine.collect_texts fragments.
Proof.
  unfold TranscriptionEngine.collect_texts.
  induction 1 as [|before part after fragments parts Hb Ha Hp _ IH
                  |blank fragments parts Hblank _ IH];
    cbn [map List.filter].
  - reflexivity.
  - rewrite strip_surrounded by assumption.
    destruct part; [discriminate|]. cbn [Py.is_empty negb]. now f_equal.
  - rewrite strip_blank by exact Hblank. exact IH.
Qed.


(** ** The transcription engine ([TranscriptionEngine]) *)

Section Engine.

Import AudioCapture TranscriptionEngine.

Context {W M S : Type}.
Variable WhisperModel : W -> Py.str -> Py.str -> Py.str -> Py.result M * W.
Variable model_transcribe :
  W -> M -> list float -> Py.str -> Py.result (list Py.str) * W.
Variable score : S -> list float -> Z -> Py.result float * S.
Variable lower_table : Py.str -> nat -> Py.str.

Abbreviation engine := (TranscriptionEngine.t W M S).
Abbreviation fallback := (_fallback_to_cpu W M WhisperModel S).
Abbreviation load := (load_model W M WhisperModel S).
Abbreviation region := (locked_region W M model_transcribe S).
Abbreviation transcribe :=
  (transcribe_chunk W M WhisperModel model_transcribe S score lower_table).
Abbreviation transcribe_seq :=
  (transcribe_all W M WhisperModel model_transcribe S score lower_table).
Abbreviation on_cpu := (TranscriptionEngine.on_cpu W M S).
Abbreviation same_settings := (TranscriptionEngine.same_settings W M S).
Abbreviation callback_ok := (TranscriptionEngine.callback_ok W M S).
Abbreviation path :=
  (TranscriptionEngine.path W M WhisperModel model_transcribe S score
     lower_table).

Lemma fallback_spec self w :
  exists self' w' ok,
    fallback self w = (self', w', [EvConstruct cpu int8 ok])
    /\ on_cpu self' /\ same_settings self self'
    /\ _vad W M S self' = _vad W M S self.
Proof.
  unfold _fallback_to_cpu, TranscriptionEngine.on_cpu,
    TranscriptionEngine.same_settings. simpl.
  destruct (WhisperModel w _ cpu int8) as [[m|e] w'].
  - exists (set_device_model W M S
              (set_device_model W M S self cpu int8 None) cpu int8
              (Some (mkLoaded M m cpu int8))), w', true.
    simpl. repeat split; auto. intros m0 H. inversion H. reflexivity.
  - exists (set_device_model W M S
              (set_device_model W M S self cpu int8 None) cpu int8 None),
      w', false.
    simpl. repeat split; auto. discriminate.
Qed.

Lemma load_model_spec self w :
  exists self' w' evs,
    load self w = (self', w', evs)
    /\ Forall is_construct evs
    /\ same_settings self self'
    /\ _vad W M S self' = _vad W M S self
    /\ (on_cpu self -> on_cpu self' /\ Forall cpu_event evs).
Proof.
  unfold load_model.
  destruct (_model W M S self) as [m|] eqn:Em.
  - exists self, w, []. unfold TranscriptionEngine.same_settings.
    repeat split; auto; apply H.
  - destruct (WhisperModel w _ _ _) as [[m|e] w'] eqn:Ec.
    + eexists _, _, _. split; [reflexivity|].
      unfold TranscriptionEngine.same_settings, TranscriptionEngine.on_cpu.
      simpl.
      repeat split; auto; try (constructor; simpl; auto); try tauto.
      intros m0 H0. inversion H0. simpl. tauto.
    + destruct (Py.str_eqb (device W M S self) cuda) eqn:Ed.
      * destruct (fallback_spec self w') as (s1 & w1 & ok & -> & Hc & Hs & Hv).
        eexists _, _, _. split; [reflexivity|].
        split; [repeat constructor|]. split; [exact Hs|].
        split; [exact Hv|].
        intros [Hd _]. rewrite Hd in Ed. discriminate.
      * eexists _, _, _. split; [reflexivity|].
        split; [repeat constructor|].
        split; [unfold TranscriptionEngine.same_settings; tauto|].
        split; [reflexivity|].
        intros H. split; [exact H|]. repeat constructor. apply H.
Qed.

(** The locked region calls the model once; what the call gives
    decides what the region gives. *)
Lemma locked_region_spec self m chunk w :
  exists r w' out,
    region self m chunk w = (r, w', [EvTranscribe (built_device M m) out])
    /\ fst (model_transcribe w (handle M m) (data chunk)
              (language W M S self)) = out
    /\ (forall e, out = Py.Raise e -> r = Py.Raise e)
    /\ (forall segments, out = Py.Ok segments ->
          (full_text segments = None -> r = Py.Ok None)
          /\ (forall seg, r = Py.Ok (Some seg) ->
                full_text segments = Some (text seg))
          /\ (forall full,
                full_text segments = Some full ->
                sample_rate W M S self <> 0 ->
                callback_ok self ->
                exists seg,
                  r = Py.Ok (Some seg) /\ text seg = full
                  /\ speaker seg = source chunk
                  /\ seg_timestamp seg = timestamp chunk)).
Proof.
  unfold locked_region.
  destruct (model_transcribe w _ _ _) as [[segments|e] w1] eqn:Et.
  - destruct (full_text segments) as [full|] eqn:Ef.
    + unfold chunk_duration, Py.int_truediv.
      destruct (sample_rate W M S self =? 0) eqn:Esr.
      * eexists _, _, _. split; [reflexivity|]. split; [reflexivity|].
        split; [discriminate|]. intros s0 [= <-].
        rewrite Ef. split; [discriminate|]. split; [discriminate|].
        intros full0 _ Hsr. apply Z.eqb_eq in Esr. contradiction.
      * destruct (_on_transcript W M S self) as [cb|] eqn:Ecb.
        -- destruct (cb _ w1) as [[u|e] w2] eqn:Ecall.
           ++ eexists _, _, _. split; [reflexivity|]. split; [reflexivity|].
              split; [discriminate|]. intros s0 [= <-]. rewrite Ef.
              split; [discriminate|]. split.
              ** intros seg [= <-]. reflexivity.
              ** intros full0 [= <-] _ _. eexists. repeat split.
           ++ eexists _, _, _. split; [reflexivity|]. split; [reflexivity|].
              split; [discriminate|]. intros s0 [= <-]. rewrite Ef.
              split; [discriminate|]. split; [discriminate|].
              intros full0 _ _ Hcb.
              destruct (Hcb cb Ecb
                (mkSegment (source chunk) full (timestamp chunk)
                   (PrimFloat.div
                      (Py.float_of_int (Z.of_nat (length (data chunk))))
                      (Py.float_of_int (sample_rate W M S self)))) w1)
                as (w3 & Hw3).
              rewrite Hw3 in Ecall. discriminate.
        -- eexists _, _, _. split; [reflexivity|]. split; [reflexivity|].
           split; [discriminate|]. intros s0 [= <-]. rewrite Ef.
           split; [discriminate|]. split.
           ++ intros seg [= <-]. reflexivity.
           ++ intros full0 [= <-] _ _. eexists. repeat split.
    + eexists _, _, _. split; [reflexivity|]. split; [reflexivity|].
      split; [discriminate|]. intros s0 [= <-]. rewrite Ef.
      split; [reflexivity|]. split; [discriminate|]. discriminate.
  - eexists _, _, _. split; [reflexivity|]. split; [reflexivity|].
    split; [intros e0 [= <-]; reflexivity | discriminate].
Qed.

Lemma transcribe_chunk_path hub chunk self w : path hub chunk self w.
Proof.
  destruct (VoiceActivityDetector.contains_speech S score hub
              (_vad W M S self) (data chunk)) as [b vad'] eqn:Ev.
  destruct b.
  2: { eapply PathNoSpeech; [exact Ev|].
       unfold transcribe_chunk. rewrite Ev. reflexivity. }
  destruct (load (set_vad W M S self vad') w) as [[self1 w1] evs1] eqn:El.
  destruct (_model W M S self1) as [m|] eqn:Em.
  2: { eapply PathNoModel; [exact El | exact Em |].
       unfold transcribe_chunk. rewrite Ev. simpl. rewrite El, Em.
       reflexivity. }
  destruct (locked_region_spec self1 m chunk w1)
    as (r & w2 & out & Hr & _).
  destruct r as [v|msg].
  - eapply PathReturned; [exact El | exact Em | exact Hr |].
    unfold transcribe_chunk. rewrite Ev. simpl. rewrite El, Em, Hr.
    reflexivity.
  - destruct (is_backend_fault lower_table msg) eqn:Ef.
    + destruct (fallback_spec self1 w2) as (self2 & w3 & ok & Hf & _).
      eapply PathBackendFault;
        [exact El | exact Em | exact Hr | exact Ef | exact Hf |].
      unfold transcribe_chunk. rewrite Ev. simpl.
      rewrite El, Em, Hr, Ef, Hf. reflexivity.
    + eapply PathOtherError; [exact El | exact Em | exact Hr | exact Ef |].
      unfold transcribe_chunk. rewrite Ev. simpl. rewrite El, Em, Hr, Ef.
      reflexivity.
Qed.

Lemma on_cpu_set_vad self v : on_cpu self -> on_cpu (set_vad W M S self v).
Proof. intros H. exact H. Qed.

Lemma in_constructs evs dev out :
  Forall is_construct evs -> ~ In (EvTranscribe dev out) evs.
Proof.
  intros HF Hin. rewrite List.Forall_forall in HF. exact (HF _ Hin).
Qed.

Lemma backend_fault_message msg :
  Py.contains cuda msg = true \/ Py.contains cublas msg = true ->
  is_backend_fault lower_table msg = true.
Proof.
  unfold is_backend_fault. intros [H|H].
  - rewrite (contains_lower lower_table cuda msg eq_refl H).
    apply orb_true_r.
  - now rewrite (contains_lower lower_table cublas msg eq_refl H).
Qed.

(** No exception leaves [transcribe_chunk]. *)
Lemma transcribe_chunk_returns hub chunk self w :
  exists v self' w' evs,
    transcribe hub chunk self w = (Py.Ok v, self', w', evs).
Proof.
  destruct (transcribe_chunk_path hub chunk self w); eauto.
Qed.

(** Once on the CPU, a call stays there and touches nothing else. *)
Lemma transcribe_chunk_stays_on_cpu hub chunk self w :
  on_cpu self ->
  exists v self' w' evs,
    transcribe hub chunk self w = (Py.Ok v, self', w', evs)
    /\ on_cpu self' /\ Forall cpu_event evs.
Proof.
  intros Hc.
  destruct (transcribe_chunk_path hub chunk self w)
    as [vad' Hv Ht | vad' self1 w1 evs1 Hl Hm Ht
       | vad' self1 w1 evs1 m v w2 out Hl Hm Hr Ht
       | vad' self1 w1 evs1 m msg w2 out Hl Hm Hr Hf Ht
       | vad' self1 w1 evs1 m msg w2 out self2 w3 ok Hl Hm Hr Hf Hfb Ht];
    try (destruct (load_model_spec (set_vad W M S self vad') w)
           as (s1' & w1' & e1' & Hl' & _ & _ & _ & Hcpu);
         rewrite Hl in Hl'; injection Hl' as <- <- <-;
         destruct (Hcpu (on_cpu_set_vad self vad' Hc)) as [Hc1 He1]);
    eexists _, _, _, _; (split; [exact Ht|]).
  - split; [exact Hc | constructor].
  - split; assumption.
  - split; [assumption|]. apply Forall_app. split; [assumption|].
    repeat constructor. simpl. now apply Hc1.
  - split; [assumption|]. apply Forall_app. split; [assumption|].
    repeat constructor. simpl. now apply Hc1.
  - destruct (fallback_spec self1 w2) as (s2 & w3' & ok' & Hfb' & Hc2 & _).
    rewrite Hfb in Hfb'. injection Hfb' as <- <- <-.
    split; [assumption|]. apply Forall_app. split; [assumption|].
    repeat constructor; simpl; auto. now apply Hc1.
Qed.

Lemma transcribe_all_stays_on_cpu calls : forall self w,
  on_cpu self ->
  exists rs self' w' evs,
    transcribe_seq calls self w = (rs, self', w', evs)
    /\ Forall (fun r => exists v, r = Py.Ok v) rs
    /\ on_cpu self' /\ Forall cpu_event evs.
Proof.
  induction calls as [|[hub chunk] calls IH]; intros self w Hc; simpl.
  - exists [], self, w, []. split; [reflexivity|]. auto.
  - destruct (transcribe_chunk_stays_on_cpu hub chunk self w Hc)
      as (v & s1 & w1 & e1 & -> & Hc1 & He1).
    destruct (IH s1 w1 Hc1) as (rs & s2 & w2 & e2 & -> & Hrs & Hc2 & He2).
    eexists _, _, _, _. split; [reflexivity|].
    split; [constructor; eauto|]. split; [assumption|].
    apply Forall_app. auto.
Qed.

(** C1: a call during which the speech-to-text model raises an
    exception whose message contains "cuda" or "cublas" returns [None]
    without raising, ends with the engine switched to the CPU backend
    (the last thing it did was to build the CPU model), and every later
    sequence of calls returns without raising and constructs or invokes
    CPU models only. *)
Theorem backend_fault_falls_back_for_good :
  forall hub chunk self w r self' w' evs dev msg,
    transcribe hub chunk self w = (r, self', w', evs) ->
    In (EvTranscribe dev (Py.Raise msg)) evs ->
    Py.contains cuda msg = true \/ Py.contains cublas msg = true ->
    r = Py.Ok None
    /\ on_cpu self'
    /\ (exists evs0 ok, evs = evs0 ++ [EvConstruct cpu int8 ok])
    /\ forall calls,
         exists rs self'' w'' evs',
           transcribe_seq calls self' w' = (rs, self'', w'', evs')
           /\ Forall (fun r => exists v, r = Py.Ok v) rs
           /\ Forall cpu_event evs'
           /\ on_cpu self''.
Proof.
  intros hub chunk self w r self' w' evs dev msg Ht Hin Hmsg.
  apply backend_fault_message in Hmsg.
  destruct (transcribe_chunk_path hub chunk self w)
    as [vad' Hv Ht' | vad' self1 w1 evs1 Hl Hm Ht'
       | vad' self1 w1 evs1 m v w2 out Hl Hm Hr Ht'
       | vad' self1 w1 evs1 m msg' w2 out Hl Hm Hr Hf Ht'
       | vad' self1 w1 evs1 m msg' w2 out self2 w3 ok Hl Hm Hr Hf Hfb Ht'];
    rewrite Ht in Ht'; injection Ht' as -> -> -> ->;
    try (destruct (load_model_spec (set_vad W M S self vad') w)
           as (s1' & w1' & e1' & Hl' & Hcons & _);
         rewrite Hl in Hl'; injection Hl' as <- <- <-).
  - destruct Hin.
  - exfalso. exact (in_constructs _ _ _ Hcons Hin).
  - exfalso. apply in_app_or in Hin as [Hin|[Hin|[]]].
    + exact (in_constructs _ _ _ Hcons Hin).
    + injection Hin as _ ->.
      destruct (locked_region_spec self1 m chunk w1)
        as (r0 & w0 & out0 & Hr0 & _ & Hraise & _).
      rewrite Hr in Hr0. injection Hr0 as <- _ <-.
      discriminate (Hraise msg eq_refl).
  - exfalso. apply in_app_or in Hin as [Hin|[Hin|[]]].
    + exact (in_constructs _ _ _ Hcons Hin).
    + injection Hin as _ ->.
      destruct (locked_region_spec self1 m chunk w1)
        as (r0 & w0 & out0 & Hr0 & _ & Hraise & _).
      rewrite Hr in Hr0. injection Hr0 as <- _ <-.
      specialize (Hraise msg eq_refl). injection Hraise as ->.
      congruence.
  - destruct (fallback_spec self1 w2) as (s2 & w3' & ok' & Hfb' & Hc2 & _).
    rewrite Hfb in Hfb'. injection Hfb' as <- <- <-.
    split; [reflexivity|]. split; [assumption|].
    split; [exists (evs1 ++ [EvTranscribe (built_device M m) out]), ok;
            now rewrite <- app_assoc|].
    intros calls.
    destruct (transcribe_all_stays_on_cpu calls self2 w3 Hc2)
      as (rs & s3 & w4 & e4 & Hseq & Hrs & Hc3 & He4).
    eexists _, _, _, _. eauto.
Qed.

Lemma full_text_spec segments :
  full_text segments
  = match collect_texts segments with
    | [] => None
    | _ :: _ => Some (Py.join (Py.of_string " ") (collect_texts segments))
    end.
Proof.
  unfold full_text. destruct (collect_texts segments); reflexivity.
Qed.

(** The text of a segment in terms of the loop that collects it. *)
Lemma transcribe_chunk_collects :
  forall hub chunk self w r self' w' evs dev segments,
    transcribe hub chunk self w = (r, self', w', evs) ->
    In (EvTranscribe dev (Py.Ok segments)) evs ->
    (forall seg,
       r = Py.Ok (Some seg) ->
       collect_texts segments <> []
       /\ text seg = Py.join (Py.of_string " ") (collect_texts segments))
    /\ (collect_texts segments = [] -> r = Py.Ok None)
    /\ (collect_texts segments <> [] ->
        sample_rate W M S self <> 0 ->
        callback_ok self ->
        exists seg,
          r = Py.Ok (Some seg)
          /\ text seg = Py.join (Py.of_string " ") (collect_texts segments)).
Proof.
  intros hub chunk self w r self' w' evs dev segments Ht Hin.
  assert (Hregion :
            (exists self1 m w1 w2,
               same_settings self self1
               /\ region self1 m chunk w1
                  = (r, w2,
                     [EvTranscribe (built_device M m) (Py.Ok segments)]))
            \/ (exists self1 m w1 w2 msg,
                  same_settings self self1
                  /\ r = Py.Ok None
                  /\ region self1 m chunk w1
                     = (Py.Raise msg, w2,
                        [EvTranscribe (built_device M m)
                           (Py.Ok segments)]))).
  { destruct (transcribe_chunk_path hub chunk self w)
      as [vad' Hv Ht' | vad' self1 w1 evs1 Hl Hm Ht'
         | vad' self1 w1 evs1 m v w2 out Hl Hm Hr Ht'
         | vad' self1 w1 evs1 m msg' w2 out Hl Hm Hr Hf Ht'
         | vad' self1 w1 evs1 m msg' w2 out self2 w3 ok Hl Hm Hr Hf Hfb Ht'];
      rewrite Ht in Ht'; injection Ht' as -> -> -> ->;
      try (destruct (load_model_spec (set_vad W M S self vad') w)
             as (s1' & w1' & e1' & Hl' & Hcons & Hsame & _);
           rewrite Hl in Hl'; injection Hl' as <- <- <-).
    - destruct Hin.
    - exfalso. exact (in_constructs _ _ _ Hcons Hin).
    - apply in_app_or in Hin as [Hin|[Hin|[]]];
        [exfalso; exact (in_constructs _ _ _ Hcons Hin)|].
      injection Hin as _ ->. left. exists self1, m, w1, w2.
      split; [exact Hsame | exact Hr].
    - apply in_app_or in Hin as [Hin|[Hin|[]]];
        [exfalso; exact (in_constructs _ _ _ Hcons Hin)|].
      injection Hin as _ ->. right. exists self1, m, w1, w2, msg'.
      split; [exact Hsame|]. split; [reflexivity | exact Hr].
    - apply in_app_or in Hin as [Hin|[Hin|[Hin|[]]]];
        [exfalso; exact (in_constructs _ _ _ Hcons Hin) | | discriminate].
      injection Hin as _ ->. right. exists self1, m, w1, w2, msg'.
      split; [exact Hsame|]. split; [reflexivity | exact Hr]. }
  assert (Hcb : forall self1, same_settings self self1 ->
                  callback_ok self -> callback_ok self1).
  { intros self1 (_ & _ & _ & Hsame) Hok cb Hcb. apply Hok.
    now rewrite Hsame. }
  split; [|split].
  - intros seg ->.
    destruct Hregion as [(self1 & m & w1 & w2 & Hsame & Hr)
                        |(self1 & m & w1 & w2 & msg & _ & Hnone & _)];
      [|discriminate].
    destruct (locked_region_spec self1 m chunk w1)
      as (r0 & w0 & out0 & Hr0 & _ & _ & Hok).
    rewrite Hr in Hr0. injection Hr0 as <- _ <-.
    destruct (Hok segments eq_refl) as (_ & Hseg & _).
    specialize (Hseg seg eq_refl). rewrite full_text_spec in Hseg.
    destruct (collect_texts segments); [discriminate|].
    split; [discriminate | congruence].
  - intros Hnil.
    destruct Hregion as [(self1 & m & w1 & w2 & Hsame & Hr)
                        |(self1 & m & w1 & w2 & msg & _ & Hnone & _)];
      [|assumption].
    destruct (locked_region_spec self1 m chunk w1)
      as (r0 & w0 & out0 & Hr0 & _ & _ & Hok).
    rewrite Hr in Hr0. injection Hr0 as <- _ <-.
    destruct (Hok segments eq_refl) as (Hn & _).
    rewrite full_text_spec, Hnil in Hn. exact (Hn eq_refl).
  - intros Hne Hsr Hok.
    assert (Hfull : full_text segments
                    = Some (Py.join (Py.of_string " ")
                              (collect_texts segments))).
    { rewrite full_text_spec. destruct (collect_texts segments);
        [contradiction | reflexivity]. }
    destruct Hregion as [(self1 & m & w1 & w2 & Hsame & Hr)
                        |(self1 & m & w1 & w2 & msg & Hsame & Hnone & Hr)];
      destruct (locked_region_spec self1 m chunk w1)
        as (r0 & w0 & out0 & Hr0 & _ & _ & Hgood);
      rewrite Hr in Hr0; injection Hr0 as <- _ <-;
      destruct (Hgood segments eq_refl) as (_ & _ & Hsome);
      destruct (Hsome _ Hfull) as (seg & Hseg & Htext & _);
      try (destruct Hsame as (_ & _ & <- & _); exact Hsr);
      try (apply Hcb; assumption).
    + exists seg. split; [exact Hseg | exact Htext].
    + discriminate.
Qed.

(** C7: when the speech-to-text model returns fragments during a call,
    the text of a segment the call produces is made of the
    whitespace-trimmed non-empty fragments, that is, in their order,
    the fragments that are not white space only, each without the
    white space before and after it, joined by one space; if no such
    fragment is left the call returns [None]; if some are left (and
    neither the duration nor the callback raises) a segment is
    produced.  The fragments "Hello", "" and "world" give the text
    "Hello world". *)
Theorem transcribe_chunk_joins_fragments :
  forall hub chunk self w r self' w' evs dev segments,
    transcribe hub chunk self w = (r, self', w', evs) ->
    In (EvTranscribe dev (Py.Ok segments)) evs ->
    (exists parts,
       Spec.trimmed_nonempty segments parts
       /\ (forall seg,
             r = Py.Ok (Some seg) ->
             parts <> []
             /\ text seg = Py.join (Py.of_string " ") parts)
       /\ (parts = [] -> r = Py.Ok None)
       /\ (parts <> [] ->
           sample_rate W M S self <> 0 ->
           callback_ok self ->
           exists seg,
             r = Py.Ok (Some seg)
             /\ text seg = Py.join (Py.of_string " ") parts))
    /\ full_text [Py.of_string "Hello"; Py.of_string ""; Py.of_string "world"]
       = Some (Py.of_string "Hello world").
Proof.
  intros hub chunk self w r self' w' evs dev segments Ht Hin.
  split; [|reflexivity].
  exists (collect_texts segments).
  split; [apply collect_texts_trimmed_nonempty|].
  exact (transcribe_chunk_collects hub chunk self w r self' w' evs dev
           segments Ht Hin).
Qed.

End Engine.


Lemma backend_fault_falls_back_for_good_witness :
  fst (fst (fst (Doubles.call
                   (Doubles.engine TranscriptionEngine.cuda
                      (Py.of_string "float16"))))) = Py.Ok None.
Proof.
  destruct (Doubles.call _) as [[[r self'] w'] evs] eqn:E.
  pose proof E as E'. vm_compute in E'. injection E' as <- <- <- <-.
  eapply proj1.
  apply (backend_fault_falls_back_for_good Doubles.WhisperModel
           Doubles.model_transcribe Doubles.energy_score
           Doubles.plain_table _ _ _ _ _ _ _ _
           TranscriptionEngine.cuda Doubles.cublas_missing E).
  - vm_compute. right. left. reflexivity.
  - right. vm_compute. reflexivity.
Defined.

Lemma transcribe_chunk_joins_fragments_witness :
  exists seg,
    fst (fst (fst (Doubles.padded_call
                     (Doubles.engine TranscriptionEngine.cpu
                        TranscriptionEngine.int8)))) = Py.Ok (Some seg)
    /\ TranscriptionEngine.text seg = Py.of_string "Hello world.".
Proof.
  destruct (Doubles.padded_call _) as [[[r self'] w'] evs] eqn:E.
  pose proof E as E'. vm_compute in E'. injection E' as <- <- <- <-.
  destruct (transcribe_chunk_joins_fragments Doubles.WhisperModel
              Doubles.padded_transcribe Doubles.energy_score
              Doubles.plain_table _ _ _ _ _ _ _ _
              TranscriptionEngine.cpu Doubles.padded_fragments E)
    as ((parts & Hparts & _ & _ & H) & _).
  - vm_compute. right. left. reflexivity.
  - apply trimmed_nonempty_collect in Hparts. subst parts.
    destruct H as (seg & Hseg & Htext).
    + vm_compute. discriminate.
    + vm_compute. discriminate.
    + intros cb Hcb. vm_compute in Hcb. discriminate.
    + exists seg. split; [exact Hseg | exact Htext].
Defined.


(** ** Capture and chunking ([AudioCapture]) *)

Lemma slice_to_firstn {A} (l : list A) t :
  0 <= t <= Z.of_nat (length l) ->
  Py.slice_to l t = firstn (Z.to_nat t) l.
Proof.
  intros H. unfold Py.slice_to, Py.slice, Py.clamp_index.
  replace (0 <? 0) with false by reflexivity.
  destruct (t <? 0) eqn:E; [apply Z.ltb_lt in E; lia|].
  rewrite Z.min_l, Z.min_l by lia. simpl. f_equal. lia.
Qed.

Lemma slice_from_skipn {A} (l : list A) t :
  0 <= t <= Z.of_nat (length l) ->
  Py.slice_from l t = skipn (Z.to_nat t) l.
Proof.
  intros H. unfold Py.slice_from, Py.slice, Py.clamp_index.
  destruct (t <? 0) eqn:E; [apply Z.ltb_lt in E; lia|].
  destruct (Z.of_nat (length l) <? 0) eqn:E'; [apply Z.ltb_lt in E'; lia|].
  rewrite Z.min_id, (Z.min_l t) by lia.
  apply firstn_all2. rewrite length_skipn. lia.
Qed.

Section Chunking.

Import AudioCapture.

Variable time_at : nat -> float.

(** The chunking loop ends when the chunk length is positive; it cuts
    the buffer into full chunks, oldest samples first, and leaves less
    than a chunk. *)
Lemma emit_chunks_spec source target :
  0 < target ->
  forall fuel buffer self,
    (length buffer <= fuel)%nat ->
    exists buffer' self' new,
      emit_chunks time_at fuel source target buffer self
      = Some (buffer', self')
      /\ audio_queue self' = audio_queue self ++ new
      /\ same_config self self'
      /\ cut_by source target new
      /\ concat (map data new) ++ buffer' = buffer
      /\ Z.of_nat (length buffer') < target.
Proof.
  intros Ht. induction fuel as [|fuel IH]; intros buffer self Hfuel.
  - destruct buffer; [|simpl in Hfuel; lia].
    cbn [emit_chunks length]. change (Z.of_nat 0) with 0.
    rewrite (proj2 (Z.ltb_lt 0 target) Ht).
    exists [], self, []. rewrite app_nil_r.
    repeat split; try constructor. simpl. lia.
  - cbn [emit_chunks].
    destruct (Z.of_nat (length buffer) <? target) eqn:E.
    + apply Z.ltb_lt in E. exists buffer, self, [].
      rewrite app_nil_r. repeat split; try constructor. exact E.
    + apply Z.ltb_ge in E.
      rewrite slice_to_firstn, slice_from_skipn by lia.
      destruct (IH (skipn (Z.to_nat target) buffer)
                  (put time_at self source (firstn (Z.to_nat target) buffer)))
        as (b' & s' & new & Heq & Hq & Hcfg & Hcut & Hcat & Hlen).
      { rewrite length_skipn. lia. }
      eexists b', s', (_ :: new). split; [exact Heq|].
      split; [rewrite Hq; simpl; now rewrite <- app_assoc|].
      split; [exact Hcfg|]. split.
      * constructor; [|exact Hcut]. simpl. split; [reflexivity|].
        rewrite length_firstn. lia.
      * split; [|exact Hlen]. simpl. rewrite <- app_assoc, Hcat.
        apply firstn_skipn.
Qed.

(** A non-positive chunk length makes the loop run for ever. *)
Lemma emit_chunks_diverges source target :
  target <= 0 ->
  forall fuel buffer self,
    emit_chunks time_at fuel source target buffer self = None.
Proof.
  intros Ht. induction fuel as [|fuel IH]; intros buffer self;
    cbn [emit_chunks];
    (destruct (Z.of_nat (length buffer) <? target) eqn:E;
     [apply Z.ltb_lt in E; lia|]);
    [reflexivity | apply IH].
Qed.

(** One round of [_read_stream]: the prepared samples, if any, join
    the buffer, full chunks leave it. *)
Lemma read_once_spec source native_rate channels target raw buffer self :
  0 < target ->
  exists buffer' self' new,
    read_once time_at source native_rate channels target raw buffer self
    = Some (buffer', self')
    /\ audio_queue self' = audio_queue self ++ new
    /\ same_config self self'
    /\ cut_by source target new
    /\ concat (map data new) ++ buffer'
       = buffer ++ match Py.bind raw (prepare (sample_rate self)
                                        native_rate channels) with
                   | Py.Ok audio => audio
                   | Py.Raise _ => []
                   end
    /\ (Z.of_nat (length buffer) < target ->
        Z.of_nat (length buffer') < target).
Proof.
  intros Ht. unfold read_once.
  destruct (Py.bind raw _) as [audio|e].
  - destruct (emit_chunks_spec source target Ht
                (Datatypes.S (length (buffer ++ audio)))
                (buffer ++ audio) self)
      as (b' & s' & new & Heq & Hq & Hcfg & Hcut & Hcat & Hlen); [lia|].
    exists b', s', new. repeat split; auto; apply Hcfg.
  - exists buffer, self, []. rewrite !app_nil_r.
    repeat split; auto; constructor.
Qed.

Lemma emitted_app source q1 q2 :
  emitted source (q1 ++ q2) = emitted source q1 ++ emitted source q2.
Proof.
  unfold emitted. now rewrite List.filter_app, map_app, concat_app.
Qed.

Lemma str_eqb_refl a : Py.str_eqb a a = true.
Proof. now apply str_eqb_spec. Qed.

Lemma str_eqb_sym a b : Py.str_eqb a b = Py.str_eqb b a.
Proof.
  destruct (Py.str_eqb a b) eqn:E1, (Py.str_eqb b a) eqn:E2; auto.
  - apply str_eqb_spec in E1. subst. now rewrite str_eqb_refl in E2.
  - apply str_eqb_spec in E2. subst. now rewrite str_eqb_refl in E1.
Qed.

Lemma emitted_cut_by source s target new :
  cut_by s target new ->
  emitted source new
  = if Py.str_eqb s source then concat (map data new) else [].
Proof.
  unfold emitted. induction 1 as [|c new [Hs Hl] Hcut IH]; simpl.
  - now destruct (Py.str_eqb s source).
  - rewrite Hs. destruct (Py.str_eqb s source); simpl; now rewrite IH.
Qed.

Lemma cut_by_all_full s target new :
  cut_by s target new -> all_full target new.
Proof.
  unfold cut_by, all_full. apply List.Forall_impl. now intros c [_ H].
Qed.

Lemma emitted_length source target q :
  0 < target -> all_full target q ->
  Z.of_nat (length (emitted source q)) mod target = 0.
Proof.
  intros Ht. unfold emitted. induction 1 as [|c q Hc Hq IH]; simpl.
  - apply Z.mod_0_l. lia.
  - destruct (Py.str_eqb _ _); [|exact IH]. simpl.
    rewrite length_app, Nat2Z.inj_add, Hc.
    rewrite <- Z.add_mod_idemp_l, Z.mod_same by lia. exact IH.
Qed.

Lemma fed_same_config source a b actions :
  same_config a b -> fed source a actions = fed source b actions.
Proof.
  intros (Hr & Hd & _). unfold fed. f_equal. apply map_ext.
  intros [s nr ch raw|s]; simpl; [|reflexivity]. now rewrite Hr, Hd.
Qed.

(** What a run keeps true: the queue holds full chunks only, every
    buffer holds less than a chunk, and for each source the chunks
    queued followed by its buffer are the samples it was fed. *)
Lemma run_spec target : 0 < target ->
  forall actions bufs self,
    chunk_samples (sample_rate self) (chunk_duration self) = Py.Ok target ->
    chunk_size self = target ->
    all_full target (audio_queue self) ->
    (forall s, Z.of_nat (length (bufs s)) < target) ->
    exists bufs' self',
      run time_at actions bufs self = Some (bufs', self')
      /\ same_config self self'
      /\ all_full target (audio_queue self')
      /\ (forall s, Z.of_nat (length (bufs' s)) < target)
      /\ (forallb is_read actions = true ->
          forall s,
            emitted s (audio_queue self') ++ bufs' s
            = emitted s (audio_queue self) ++ bufs s ++ fed s self actions).
Proof.
  intros Ht. induction actions as [|a actions IH];
    intros bufs self Hcs Hsize Hfull Hbuf.
  - exists bufs, self. simpl. split; [reflexivity|].
    split; [unfold same_config; auto|]. split; [exact Hfull|].
    split; [exact Hbuf|]. intros _ s. unfold fed. simpl.
    now rewrite app_nil_r.
  - assert (Hstep : exists bufs1 self1,
               step time_at a bufs self = Some (bufs1, self1)
               /\ same_config self self1
               /\ all_full target (audio_queue self1)
               /\ (forall s, Z.of_nat (length (bufs1 s)) < target)
               /\ (is_read a = true ->
                   forall s,
                     emitted s (audio_queue self1) ++ bufs1 s
                     = emitted s (audio_queue self) ++ bufs s
                       ++ fed_by s self a)).
    { destruct a as [src nr ch raw|src]; simpl.
      - rewrite Hcs.
        destruct (read_once_spec src nr ch target raw (bufs src) self Ht)
          as (b' & s' & new & Heq & Hq & Hcfg & Hcut & Hcat & Hlen).
        rewrite Heq. exists (set_buffer bufs src b'), s'.
        split; [reflexivity|]. split; [exact Hcfg|].
        split; [rewrite Hq; apply Forall_app; split;
                [exact Hfull | exact (cut_by_all_full _ _ _ Hcut)]|].
        split.
        + intros s. unfold set_buffer.
          destruct (Py.str_eqb s src) eqn:E; [|apply Hbuf].
          apply Hlen, Hbuf.
        + intros _ s. rewrite Hq, emitted_app.
          rewrite (emitted_cut_by s src target new Hcut).
          unfold set_buffer. rewrite (str_eqb_sym s src).
          destruct (Py.str_eqb src s) eqn:E.
          * apply str_eqb_spec in E. subst s.
            rewrite <- !app_assoc, Hcat. reflexivity.
          * now rewrite !app_nil_r.
      - unfold dummy_once. rewrite Hsize.
        destruct (target <? 0) eqn:E; [apply Z.ltb_lt in E; lia|].
        eexists bufs, _. split; [reflexivity|].
        split; [unfold same_config; auto|]. split.
        + simpl. apply Forall_app. split; [exact Hfull|].
          repeat constructor. simpl. rewrite repeat_length. lia.
        + split; [exact Hbuf | discriminate]. }
    destruct Hstep as (bufs1 & self1 & Hs & Hcfg & Hfull1 & Hbuf1 & Hcons1).
    destruct (IH bufs1 self1) as (bufs2 & self2 & Hr & Hcfg2 & Hfull2
                                  & Hbuf2 & Hcons2); auto.
    { destruct Hcfg as (<- & <- & _). exact Hcs. }
    { destruct Hcfg as (_ & _ & <-). exact Hsize. }
    exists bufs2, self2. cbn [run]. rewrite Hs.
    split; [exact Hr|].
    split; [unfold same_config in *; intuition congruence|].
    split; [exact Hfull2|]. split; [exact Hbuf2|].
    cbn [forallb]. intros Hreads s.
    apply andb_true_iff in Hreads as [Ha Hrest].
    rewrite (Hcons2 Hrest s), app_assoc, (Hcons1 Ha s).
    rewrite <- (fed_same_config s self self1 actions Hcfg).
    unfold fed. cbn [map concat]. now rewrite <- !app_assoc.
Qed.

Lemma init_spec sr cd self0 :
  init sr cd = Py.Ok self0 ->
  sample_rate self0 = sr /\ chunk_duration self0 = cd
  /\ chunk_samples sr cd = Py.Ok (chunk_size self0)
  /\ audio_queue self0 = [].
Proof.
  unfold init. destruct (chunk_samples sr cd) as [n|e]; simpl;
    [|discriminate].
  intros [= <-]. auto.
Qed.


Lemma fed_plain source self actions n :
  chunk_samples (sample_rate self) (chunk_duration self) = Py.Ok n ->
  forallb (plain_read (sample_rate self)) actions = true ->
  fed source self actions = raw_samples source actions.
Proof.
  intros Hn. unfold fed, raw_samples.
  induction actions as [|a actions IH]; [reflexivity|].
  cbn [forallb map concat]. intros H.
  apply andb_true_iff in H as [Ha Hrest]. rewrite (IH Hrest). f_equal.
  destruct a as [s nr ch raw|s]; [|discriminate]. simpl in *.
  apply andb_true_iff in Ha as [Hnr Hch]. apply Z.eqb_eq in Hnr. subst nr.
  rewrite Hn.
  destruct raw as [audio|e], (Py.str_eqb s source); try reflexivity. simpl.
  unfold prepare, to_mono. apply negb_true_iff in Hch. rewrite Hch. simpl.
  now rewrite Z.eqb_refl.
Qed.

Lemma plain_is_read sr actions :
  forallb (plain_read sr) actions = true -> forallb is_read actions = true.
Proof.
  induction actions as [|a actions IH]; [reflexivity|]. simpl.
  rewrite !andb_true_iff. intros [Ha Hrest]. split; [|auto].
  now destruct a.
Qed.

(** C6: when every round is a read at the target rate from a mono
    device, the samples of the chunks queued for a source, in queue
    order, are a prefix of the samples read for it, in the order read;
    what is missing is shorter than a chunk and still in the buffer; and
    when the number of samples read is a multiple of the chunk length,
    nothing is missing. *)
Theorem chunking_is_lossless :
  forall sr cd self0 actions source,
    init sr cd = Py.Ok self0 ->
    0 < chunk_size self0 ->
    forallb (plain_read sr) actions = true ->
    exists bufs self,
      run time_at actions (fun _ => []) self0 = Some (bufs, self)
      /\ raw_samples source actions
         = emitted source (audio_queue self) ++ bufs source
      /\ Z.of_nat (length (bufs source)) < chunk_size self0
      /\ (Z.of_nat (length (raw_samples source actions))
            mod chunk_size self0 = 0 ->
          emitted source (audio_queue self) = raw_samples source actions).
Proof.
  intros sr cd self0 actions source Hinit Hpos Hplain.
  destruct (init_spec _ _ _ Hinit) as (Hsr & Hcd & Hcs & Hq).
  destruct (run_spec (chunk_size self0) Hpos actions (fun _ => []) self0)
    as (bufs & self & Hrun & _ & Hfull & Hbuf & Hcons).
  - now rewrite Hsr, Hcd.
  - reflexivity.
  - rewrite Hq. constructor.
  - intros _. simpl. exact Hpos.
  - specialize (Hcons (plain_is_read _ _ Hplain) source).
    rewrite Hq in Hcons. simpl in Hcons.
    rewrite (fed_plain source self0 actions (chunk_size self0)) in Hcons
      by (rewrite ?Hsr, ?Hcd; assumption).
    exists bufs, self. split; [exact Hrun|]. split; [now symmetry|].
    split; [apply Hbuf|]. intros Hmod.
    assert (Hnil : bufs source = []).
    { pose proof (emitted_length source _ _ Hpos Hfull) as Hem.
      pose proof (Hbuf source) as Hlt.
      rewrite <- Hcons, length_app, Nat2Z.inj_add in Hmod.
      rewrite <- Z.add_mod_idemp_l, Hem, Z.add_0_l in Hmod by lia.
      rewrite Z.mod_small in Hmod by lia.
      destruct (bufs source); [reflexivity | simpl in Hmod; lia]. }
    rewrite Hnil, app_nil_r in Hcons. exact Hcons.
Qed.

End Chunking.



Lemma chunking_is_lossless_witness :
  exists bufs self,
    AudioCapture.run Doubles.clock Doubles.plain_rounds (fun _ => [])
      Doubles.small_capture = Some (bufs, self)
    /\ AudioCapture.emitted Doubles.you (AudioCapture.audio_queue self)
       = [1; 2; 3; 4]%float.
Proof.
  destruct (chunking_is_lossless Doubles.clock 4 0.5%float
              Doubles.small_capture Doubles.plain_rounds Doubles.you)
    as (bufs & self & Hrun & _ & _ & Hall).
  - vm_compute. reflexivity.
  - reflexivity.
  - reflexivity.
  - exists bufs, self. split; [exact Hrun|]. apply Hall. reflexivity.
Defined.

(** ** Resampling *)









(** ** JSON text ([Json]) *)

Lemma hex_value_digit d :
  (d < 16)%N -> Json.hex_value (Json.hex_digit d) = Some d.
Proof.
  intros H. destruct d as [|p]; [reflexivity|].
  do 4 (destruct p as [p|p|]; try reflexivity; try (exfalso; lia)).
Qed.

Lemma decode_escaped_control c rest :
  (c < 32)%N ->
  Json.decode_uXXXX
    (48%N :: 48%N :: Json.hex_digit (c / 16) :: Json.hex_digit (c mod 16)
       :: rest) = Some (c, rest).
Proof.
  intros H. unfold Json.decode_uXXXX.
  change (Json.hex_value 48) with (Some 0%N).
  rewrite !hex_value_digit.
  - do 2 f_equal. rewrite (N.div_mod c 16) at 3 by lia. lia.
  - apply N.mod_lt. lia.
  - apply N.Div0.div_lt_upper_bound; lia.
Qed.

(** The string scanner reads back what the encoder wrote for a string:
    every character, whatever it is. *)
Lemma scanstring_escaped s : forall fuel rest acc,
  (length (flat_map Json.escape_char s) < fuel)%nat ->
  Json.scanstring fuel (flat_map Json.escape_char s ++ Json.quote :: rest) acc
  = Some (rev acc ++ s, rest).
Proof.
  induction s as [|c s IH]; intros fuel rest acc Hfuel.
  - destruct fuel; [simpl in Hfuel; lia|]. simpl. now rewrite app_nil_r.
  - cbn [flat_map] in *. rewrite length_app in Hfuel.
    rewrite <- app_assoc.
    assert (Hnext : forall f, (length (flat_map Json.escape_char s) < f)%nat ->
              Json.scanstring f
                (flat_map Json.escape_char s ++ Json.quote :: rest) (c :: acc)
              = Some (rev acc ++ c :: s, rest)).
    { intros f Hf. rewrite IH by exact Hf. simpl. now rewrite <- app_assoc. }
    unfold Json.escape_char in *.
    destruct (N.eqb_spec c Json.quote) as [->|Hq];
      [destruct fuel; [simpl in Hfuel; lia|]; apply Hnext;
       simpl in Hfuel; lia|].
    destruct (N.eqb_spec c Json.backslash) as [->|Hb];
      [destruct fuel; [simpl in Hfuel; lia|]; apply Hnext;
       simpl in Hfuel; lia|].
    destruct (N.eqb_spec c 8) as [->|H8];
      [destruct fuel; [simpl in Hfuel; lia|]; apply Hnext;
       simpl in Hfuel; lia|].
    destruct (N.eqb_spec c 12) as [->|H12];
      [destruct fuel; [simpl in Hfuel; lia|]; apply Hnext;
       simpl in Hfuel; lia|].
    destruct (N.eqb_spec c Json.newline) as [->|Hn];
      [destruct fuel; [simpl in Hfuel; lia|]; apply Hnext;
       simpl in Hfuel; lia|].
    destruct (N.eqb_spec c Json.carriage_return) as [->|Hr];
      [destruct fuel; [simpl in Hfuel; lia|]; apply Hnext;
       simpl in Hfuel; lia|].
    destruct (N.eqb_spec c 9) as [->|H9];
      [destruct fuel; [simpl in Hfuel; lia|]; apply Hnext;
       simpl in Hfuel; lia|].
    destruct (N.ltb_spec c 32) as [Hlt|Hge].
    + destruct fuel; [simpl in Hfuel; lia|].
      cbn [Json.scanstring app].
      change (Json.backslash =? Json.quote)%N with false.
      change (Json.backslash =? Json.backslash)%N with true.
      change (117 =? 117)%N with true. cbv iota.
      rewrite decode_escaped_control by exact Hlt.
      replace ((55296 <=? c)%N) with false
        by (symmetry; apply N.leb_gt; lia).
      cbn [andb]. apply Hnext. simpl in Hfuel. lia.
    + destruct fuel; [simpl in Hfuel; lia|].
      cbn [Json.scanstring app].
      rewrite (proj2 (N.eqb_neq c Json.quote) Hq).
      rewrite (proj2 (N.eqb_neq c Json.backslash) Hb).
      rewrite (proj2 (N.ltb_ge c 32) Hge).
      apply Hnext. simpl in Hfuel. lia.
Qed.


Lemma digits_app a c b :
  Json.is_digit c = false ->
  Json.digits (a ++ c :: b)
  = (fst (Json.digits a), snd (Json.digits a) ++ c :: b).
Proof.
  intros Hc. induction a as [|x a IH]; simpl.
  - now rewrite Hc.
  - destruct (Json.is_digit x); [|reflexivity].
    rewrite IH. now destruct (Json.digits a).
Qed.

Lemma digits_chars a :
  forallb Json.is_digit (fst (Json.digits a)) = true.
Proof.
  induction a as [|x a IH]; simpl; [reflexivity|].
  destruct (Json.is_digit x) eqn:E; [|reflexivity].
  destruct (Json.digits a). simpl in *. now rewrite E.
Qed.

(** Each piece of the number pattern matches the same text when a
    character that ends a number follows. *)
Section NumberPieces.

Variables (c : N) (b : Py.str).
Hypothesis Hend : Json.ends_number c = true.

Lemma ends_number_inv :
  Json.is_digit c = false /\ (c =? 46)%N = false /\ (c =? 101)%N = false
  /\ (c =? 69)%N = false /\ (c =? 43)%N = false /\ (c =? 45)%N = false.
Proof using Hend.
  unfold Json.ends_number in Hend. apply negb_true_iff in Hend.
  apply orb_false_iff in Hend as [Hend H45].
  apply orb_false_iff in Hend as [Hend H43].
  apply orb_false_iff in Hend as [Hend H69].
  apply orb_false_iff in Hend as [Hend H101].
  apply orb_false_iff in Hend as [Hend H46].
  repeat split; assumption.
Qed.

Lemma sign_part_app a :
  a <> [] ->
  Json.sign_part (a ++ c :: b)
  = (fst (Json.sign_part a), snd (Json.sign_part a) ++ c :: b).
Proof using Type.
  destruct a as [|x a]; [contradiction|]. intros _. simpl.
  now destruct (x =? 45)%N.
Qed.

Lemma int_part_app a m r :
  Json.int_part a = Some (m, r) ->
  Json.int_part (a ++ c :: b) = Some (m, r ++ c :: b).
Proof using Hend.
  destruct ends_number_inv as (Hd & _).
  destruct a as [|x a]; [discriminate|]. simpl.
  destruct (x =? 48)%N; [now intros [= <- <-]|].
  destruct (Json.is_digit x); [|discriminate].
  rewrite digits_app by exact Hd. destruct (Json.digits a).
  now intros [= <- <-].
Qed.

Lemma frac_part_app a :
  Json.frac_part (a ++ c :: b)
  = (fst (Json.frac_part a), snd (Json.frac_part a) ++ c :: b).
Proof using Hend.
  destruct ends_number_inv as (Hd & Hp & _).
  destruct a as [|x a]; simpl; [now rewrite Hp|].
  destruct (x =? 46)%N; [|reflexivity].
  rewrite digits_app by exact Hd. destruct (Json.digits a) as [[|d ds] r];
    reflexivity.
Qed.

Lemma exp_sign_app a :
  Json.exp_sign (a ++ c :: b)
  = (fst (Json.exp_sign a), snd (Json.exp_sign a) ++ c :: b).
Proof using Hend.
  destruct ends_number_inv as (_ & _ & _ & _ & Hplus & Hminus).
  destruct a as [|x a]; simpl; [now rewrite Hplus, Hminus|].
  now destruct ((x =? 43) || (x =? 45))%N.
Qed.

Lemma exp_part_app a :
  Json.exp_part (a ++ c :: b)
  = (fst (Json.exp_part a), snd (Json.exp_part a) ++ c :: b).
Proof using Hend.
  destruct ends_number_inv as (Hd & _ & He & HE & _).
  destruct a as [|x a]; simpl; [now rewrite He, HE|].
  destruct ((x =? 101) || (x =? 69))%N; [|reflexivity].
  rewrite exp_sign_app. destruct (Json.exp_sign a) as [es r1]. simpl.
  rewrite digits_app by exact Hd.
  destruct (Json.digits r1) as [[|d ds] r]; reflexivity.
Qed.

(** A number is read the same when such a character follows it. *)
Lemma scan_number_app a m r :
  Json.scan_number a = Some (m, r) ->
  Json.scan_number (a ++ c :: b) = Some (m, r ++ c :: b).
Proof using Hend.
  unfold Json.scan_number.
  destruct a as [|x a]; [discriminate|].
  rewrite sign_part_app by discriminate.
  destruct (Json.sign_part (x :: a)) as [sg s1]. cbn [fst snd].
  destruct (Json.int_part s1) as [[int s2]|] eqn:Ei; [|discriminate].
  rewrite (int_part_app _ _ _ Ei).
  rewrite frac_part_app. destruct (Json.frac_part s2) as [fr s3].
  cbn [fst snd].
  rewrite exp_part_app. destruct (Json.exp_part s3) as [ex s4].
  cbn [fst snd]. now intros [= <- <-].
Qed.

End NumberPieces.

Lemma number_char_of_digit c :
  Json.is_digit c = true -> Json.number_char c = true.
Proof. unfold Json.number_char. now intros ->. Qed.

Lemma forallb_digits_number ds :
  forallb Json.is_digit ds = true -> forallb Json.number_char ds = true.
Proof.
  induction ds as [|d ds IH]; simpl; [reflexivity|].
  rewrite !andb_true_iff. intros [Hd Hds].
  split; [now apply number_char_of_digit | auto].
Qed.

(** What the number pattern matches starts with a digit or a minus sign
    and holds characters of numbers only. *)
Lemma scan_number_chars s m r :
  Json.scan_number s = Some (m, r) ->
  forallb Json.number_char m = true
  /\ exists c m', m = c :: m' /\ (Json.is_digit c = true \/ c = 45%N).
Proof.
  unfold Json.scan_number.
  destruct (Json.sign_part s) as [sg s1] eqn:Es.
  destruct (Json.int_part s1) as [[int s2]|] eqn:Ei; [|discriminate].
  destruct (Json.frac_part s2) as [fr s3] eqn:Ef.
  destruct (Json.exp_part s3) as [ex s4] eqn:Ee.
  intros [= <- <-].
  assert (Hsg : sg = [] \/ sg = [45%N]).
  { unfold Json.sign_part in Es. destruct s as [|x s]; [injection Es; auto|].
    destruct (N.eqb_spec x 45); injection Es as <- _; subst; auto. }
  assert (Hint : forallb Json.number_char int = true
                 /\ exists c i', int = c :: i' /\ Json.is_digit c = true).
  { unfold Json.int_part in Ei. destruct s1 as [|x s1]; [discriminate|].
    destruct (N.eqb_spec x 48).
    - injection Ei as <- _. subst. split; [reflexivity | eauto].
    - destruct (Json.is_digit x) eqn:Ex; [|discriminate].
      pose proof (digits_chars s1) as Hd.
      destruct (Json.digits s1) as [ds r']. injection Ei as <- _.
      cbn [fst] in Hd. split; [|eauto]. simpl.
      now rewrite (number_char_of_digit _ Ex), (forallb_digits_number _ Hd). }
  assert (Hfr : forallb Json.number_char fr = true).
  { unfold Json.frac_part in Ef.
    destruct s2 as [|x s2]; [now injection Ef as <-|].
    destruct (N.eqb_spec x 46); [|now injection Ef as <-].
    pose proof (digits_chars s2) as Hd.
    destruct (Json.digits s2) as [[|d ds] r']; injection Ef as <- _;
      [reflexivity|]. subst x. cbn [fst] in Hd.
    change (forallb Json.number_char (d :: ds) = true).
    now apply forallb_digits_number. }
  assert (Hex : forallb Json.number_char ex = true).
  { unfold Json.exp_part in Ee.
    destruct s3 as [|x s3]; [now injection Ee as <-|].
    destruct ((x =? 101) || (x =? 69))%N eqn:Ex; [|now injection Ee as <-].
    destruct (Json.exp_sign s3) as [es r1] eqn:Esg.
    pose proof (digits_chars r1) as Hd.
    destruct (Json.digits r1) as [[|d ds] r']; injection Ee as <- _;
      [reflexivity|]. cbn [fst] in Hd.
    assert (Hes : forallb Json.number_char es = true).
    { unfold Json.exp_sign in Esg. destruct s3 as [|y s3];
        [now injection Esg as <-|].
      destruct ((y =? 43) || (y =? 45))%N eqn:Ey;
        injection Esg as <- _; [|reflexivity].
      simpl. unfold Json.number_char.
      apply orb_true_iff in Ey as [->| ->];
        rewrite ?orb_true_r; reflexivity. }
    cbn [forallb]. rewrite forallb_app, Hes.
    rewrite (forallb_digits_number _ Hd).
    unfold Json.number_char.
    apply orb_true_iff in Ex as [->| ->]; rewrite ?orb_true_r; reflexivity. }
  destruct Hint as (Hic & c & i' & -> & Hc).
  split.
  - rewrite !forallb_app, Hic, Hfr, Hex.
    destruct Hsg as [->| ->]; reflexivity.
  - destruct Hsg as [->| ->]; simpl; eauto.
Qed.

Lemma number_literal_spec ts :
  Json.number_literal ts = true -> Json.scan_number ts = Some (ts, []).
Proof.
  unfold Json.number_literal.
  destruct (Json.scan_number ts) as [[m [|x r]]|]; try discriminate.
  intros H. apply str_eqb_spec in H. now subst.
Qed.

(** The scanner reads an encoded string back. *)
Lemma scan_once_string fuel s tail :
  Json.scan_once (Datatypes.S fuel) (Json.encode_string s ++ tail)
  = Some (Json.Str s, tail).
Proof.
  unfold Json.encode_string. cbn [Json.scan_once app].
  change (Json.quote =? Json.quote)%N with true. cbv iota.
  rewrite <- app_assoc. cbn [app].
  rewrite scanstring_escaped; [reflexivity|].
  rewrite length_app. simpl. lia.
Qed.

(** The scanner reads a number literal back when a character that ends
    a number follows. *)
Lemma scan_once_number fuel ts c b :
  Json.number_literal ts = true ->
  Json.ends_number c = true ->
  Json.scan_once (Datatypes.S fuel) (ts ++ c :: b)
  = Some (Json.Num ts, c :: b).
Proof.
  intros Hlit Hend. apply number_literal_spec in Hlit.
  pose proof (scan_number_app c b Hend ts ts [] Hlit) as Hscan.
  destruct (scan_number_chars _ _ _ Hlit) as (_ & x & ts' & -> & Hx).
  cbn [app] in *. cbn [Json.scan_once].
  assert (Hrange : (48 <= x <= 57)%N \/ x = 45%N).
  { destruct Hx as [Hx|Hx]; [left|now right].
    unfold Json.is_digit in Hx. apply andb_true_iff in Hx as [H1 H2].
    apply N.leb_le in H1, H2. lia. }
  unfold Json.quote.
  rewrite (proj2 (N.eqb_neq x 34)), (proj2 (N.eqb_neq x 123)),
    (proj2 (N.eqb_neq x 91)) by lia.
  unfold Json.strip_prefix. cbn [Py.of_string list_ascii_of_string map
    Py.startswith].
  change (N_of_ascii "n") with 110%N. change (N_of_ascii "t") with 116%N.
  change (N_of_ascii "f") with 102%N.
  rewrite (proj2 (N.eqb_neq 110 x)), (proj2 (N.eqb_neq 116 x)),
    (proj2 (N.eqb_neq 102 x)) by lia.
  cbn [andb]. now rewrite Hscan.
Qed.

(** One member of an object: the key, the colon, the value; then the
    scanner goes on with what follows the value. *)
Lemma scan_members_step fuel key v tail acc :
  Json.scan_once fuel (Json.dumps v ++ tail) = Some (v, tail) ->
  Json.skip_ws (Json.dumps v ++ tail) = Json.dumps v ++ tail ->
  Json.scan_members (Datatypes.S fuel)
    (Json.encode_string key ++ Py.of_string ": " ++ Json.dumps v ++ tail) acc
  = match Json.skip_ws tail with
    | c :: r =>
        if (c =? 125)%N then Some (Json.Obj (Json.dict_set acc key v), r)
        else if (c =? 44)%N then
          Json.scan_members fuel (Json.skip_ws r) (Json.dict_set acc key v)
        else None
    | [] => None
    end.
Proof.
  intros Hv Hws. unfold Json.encode_string.
  cbn [Json.scan_members app].
  change (Json.quote =? Json.quote)%N with true. cbv iota.
  rewrite <- app_assoc. cbn [app].
  rewrite scanstring_escaped by (rewrite length_app; simpl; lia).
  cbn [app rev].
  change (Py.of_string ": " ++ Json.dumps v ++ tail)
    with (58%N :: 32%N :: Json.dumps v ++ tail).
  cbn [Json.skip_ws]. change (Json.is_ws 58) with false. cbv iota.
  change (58 =? 58)%N with true. cbv iota.
  change (Json.skip_ws (32%N :: Json.dumps v ++ tail))
    with (Json.skip_ws (Json.dumps v ++ tail)).
  rewrite Hws, Hv. reflexivity.
Qed.

(** The scanner reads back the line [add_transcript] writes for an
    entry. *)
Lemma scan_once_entry speaker text timestamp fuel :
  Json.number_literal timestamp = true ->
  Json.scan_once (5 + fuel)
    (Json.dumps (SessionManager.entry speaker text timestamp))
  = Some (SessionManager.entry speaker text timestamp, []).
Proof.
  intros Hlit.
  unfold SessionManager.entry. cbn [Json.dumps map Py.join fst snd].
  change (5 + fuel)%nat with (Datatypes.S (Datatypes.S (3 + fuel))).
  cbn [Json.scan_once].
  change (123 =? Json.quote)%N with false.
  change (123 =? 123)%N with true. cbv iota.
  rewrite <- !app_assoc.
  set (k1 := Py.of_string "speaker"). set (k2 := Py.of_string "text").
  set (k3 := Py.of_string "timestamp").
  assert (Hskip : forall k rest,
            Json.skip_ws (Json.encode_string k ++ rest)
            = Json.encode_string k ++ rest) by reflexivity.
  rewrite Hskip.
  change (Json.encode_string k1 ++ ?x)
    with (Json.quote :: (flat_map Json.escape_char k1 ++ [Json.quote]) ++ x).
  cbv iota. change (Json.quote =? 125)%N with false. cbv iota.
  change (Json.quote :: (flat_map Json.escape_char k1 ++ [Json.quote]) ++ ?x)
    with (Json.encode_string k1 ++ x).
  change (Json.encode_string speaker)
    with (Json.dumps (Json.Str speaker)).
  change (Json.encode_string text) with (Json.dumps (Json.Str text)).
  change timestamp with (Json.dumps (Json.Num timestamp)) at 1.
  rewrite scan_members_step;
    [|apply scan_once_string | reflexivity].
  change (Py.of_string ", " ++ ?x) with (44%N :: 32%N :: x).
  cbn [Json.skip_ws]. change (Json.is_ws 44) with false. cbv iota.
  change (44 =? 125)%N with false. change (44 =? 44)%N with true. cbv iota.
  change (Json.skip_ws (32%N :: ?x)) with (Json.skip_ws x).
  rewrite Hskip.
  change (3 + fuel)%nat with (Datatypes.S (2 + fuel)).
  rewrite scan_members_step;
    [|apply scan_once_string | reflexivity].
  change (Py.of_string ", " ++ ?x) with (44%N :: 32%N :: x).
  cbn [Json.skip_ws]. change (Json.is_ws 44) with false. cbv iota.
  change (44 =? 125)%N with false. change (44 =? 44)%N with true. cbv iota.
  change (Json.skip_ws (32%N :: ?x)) with (Json.skip_ws x).
  rewrite Hskip.
  change (2 + fuel)%nat with (Datatypes.S (1 + fuel)).
  destruct (scan_number_chars _ _ _ (number_literal_spec _ Hlit))
    as (_ & x & ts' & Hts & Hx).
  rewrite scan_members_step.
  - reflexivity.
  - cbn [Json.dumps]. now apply scan_once_number.
  - cbn [Json.dumps]. rewrite Hts. cbn [app Json.skip_ws].
    replace (Json.is_ws x) with false; [reflexivity|].
    unfold Json.is_ws, Json.is_digit in *.
    destruct Hx as [Hx| ->]; [|reflexivity].
    apply andb_true_iff in Hx as [H1 H2]. apply N.leb_le in H1, H2.
    rewrite !(proj2 (N.eqb_neq x _)) by lia. reflexivity.
Qed.


(** [json.loads] gives back the entry [json.dumps] wrote. *)
Lemma loads_dumps_entry speaker text timestamp :
  Json.number_literal timestamp = true ->
  Json.loads (Json.dumps (SessionManager.entry speaker text timestamp))
  = Py.Ok (SessionManager.entry speaker text timestamp).
Proof.
  intros Hlit. unfold Json.loads.
  set (line := Json.dumps (SessionManager.entry speaker text timestamp)).
  assert (Hskip : Json.skip_ws line = line) by reflexivity.
  assert (Hlen : (4 <= length line)%nat).
  { unfold line, SessionManager.entry. cbn [Json.dumps map Py.join fst snd].
    cbn [length]. rewrite !length_app. simpl. lia. }
  destruct (Nat.le_exists_sub 4 (length line) Hlen) as (g & Hg & _).
  rewrite Hskip, Hg.
  replace (Datatypes.S (g + 4)) with (5 + g)%nat by lia.
  unfold line. now rewrite scan_once_entry.
Qed.

Lemma escape_char_no_breaks c :
  SessionManager.no_breaks (Json.escape_char c) = true.
Proof.
  unfold Json.escape_char.
  destruct (N.eqb_spec c Json.quote); [reflexivity|].
  destruct (N.eqb_spec c Json.backslash); [reflexivity|].
  destruct (N.eqb_spec c 8); [reflexivity|].
  destruct (N.eqb_spec c 12); [reflexivity|].
  destruct (N.eqb_spec c Json.newline); [reflexivity|].
  destruct (N.eqb_spec c Json.carriage_return); [reflexivity|].
  destruct (N.eqb_spec c 9); [reflexivity|].
  destruct (N.ltb_spec c 32) as [Hlt|Hge].
  - unfold SessionManager.no_breaks. cbn [forallb].
    assert (Hhex : forall d, (d < 16)%N ->
              negb (Json.hex_digit d =? Json.newline)%N
              && negb (Json.hex_digit d =? Json.carriage_return)%N = true).
    { intros d Hd. unfold Json.hex_digit, Json.newline, Json.carriage_return.
      destruct (N.ltb_spec d 10);
        rewrite !(proj2 (N.eqb_neq _ _)) by lia; reflexivity. }
    rewrite !Hhex; [reflexivity | apply N.mod_lt; lia
                   | apply N.Div0.div_lt_upper_bound; lia].
  - unfold SessionManager.no_breaks. cbn [forallb].
    rewrite (proj2 (N.eqb_neq c Json.newline)),
      (proj2 (N.eqb_neq c Json.carriage_return)) by assumption.
    reflexivity.
Qed.

Lemma no_breaks_app a b :
  SessionManager.no_breaks (a ++ b)
  = SessionManager.no_breaks a && SessionManager.no_breaks b.
Proof. apply forallb_app. Qed.

Lemma encode_string_no_breaks s :
  SessionManager.no_breaks (Json.encode_string s) = true.
Proof.
  unfold Json.encode_string.
  change (Json.quote :: ?x) with ([Json.quote] ++ x).
  rewrite !no_breaks_app. cbn [andb].
  replace (SessionManager.no_breaks (flat_map Json.escape_char s)) with true;
    [reflexivity|].
  symmetry. induction s as [|c s IH]; [reflexivity|].
  cbn [flat_map]. now rewrite no_breaks_app, escape_char_no_breaks, IH.
Qed.

Lemma number_no_breaks ts :
  forallb Json.number_char ts = true -> SessionManager.no_breaks ts = true.
Proof.
  unfold SessionManager.no_breaks. induction ts as [|c ts IH];
    [reflexivity|].
  cbn [forallb]. rewrite !andb_true_iff. intros [Hc Hts].
  split; [|auto].
  unfold Json.number_char, Json.is_digit in Hc.
  unfold Json.newline, Json.carriage_return.
  destruct (N.eqb_spec c 10) as [->|_]; [discriminate|].
  destruct (N.eqb_spec c 13) as [->|_]; [discriminate|]. auto.
Qed.

(** The line written for an entry: it opens with a brace, closes with a
    brace, and holds no line break. *)
Lemma dumps_entry_shape speaker text timestamp :
  Json.number_literal timestamp = true ->
  exists body,
    Json.dumps (SessionManager.entry speaker text timestamp)
    = 123%N :: body ++ [125%N]
    /\ SessionManager.no_breaks body = true.
Proof.
  intros Hlit. eexists. split.
  - unfold SessionManager.entry. cbn [Json.dumps]. reflexivity.
  - cbn [map Py.join fst snd Json.dumps]. rewrite !no_breaks_app.
    rewrite !encode_string_no_breaks.
    destruct (scan_number_chars _ _ _ (number_literal_spec _ Hlit))
      as (Hch & _).
    now rewrite (number_no_breaks _ Hch).
Qed.

(** ** Lines of a text file *)

Lemma translate_no_breaks l rest :
  SessionManager.no_breaks l = true ->
  SessionManager.translate_newlines false (l ++ Json.newline :: rest)
  = l ++ Json.newline :: SessionManager.translate_newlines false rest.
Proof.
  induction l as [|c l IH]; [reflexivity|].
  cbn [SessionManager.no_breaks forallb app SessionManager.translate_newlines].
  rewrite !andb_true_iff, !negb_true_iff. intros [[Hn Hr] Hl].
  rewrite Hr, Hn. cbn [andb]. f_equal. now apply IH.
Qed.

Lemma translate_app p rest : forall pending,
  SessionManager.translate_newlines pending ((p ++ [Json.newline]) ++ rest)
  = SessionManager.translate_newlines pending (p ++ [Json.newline])
    ++ SessionManager.translate_newlines false rest.
Proof.
  induction p as [|c p IH]; intros pending.
  - cbn. now destruct pending.
  - cbn [app SessionManager.translate_newlines].
    destruct (c =? Json.carriage_return)%N; [now rewrite IH|].
    destruct ((c =? Json.newline)%N && pending); now rewrite IH.
Qed.

Lemma translate_ends p : forall pending,
  (SessionManager.translate_newlines pending (p ++ [Json.newline]) = []
   /\ pending = true /\ p = [])
  \/ exists q,
       SessionManager.translate_newlines pending (p ++ [Json.newline])
       = q ++ [Json.newline].
Proof.
  induction p as [|c p IH]; intros pending.
  - destruct pending; [left; auto | right; now exists []].
  - right. cbn [app SessionManager.translate_newlines].
    destruct (c =? Json.carriage_return)%N.
    + destruct (IH true) as [(-> & _) | (q & ->)];
        [now exists [] | now exists (Json.newline :: q)].
    + destruct ((c =? Json.newline)%N && pending).
      * destruct (IH false) as [(_ & Hf & _) | (q & ->)];
          [discriminate | now exists q].
      * destruct (IH false) as [(_ & Hf & _) | (q & ->)];
          [discriminate | now exists (c :: q)].
Qed.

Lemma split_lines_line l : forall cur,
  SessionManager.no_breaks l = true ->
  SessionManager.split_lines (l ++ [Json.newline]) cur
  = [rev cur ++ l ++ [Json.newline]].
Proof.
  induction l as [|c l IH]; intros cur.
  - reflexivity.
  - cbn [SessionManager.no_breaks forallb app SessionManager.split_lines].
    rewrite !andb_true_iff, !negb_true_iff. intros [[Hn _] Hl].
    rewrite Hn, IH by exact Hl. cbn [rev]. now rewrite <- app_assoc.
Qed.

Lemma split_lines_app q rest : forall cur,
  SessionManager.split_lines ((q ++ [Json.newline]) ++ rest) cur
  = SessionManager.split_lines (q ++ [Json.newline]) cur
    ++ SessionManager.split_lines rest [].
Proof.
  induction q as [|c q IH]; intros cur.
  - reflexivity.
  - cbn [app SessionManager.split_lines].
    destruct (c =? Json.newline)%N; now rewrite IH.
Qed.

Lemma ends_lines_spec text :
  SessionManager.ends_lines text = true ->
  text = [] \/ exists p, text = p ++ [Json.newline].
Proof.
  unfold SessionManager.ends_lines.
  destruct (rev text) as [|c r] eqn:E.
  - left. apply (f_equal (@rev N)) in E. now rewrite rev_involutive in E.
  - intros H. apply N.eqb_eq in H. subst c. right. exists (rev r).
    apply (f_equal (@rev N)) in E. now rewrite rev_involutive in E.
Qed.

(** Appending a line to a text that is empty or ends with a newline
    adds that line to the lines read, and nothing else. *)
Lemma readlines_append text l :
  SessionManager.ends_lines text = true ->
  SessionManager.no_breaks l = true ->
  SessionManager.readlines (text ++ l ++ [Json.newline])
  = SessionManager.readlines text ++ [l ++ [Json.newline]].
Proof.
  intros Hends Hl. unfold SessionManager.readlines,
    SessionManager.universal_newlines.
  assert (Hline : SessionManager.split_lines
                    (SessionManager.translate_newlines false
                       (l ++ [Json.newline])) []
                  = [l ++ [Json.newline]]).
  { rewrite translate_no_breaks by exact Hl. cbn.
    now rewrite split_lines_line. }
  destruct (ends_lines_spec _ Hends) as [->|(p & ->)]; [exact Hline|].
  rewrite translate_app.
  destruct (translate_ends p false) as [(_ & Hf & _)|(q & ->)];
    [discriminate|].
  now rewrite split_lines_app, Hline.
Qed.

Lemma load_lines_app l1 l2 : forall entries,
  SessionManager.load_lines (l1 ++ l2) entries
  = Py.bind (SessionManager.load_lines l1 entries)
      (SessionManager.load_lines l2).
Proof.
  induction l1 as [|line l1 IH]; intros entries; [reflexivity|].
  cbn [app SessionManager.load_lines].
  destruct (Py.is_empty (Py.strip line)); [apply IH|].
  destruct (Json.loads (Py.strip line)); [apply IH | reflexivity].
Qed.

(** The line of an entry is read back as that entry. *)
Lemma load_entry_line speaker text timestamp entries :
  Json.number_literal timestamp = true ->
  SessionManager.load_lines
    [Json.dumps (SessionManager.entry speaker text timestamp)
       ++ [Json.newline]] entries
  = Py.Ok (entries ++ [SessionManager.entry speaker text timestamp]).
Proof.
  intros Hlit. cbn [SessionManager.load_lines].
  destruct (dumps_entry_shape speaker text timestamp Hlit)
    as (body & Hshape & _).
  assert (Hstrip : Py.strip
            (Json.dumps (SessionManager.entry speaker text timestamp)
               ++ [Json.newline])
          = Json.dumps (SessionManager.entry speaker text timestamp)).
  { rewrite Hshape. cbn [app]. rewrite <- app_assoc. cbn [app].
    now apply strip_wrapped. }
  rewrite Hstrip, loads_dumps_entry by exact Hlit.
  now rewrite Hshape.
Qed.

(** ** The transcript log ([SessionManager]) *)

Lemma encodable_app a b :
  SessionManager.encodable (a ++ b)
  = SessionManager.encodable a && SessionManager.encodable b.
Proof. apply forallb_app. Qed.

Lemma escape_char_encodable c :
  SessionManager.encodable [c] = true ->
  SessionManager.encodable (Json.escape_char c) = true.
Proof.
  intros Hc. unfold Json.escape_char.
  destruct (c =? Json.quote)%N; [reflexivity|].
  destruct (c =? Json.backslash)%N; [reflexivity|].
  destruct (c =? 8)%N; [reflexivity|].
  destruct (c =? 12)%N; [reflexivity|].
  destruct (c =? Json.newline)%N; [reflexivity|].
  destruct (c =? Json.carriage_return)%N; [reflexivity|].
  destruct (c =? 9)%N; [reflexivity|].
  destruct (N.ltb_spec c 32) as [Hlt|Hge]; [|exact Hc].
  assert (Hhex : forall d, (d < 16)%N ->
            SessionManager.encodable [Json.hex_digit d] = true).
  { intros d Hd. unfold SessionManager.encodable, Json.hex_digit.
    cbn [forallb]. rewrite andb_true_r.
    destruct (N.ltb_spec d 10).
    - rewrite (proj2 (N.ltb_lt _ _)), (proj2 (N.leb_gt 55296 _)) by lia.
      reflexivity.
    - rewrite (proj2 (N.ltb_lt _ _)), (proj2 (N.leb_gt 55296 _)) by lia.
      reflexivity. }
  change (SessionManager.encodable
            ([Json.backslash; 117%N; 48%N; 48%N]
               ++ [Json.hex_digit (c / 16)] ++ [Json.hex_digit (c mod 16)])
          = true).
  rewrite !encodable_app, !Hhex;
    [reflexivity | apply N.mod_lt; lia
    | apply N.Div0.div_lt_upper_bound; lia].
Qed.

Lemma encode_string_encodable s :
  SessionManager.encodable s = true ->
  SessionManager.encodable (Json.encode_string s) = true.
Proof.
  intros Hs. unfold Json.encode_string.
  change (Json.quote :: ?x) with ([Json.quote] ++ x).
  rewrite !encodable_app. cbn [andb].
  replace (SessionManager.encodable (flat_map Json.escape_char s)) with true;
    [reflexivity|].
  symmetry. induction s as [|c s IH]; [reflexivity|].
  change (c :: s) with ([c] ++ s) in Hs. rewrite encodable_app in Hs.
  apply andb_true_iff in Hs as [Hc Hs].
  cbn [flat_map]. now rewrite encodable_app, escape_char_encodable, IH.
Qed.

(** The line of an entry is accepted by the codec when its fields are. *)
Lemma entry_line_encodable speaker text timestamp :
  SessionManager.encodable speaker = true ->
  SessionManager.encodable text = true ->
  SessionManager.encodable timestamp = true ->
  SessionManager.encodable
    (Json.dumps (SessionManager.entry speaker text timestamp)
       ++ [Json.newline]) = true.
Proof.
  intros Hs Ht Hn. unfold SessionManager.entry.
  cbn [Json.dumps map Py.join fst snd].
  change (123%N :: ?x) with ([123%N] ++ x).
  rewrite !encodable_app.
  rewrite !encode_string_encodable by (assumption || reflexivity).
  rewrite Hn. reflexivity.
Qed.

Lemma number_encodable ts :
  forallb Json.number_char ts = true -> SessionManager.encodable ts = true.
Proof.
  unfold SessionManager.encodable. induction ts as [|c ts IH];
    [reflexivity|].
  cbn [forallb]. rewrite !andb_true_iff. intros [Hc Hts].
  split; [|auto].
  assert (Hsmall : (c < 128)%N).
  { unfold Json.number_char, Json.is_digit in Hc.
    repeat (apply orb_true_iff in Hc as [Hc|Hc]);
      try (apply N.eqb_eq in Hc; lia).
    apply andb_true_iff in Hc as [_ Hc]. apply N.leb_le in Hc. lia. }
  split; [apply N.ltb_lt; lia|].
  rewrite (proj2 (N.leb_gt 55296 c)) by lia. reflexivity.
Qed.

Lemma load_transcript_text sid d :
  SessionManager._load_transcript sid d
  = SessionManager.load_lines
      (SessionManager.readlines (SessionManager.transcript_text sid d)) [].
Proof.
  unfold SessionManager._load_transcript, SessionManager.transcript_text.
  now destruct (SessionManager.files d !! _).
Qed.

(** [add_transcript] with a session whose directory exists, on fields
    the codec accepts: the entry joins the in-memory log, its line
    joins the transcript file, the metadata file is rewritten, and
    nothing else changes. *)
Lemma add_transcript_active speaker text timestamp now self d session :
  SessionManager._current_session self = Some session ->
  SessionManager.id session ∈ SessionManager.dirs d ->
  SessionManager.encodable speaker = true ->
  SessionManager.encodable text = true ->
  SessionManager.encodable timestamp = true ->
  exists r session' metadata_text,
    SessionManager.add_transcript speaker text timestamp now self d
    = (r,
       SessionManager.mk (Some session')
         (SessionManager._transcript_log self
            ++ [SessionManager.entry speaker text timestamp]),
       SessionManager.mkDisk (SessionManager.dirs d)
         (<[(SessionManager.id session, SessionManager.metadata_json)
            := metadata_text]>
            (<[(SessionManager.id session, SessionManager.transcript_jsonl)
               := SessionManager.transcript_text (SessionManager.id session) d
                  ++ Json.dumps (SessionManager.entry speaker text timestamp)
                  ++ [Json.newline]]>
               (SessionManager.files d))))
    /\ SessionManager.id session' = SessionManager.id session.
Proof.
  intros Hcur Hdir Hs Ht Hn.
  unfold SessionManager.add_transcript. cbn [SessionManager._current_session].
  rewrite Hcur. unfold SessionManager._append_to_log.
  cbn [SessionManager._current_session].
  unfold SessionManager.write_file at 1.
  rewrite (bool_decide_eq_true_2 _ Hdir).
  cbn [SessionManager.write_chunks].
  rewrite (entry_line_encodable _ _ _ Hs Ht Hn). rewrite app_nil_r.
  unfold SessionManager._update_timestamp.
  cbn [SessionManager._current_session].
  unfold SessionManager._save_metadata, SessionManager.write_file.
  cbn [SessionManager.id SessionManager.dirs SessionManager.files].
  rewrite (bool_decide_eq_true_2 _ Hdir).
  destruct (SessionManager.write_chunks _) as [mtext ok].
  cbn [app]. eexists _, _, mtext. split; reflexivity.
Qed.

Lemma metadata_is_not_transcript (sid : Py.str) :
  (sid, SessionManager.metadata_json) <> (sid, SessionManager.transcript_jsonl).
Proof. intros H. inversion H. Qed.

(** The text of the transcript file after [add_transcript_active]. *)
Lemma transcript_text_after (sid : Py.str) files0 dirs0 metadata_text line :
  SessionManager.transcript_text sid
    (SessionManager.mkDisk dirs0
       (<[(sid, SessionManager.metadata_json) := metadata_text]>
          (<[(sid, SessionManager.transcript_jsonl) := line]> files0)))
  = line.
Proof.
  unfold SessionManager.transcript_text. cbn [SessionManager.files].
  rewrite lookup_insert_ne by apply metadata_is_not_transcript.
  now rewrite lookup_insert_eq.
Qed.

Lemma ends_lines_append text l :
  SessionManager.ends_lines (text ++ l ++ [Json.newline]) = true.
Proof.
  unfold SessionManager.ends_lines.
  rewrite app_assoc, rev_app_distr. reflexivity.
Qed.

(** A session just created, with no transcript file of that id on the
    disk before, is ready for segments to be appended: it is the
    current session, its directory exists, and its transcript is
    empty. *)
Lemma create_session_ready session_id session_name now self d metadata
  self' d' :
  SessionManager.create_session session_id session_name now self d
  = (Py.Ok metadata, self', d') ->
  SessionManager.files d !! (session_id, SessionManager.transcript_jsonl)
  = None ->
  SessionManager._current_session self' = Some metadata
  /\ SessionManager.id metadata = session_id
  /\ session_id ∈ SessionManager.dirs d'
  /\ SessionManager._transcript_log self' = []
  /\ SessionManager.transcript_text session_id d' = []
  /\ SessionManager._load_transcript session_id d' = Py.Ok [].
Proof.
  unfold SessionManager.create_session, SessionManager._save_metadata,
    SessionManager.write_file.
  cbn [SessionManager.id SessionManager.dirs SessionManager.files].
  rewrite bool_decide_eq_true_2 by set_solver.
  destruct (SessionManager.write_chunks _) as [mtext [|]];
    [|discriminate].
  intros [= <- <- <-] Hnone.
  split; [reflexivity|]. split; [reflexivity|].
  split; [cbn; set_solver|]. split; [reflexivity|].
  unfold SessionManager.transcript_text, SessionManager._load_transcript.
  simpl.
  split;
    match goal with
    | |- context [@lookup ?K ?A ?M ?I ?k ?m] =>
        replace (@lookup K A M I k m) with (@None Py.str);
          [reflexivity|];
        symmetry;
        rewrite lookup_insert_ne by apply metadata_is_not_transcript;
        exact Hnone
    end.
Qed.

(** C10: with no session, [add_transcript] returns normally with the
    entry appended to the in-memory log, the session still absent and
    the disk as it was.  With a session (its directory in place, the
    fields accepted by the codec), the entry is appended to the
    in-memory log as well, the transcript file of that session grows by
    exactly the line of that entry, and no file other than it and the
    session's metadata file changes. *)
Theorem add_transcript_writes_only_with_session :
  forall speaker text timestamp now self d,
    (SessionManager._current_session self = None ->
     SessionManager.add_transcript speaker text timestamp now self d
     = (Py.Ok tt,
        SessionManager.mk None
          (SessionManager._transcript_log self
             ++ [SessionManager.entry speaker text timestamp]),
        d))
    /\ (forall session,
          SessionManager._current_session self = Some session ->
          SessionManager.id session ∈ SessionManager.dirs d ->
          SessionManager.encodable speaker = true ->
          SessionManager.encodable text = true ->
          SessionManager.encodable timestamp = true ->
          exists r self' d',
            SessionManager.add_transcript speaker text timestamp now self d
            = (r, self', d')
            /\ SessionManager._transcript_log self'
               = SessionManager._transcript_log self
                 ++ [SessionManager.entry speaker text timestamp]
            /\ SessionManager.transcript_text (SessionManager.id session) d'
               = SessionManager.transcript_text (SessionManager.id session) d
                 ++ Json.dumps (SessionManager.entry speaker text timestamp)
                 ++ [Json.newline]
            /\ SessionManager.dirs d' = SessionManager.dirs d
            /\ forall key,
                 key <> (SessionManager.id session,
                         SessionManager.transcript_jsonl) ->
                 key <> (SessionManager.id session,
                         SessionManager.metadata_json) ->
                 SessionManager.files d' !! key
                 = SessionManager.files d !! key).
Proof.
  intros speaker text timestamp now self d. split.
  - intros Hnone. unfold SessionManager.add_transcript.
    cbn [SessionManager._current_session]. now rewrite Hnone.
  - intros session Hcur Hdir Hs Ht Hn.
    destruct (add_transcript_active speaker text timestamp now self d
                session Hcur Hdir Hs Ht Hn)
      as (r & session' & mtext & Heq & _).
    eexists _, _, _. split; [exact Heq|].
    split; [reflexivity|]. split; [apply transcript_text_after|].
    split; [reflexivity|].
    intros key Hk1 Hk2. cbn [SessionManager.files].
    rewrite !lookup_insert_ne by congruence. reflexivity.
Qed.

(** Appending segments and loading the transcript, in terms of the
    entries [add_transcript] builds. *)
Lemma add_transcripts_load :
  forall segments self d session old,
    SessionManager._current_session self = Some session ->
    SessionManager.id session ∈ SessionManager.dirs d ->
    forallb SessionManager.storable segments = true ->
    SessionManager.ends_lines
      (SessionManager.transcript_text (SessionManager.id session) d) = true ->
    SessionManager._load_transcript (SessionManager.id session) d
    = Py.Ok old ->
    SessionManager._load_transcript (SessionManager.id session)
      (snd (SessionManager.add_transcripts segments self d))
    = Py.Ok (old ++ map SessionManager.entry_of segments)
    /\ SessionManager._transcript_log
         (fst (SessionManager.add_transcripts segments self d))
       = SessionManager._transcript_log self
         ++ map SessionManager.entry_of segments.
Proof.
  induction segments as [|[[[speaker text] timestamp] now] segments IH];
    intros self d session old Hcur Hdir Hok Hends Hload.
  - cbn. now rewrite Hload, !app_nil_r.
  - cbn [forallb SessionManager.storable] in Hok.
    apply andb_true_iff in Hok as [Hseg Hrest].
    apply andb_true_iff in Hseg as [Hseg Hlit].
    apply andb_true_iff in Hseg as [Hs Ht].
    destruct (scan_number_chars _ _ _ (number_literal_spec _ Hlit))
      as (Hchars & _).
    destruct (add_transcript_active speaker text timestamp now self d
                session Hcur Hdir Hs Ht (number_encodable _ Hchars))
      as (r & session' & mtext & Heq & Hid).
    cbn [SessionManager.add_transcripts]. rewrite Heq.
    destruct (dumps_entry_shape speaker text timestamp Hlit)
      as (body & Hshape & Hbody).
    assert (Hline : SessionManager.no_breaks
                      (Json.dumps (SessionManager.entry speaker text
                                     timestamp)) = true).
    { rewrite Hshape. change (123%N :: ?x) with ([123%N] ++ x).
      now rewrite !no_breaks_app, Hbody. }
    rewrite <- Hid in *.
    match goal with
    | |- context [SessionManager.add_transcripts segments ?s ?dd] =>
        destruct (IH s dd session'
                    (old ++ [SessionManager.entry speaker text timestamp]))
          as [Hload' Hlog']
    end.
    + reflexivity.
    + exact Hdir.
    + exact Hrest.
    + rewrite transcript_text_after. apply ends_lines_append.
    + rewrite load_transcript_text, transcript_text_after.
      rewrite readlines_append by assumption.
      rewrite load_lines_app, <- load_transcript_text, Hload.
      cbn [Py.bind]. now apply load_entry_line.
    + rewrite Hload', Hlog'. cbn [map SessionManager.entry_of
        SessionManager._transcript_log].
      now rewrite <- !app_assoc.
Qed.

(** C8: with a session whose directory is in place and whose
    transcript file is empty, absent, or ends with a newline and loads
    as the entries [old], appending segments (text the codec accepts,
    timestamps that are numbers) one after the other and loading the
    transcript of that session gives [old] followed by exactly one
    entry per segment, in the order appended: the [dict] whose
    "speaker" is the speaker of the segment, whose "text" is its text,
    code point for code point, and whose "timestamp" is its timestamp,
    and nothing else; the in-memory log grows by the same entries. *)
Theorem transcript_log_round_trip :
  forall segments self d session old,
    SessionManager._current_session self = Some session ->
    SessionManager.id session ∈ SessionManager.dirs d ->
    forallb SessionManager.storable segments = true ->
    SessionManager.ends_lines
      (SessionManager.transcript_text (SessionManager.id session) d) = true ->
    SessionManager._load_transcript (SessionManager.id session) d
    = Py.Ok old ->
    SessionManager._load_transcript (SessionManager.id session)
      (snd (SessionManager.add_transcripts segments self d))
    = Py.Ok
        (old
           ++ map (fun '(speaker, text, timestamp, _) =>
                     Json.Obj
                       [(Py.of_string "speaker", Json.Str speaker);
                        (Py.of_string "text", Json.Str text);
                        (Py.of_string "timestamp", Json.Num timestamp)])
                segments)
    /\ SessionManager._transcript_log
         (fst (SessionManager.add_transcripts segments self d))
       = SessionManager._transcript_log self
         ++ map (fun '(speaker, text, timestamp, _) =>
                   Json.Obj
                     [(Py.of_string "speaker", Json.Str speaker);
                      (Py.of_string "text", Json.Str text);
                      (Py.of_string "timestamp", Json.Num timestamp)])
              segments.
Proof.
  intros segments self d session old Hcur Hdir Hok Hends Hload.
  destruct (add_transcripts_load segments self d session old Hcur Hdir Hok
              Hends Hload) as [Hfile Hlog].
  assert (Hentries :
            map SessionManager.entry_of segments
            = map (fun '(speaker, text, timestamp, _) =>
                     Json.Obj
                       [(Py.of_string "speaker", Json.Str speaker);
                        (Py.of_string "text", Json.Str text);
                        (Py.of_string "timestamp", Json.Num timestamp)])
                segments).
  { apply map_ext. intros [[[speaker text] timestamp] now]. reflexivity. }
  rewrite <- Hentries. split; [exact Hfile | exact Hlog].
Qed.


Lemma add_transcript_writes_only_with_session_witness :
  snd (SessionManager.add_transcript Doubles.you (Py.of_string "hello")
         (Py.of_string "1700000000.5") (Py.of_string "2026-01-01T12:00:01")
         SessionManager.init Doubles.disk) = Doubles.disk
  /\ exists r self' d',
       SessionManager.add_transcript Doubles.you (Py.of_string "hello")
         (Py.of_string "1700000000.5") (Py.of_string "2026-01-01T12:00:01")
         Doubles.manager Doubles.disk = (r, self', d')
       /\ SessionManager.transcript_text Doubles.session_id d'
          = Json.dumps
              (SessionManager.entry Doubles.you (Py.of_string "hello")
                 (Py.of_string "1700000000.5")) ++ [Json.newline].
Proof.
  split.
  - rewrite (proj1 (add_transcript_writes_only_with_session Doubles.you
                      (Py.of_string "hello") (Py.of_string "1700000000.5")
                      (Py.of_string "2026-01-01T12:00:01")
                      SessionManager.init Doubles.disk) eq_refl).
    reflexivity.
  - destruct (proj2 (add_transcript_writes_only_with_session Doubles.you
                       (Py.of_string "hello") (Py.of_string "1700000000.5")
                       (Py.of_string "2026-01-01T12:00:01")
                       Doubles.manager Doubles.disk) Doubles.session)
      as (r & self' & d' & Heq & _ & Htext & _).
    + vm_compute. reflexivity.
    + refine (bool_decide_unpack _ _). vm_compute. exact I.
    + reflexivity.
    + reflexivity.
    + reflexivity.
    + exists r, self', d'. split; [exact Heq|].
      etransitivity; [exact Htext | vm_compute; reflexivity].
Defined.

Lemma transcript_log_round_trip_witness :
  SessionManager._load_transcript Doubles.session_id
    (snd (SessionManager.add_transcripts Doubles.segments Doubles.manager
            Doubles.disk))
  = Py.Ok
      [Json.Obj
         [(Py.of_string "speaker", Json.Str (Py.of_string "you"));
          (Py.of_string "text",
           Json.Str [12371; 12435; 12395; 12385; 12399]%N);
          (Py.of_string "timestamp", Json.Num (Py.of_string "1700000000.5"))];
       Json.Obj
         [(Py.of_string "speaker", Json.Str (Py.of_string "target"));
          (Py.of_string "text", Json.Str [72; 105; 10; 34; 92; 34]%N);
          (Py.of_string "timestamp",
           Json.Num (Py.of_string "1700000002.25"))];
       Json.Obj
         [(Py.of_string "speaker", Json.Str (Py.of_string "you"));
          (Py.of_string "text", Json.Str (Py.of_string "  ok  "));
          (Py.of_string "timestamp",
           Json.Num (Py.of_string "1700000004.0"))]].
Proof.
  eapply proj1.
  apply (transcript_log_round_trip Doubles.segments Doubles.manager
           Doubles.disk Doubles.session []).
  - vm_compute. reflexivity.
  - refine (bool_decide_unpack _ _). vm_compute. exact I.
  - vm_compute. reflexivity.
  - vm_compute. reflexivity.
  - vm_compute. reflexivity.
Defined.


(** ** Exclusive access to the model ([Concurrent]) *)

Lemma exclusive_init n : Concurrent.exclusive (Concurrent.init n).
Proof.
  unfold Concurrent.exclusive, Concurrent.init. cbn. split; [|split].
  - intros i p Hp Hl. apply lookup_replicate in Hp as [-> _]. discriminate.
  - left. split; [reflexivity|]. intros i Hp.
    apply lookup_replicate in Hp as [[=] _].
  - lia.
Qed.

(** A thread that does not hold the lock is not in the model. *)
Lemma exclusive_other st i j p :
  Concurrent.exclusive st ->
  Concurrent.lock st = Some i -> j <> i ->
  Concurrent.pcs st !! j = Some p -> Concurrent.holds_lock p = false.
Proof.
  intros (Hmutex & _) Hlock Hne Hp.
  destruct (Concurrent.holds_lock p) eqn:E; [|reflexivity].
  specialize (Hmutex j p Hp E). congruence.
Qed.

Lemma step_exclusive i choice st st' :
  Concurrent.exclusive st ->
  Concurrent.step i choice st = Some st' ->
  Concurrent.exclusive st'.
Proof.
  intros Hex. pose proof Hex as (Hmutex & Hcount & Hhw).
  unfold Concurrent.step.
  destruct (Concurrent.pcs st !! i) as [p|] eqn:Hi; [|discriminate].
  pose proof (lookup_lt_Some _ _ _ Hi) as Hlt.
  assert (Hkeep : forall q,
            Concurrent.holds_lock p = false ->
            Concurrent.holds_lock q = false ->
            Concurrent.exclusive (Concurrent.move st i q)).
  { intros q Hp Hq. unfold Concurrent.exclusive, Concurrent.move. cbn.
    split; [|split; [|exact Hhw]].
    - intros j r Hj Hr. apply list_lookup_insert_Some in Hj
        as [(-> & <- & _)|(Hne & Hj)]; [congruence | eauto].
    - destruct Hcount as [(H0 & Hnone)|(H1 & k & Hk & Hkp)].
      + left. split; [exact H0|]. intros j Hj.
        apply list_lookup_insert_Some in Hj as [(-> & -> & _)|(_ & Hj)];
          [discriminate | exact (Hnone j Hj)].
      + right. split; [exact H1|]. exists k. split; [exact Hk|].
        rewrite list_lookup_insert_ne; [exact Hkp|].
        intros ->. rewrite Hi in Hkp. injection Hkp as ->. discriminate. }
  destruct p.
  - intros [= <-]. apply Hkeep; [reflexivity | now destruct choice].
  - intros [= <-]. apply Hkeep; [reflexivity | now destruct choice].
  - destruct (Concurrent.lock st) as [k|] eqn:Hlock; [discriminate|].
    intros [= <-]. unfold Concurrent.exclusive. cbn.
    assert (Hfree : forall j r, Concurrent.pcs st !! j = Some r ->
                                Concurrent.holds_lock r = false).
    { intros j r Hj. destruct (Concurrent.holds_lock r) eqn:E; [|reflexivity].
      specialize (Hmutex j r Hj E). congruence. }
    split; [|split; [|exact Hhw]].
    + intros j r Hj Hr. apply list_lookup_insert_Some in Hj
        as [(-> & _)|(_ & Hj)]; [reflexivity|].
      rewrite (Hfree j r Hj) in Hr. discriminate.
    + left. destruct Hcount as [(H0 & Hnone)|(_ & k & Hk & _)];
        [|congruence].
      split; [exact H0|]. intros j Hj.
      apply list_lookup_insert_Some in Hj as [(_ & [=] & _)|(_ & Hj)].
      exact (Hnone j Hj).
  - intros [= <-]. specialize (Hmutex i _ Hi eq_refl) as Hlock.
    assert (H0 : Concurrent.in_flight st = 0%nat).
    { destruct Hcount as [(H0 & _)|(_ & k & Hk & Hkp)]; [exact H0|].
      rewrite Hlock in Hk. injection Hk as <-. congruence. }
    unfold Concurrent.exclusive. cbn. rewrite H0.
    split; [|split; [|lia]].
    + intros j r Hj Hr. apply list_lookup_insert_Some in Hj
        as [(-> & _)|(_ & Hj)]; [exact Hlock | eauto].
    + right. split; [reflexivity|]. exists i. split; [exact Hlock|].
      now apply list_lookup_insert_eq.
  - intros [= <-]. specialize (Hmutex i _ Hi eq_refl) as Hlock.
    assert (H1 : Concurrent.in_flight st = 1%nat).
    { destruct Hcount as [(_ & Hnone)|(H1 & _)]; [|exact H1].
      now destruct (Hnone i). }
    unfold Concurrent.exclusive. cbn. rewrite H1.
    split; [|split; [|exact Hhw]].
    + intros j r Hj Hr. apply list_lookup_insert_Some in Hj
        as [(-> & _)|(_ & Hj)]; [exact Hlock | eauto].
    + left. split; [reflexivity|]. intros j Hj.
      apply list_lookup_insert_Some in Hj as [(_ & Heq & _)|(Hne & Hj)].
      * destruct choice; discriminate.
      * pose proof (exclusive_other st i j _ Hex Hlock (not_eq_sym Hne) Hj).
        discriminate.
  - specialize (Hmutex i _ Hi eq_refl) as Hlock.
    assert (H0 : Concurrent.in_flight st = 0%nat
                 /\ forall j, Concurrent.pcs st !! j
                              <> Some Concurrent.InInference).
    { destruct Hcount as [H0|(_ & k & Hk & Hkp)]; [exact H0|].
      rewrite Hlock in Hk. injection Hk as <-. congruence. }
    destruct H0 as [H0 Hnone].
    destruct choice; intros [= <-]; unfold Concurrent.exclusive; cbn;
      (split; [|split; [|exact Hhw]]).
    + intros j r Hj Hr. apply list_lookup_insert_Some in Hj
        as [(_ & <- & _)|(Hne & Hj)]; [discriminate|].
      pose proof (exclusive_other st i j _ Hex Hlock (not_eq_sym Hne) Hj).
      congruence.
    + left. split; [exact H0|]. intros j Hj.
      apply list_lookup_insert_Some in Hj as [(_ & [=] & _)|(_ & Hj)].
      exact (Hnone j Hj).
    + intros j r Hj Hr. apply list_lookup_insert_Some in Hj
        as [(-> & _)|(_ & Hj)]; [exact Hlock | eauto].
    + left. split; [exact H0|]. intros j Hj.
      apply list_lookup_insert_Some in Hj as [(_ & [=] & _)|(_ & Hj)].
      exact (Hnone j Hj).
  - intros [= <-]. specialize (Hmutex i _ Hi eq_refl) as Hlock.
    unfold Concurrent.exclusive. cbn.
    split; [|split; [|exact Hhw]].
    + intros j r Hj Hr. apply list_lookup_insert_Some in Hj
        as [(_ & <- & _)|(Hne & Hj)]; [discriminate|].
      pose proof (exclusive_other st i j _ Hex Hlock (not_eq_sym Hne) Hj).
      congruence.
    + left. destruct Hcount as [(H0 & Hnone)|(_ & k & Hk & Hkp)].
      * split; [exact H0|]. intros j Hj.
        apply list_lookup_insert_Some in Hj as [(_ & [=] & _)|(_ & Hj)].
        exact (Hnone j Hj).
      * rewrite Hlock in Hk. injection Hk as <-. congruence.
  - intros [= <-]. apply Hkeep; reflexivity.
  - discriminate.
Qed.

Lemma run_exclusive schedule : forall st st',
  Concurrent.exclusive st ->
  Concurrent.run schedule st = Some st' ->
  Concurrent.exclusive st'.
Proof.
  induction schedule as [|[i choice] schedule IH]; intros st st' Hex; cbn.
  - now intros [= <-].
  - destruct (Concurrent.step i choice st) as [st1|] eqn:Hs; [|discriminate].
    apply IH. exact (step_exclusive _ _ _ _ Hex Hs).
Qed.

(** C9: however many calls of [transcribe_chunk] run side by side and
    however their steps interleave, at most one call of the model is in
    progress at any time: the count of calls in progress and its
    high-water mark never exceed 1, and a thread that is in the model
    holds the lock. *)
Theorem at_most_one_inference :
  forall n schedule st,
    Concurrent.run schedule (Concurrent.init n) = Some st ->
    (Concurrent.in_flight st <= 1)%nat
    /\ (Concurrent.high_water st <= 1)%nat
    /\ forall i j,
         Concurrent.pcs st !! i = Some Concurrent.InInference ->
         Concurrent.pcs st !! j = Some Concurrent.InInference ->
         i = j.
Proof.
  intros n schedule st Hrun.
  destruct (run_exclusive _ _ _ (exclusive_init n) Hrun)
    as (Hmutex & Hcount & Hhw).
  split; [|split; [exact Hhw|]].
  - destruct Hcount as [(-> & _)|(-> & _)]; lia.
  - intros i j Hi Hj.
    pose proof (Hmutex i _ Hi eq_refl) as H1.
    pose proof (Hmutex j _ Hj eq_refl) as H2. congruence.
Qed.

Lemma at_most_one_inference_witness :
  exists st,
    Concurrent.run Doubles.two_calls (Concurrent.init 2) = Some st
    /\ Concurrent.pcs st = [Concurrent.Returned; Concurrent.Returned]
    /\ (Concurrent.in_flight st <= 1)%nat
    /\ (Concurrent.high_water st <= 1)%nat.
Proof.
  eexists. split; [vm_compute; reflexivity|].
  split; [reflexivity|].
  destruct (at_most_one_inference 2 Doubles.two_calls _ eq_refl)
    as (Hin & Hhw & _).
  split; [exact Hin | exact Hhw].
Defined.


(** ** Sample evaluations *)

Example dumps_matches_cpython :
  Json.dumps (SessionManager.entry Doubles.target [72; 105; 10; 34; 92; 34]%N
                (Py.of_string "1700000002.25"))
  = [
    123; 34; 115; 112; 101; 97; 107; 101; 114; 34; 58; 32; 34; 116;
     97; 114; 103; 101; 116; 34; 44; 32; 34; 116; 101; 120; 116; 34;
     58; 32; 34; 72; 105; 92; 110; 92; 34; 92; 92; 92; 34; 34; 44; 32;
     34; 116; 105; 109; 101; 115; 116; 97; 109; 112; 34; 58; 32; 49;
     55; 48; 48; 48; 48; 48; 48; 48; 50; 46; 50; 53; 125]%N.
Proof. vm_compute. reflexivity. Qed.

Example strip_matches_cpython :
  Py.strip ([32; 12288; 111; 107; 32; 10; 133]%N) = [111; 107]%N.
Proof. reflexivity. Qed.

Example new_length_at_device_rates :
  AudioCapture.new_length 16000 44100 4410 = Py.Ok 1600
  /\ AudioCapture.new_length 16000 48000 4800 = Py.Ok 1600
  /\ AudioCapture.new_length 16000 11025 1102 = Py.Ok 1599
  /\ AudioCapture.new_length 16000 44100 7 = Py.Ok 2.
Proof. vm_compute. repeat split. Qed.

Example chunk_samples_default :
  AudioCapture.chunk_samples 16000 2%float = Py.Ok 32000.
Proof. vm_compute. reflexivity. Qed.

Example resample_upsampling :
  AudioCapture.resample 3 2 [0; 10; 20]%float
  = Py.Ok [0; 0x1.aaaaaap+2; 0x1.aaaaaap+3; 20]%float.
Proof. vm_compute. reflexivity. Qed.

(* ================================================================= *)
(** * Further properties of the code *)

(** ** The speech gate at its edges *)

Section GateEdges.

Context {S : Type}.
Variable score : S -> list float -> Z -> Py.result float * S.

Import VoiceActivityDetector.

Lemma load_model_keeps hub (self : t S) :
  threshold S (_load_model S hub self) = threshold S self
  /\ sample_rate S (_load_model S hub self) = sample_rate S self.
Proof.
  unfold _load_model. destruct (_model S self); [auto|]. destruct hub; auto.
Qed.

Lemma window_starts_short (audio : list float) :
  (length audio <= 512)%nat -> window_starts audio = [].
Proof.
  intros H. unfold window_starts, Py.range, window_size.
  destruct (Z.of_nat (length audio) - 512 <=? 0) eqn:E; [reflexivity|].
  apply Z.leb_gt in E. lia.
Qed.

(** The early [return True] is taken on a window whose confidence
    exceeds the threshold. *)
Lemma scan_true thr sr tensor idxs : forall m m',
  scan S score thr sr tensor m idxs = (Py.Ok true, m') ->
  exists i m0 c,
    In i idxs
    /\ score m0 (Py.slice tensor i (i + window_size)) sr = (Py.Ok c, m')
    /\ PrimFloat.ltb thr c = true.
Proof.
  induction idxs as [|i idxs IH]; intros m m'; simpl; [discriminate|].
  destruct (score m _ sr) as [[c|e0] m1] eqn:E; [|discriminate].
  destruct (PrimFloat.ltb thr c) eqn:Elt.
  - intros [= <-]. exists i, m, c. auto.
  - intros H. destruct (IH _ _ H) as (j & m0 & c0 & Hj & Hs & Hc).
    exists j, m0, c0. auto.
Qed.

(** [contains_speech] changes neither threshold nor sample rate. *)
Lemma contains_speech_keeps hub (self : t S) audio :
  threshold S (snd (contains_speech S score hub self audio))
  = threshold S self
  /\ sample_rate S (snd (contains_speech S score hub self audio))
     = sample_rate S self.
Proof.
  destruct (load_model_keeps hub self) as [Ht Hs].
  unfold contains_speech.
  destruct (_model S (_load_model S hub self)) as [m|]; [|simpl; auto].
  destruct (scan _ _ _ _ _ _ _) as [[b|e] m']; simpl; auto.
Qed.

End GateEdges.

(** X1: with a voice-activity model at hand, a chunk of at most 512
    samples is never reported as speech: the loop over the windows has
    no round, so [contains_speech] answers [False] whatever the samples
    are and whatever the model would say, and the model is not called
    (the detector is left as loading left it). *)
Theorem short_audio_is_never_speech :
  forall (S : Type) (score : S -> list float -> Z -> Py.result float * S)
         (hub : Py.result S) (self : VoiceActivityDetector.t S)
         (audio : list float) (m : S),
    VoiceActivityDetector._model S
      (VoiceActivityDetector._load_model S hub self) = Some m ->
    (length audio <= 512)%nat ->
    VoiceActivityDetector.contains_speech S score hub self audio
    = (false, VoiceActivityDetector._load_model S hub self).
Proof.
  intros S score hub self audio m Hm Hlen.
  unfold VoiceActivityDetector.contains_speech.
  destruct (VoiceActivityDetector._load_model S hub self) as [thr sr mo].
  simpl in Hm. subst mo. cbn [VoiceActivityDetector._model].
  rewrite (window_starts_short audio Hlen). reflexivity.
Qed.

Lemma short_audio_is_never_speech_witness :
  VoiceActivityDetector.contains_speech unit Doubles.energy_score (Py.Ok tt)
    (Doubles.gate None) Doubles.one_window
  = (false, Doubles.gate (Some tt)).
Proof.
  apply (short_audio_is_never_speech unit Doubles.energy_score (Py.Ok tt)
           (Doubles.gate None) Doubles.one_window tt).
  - reflexivity.
  - vm_compute. repeat constructor.
Defined.

(** X2: with a voice-activity model at hand, [contains_speech] answers
    [True] only because of a window it scored: there is a window start
    [512 * k] with more than 512 samples from it to the end of the chunk
    on which the model either raised or gave a confidence above the
    threshold. *)
Theorem speech_needs_a_scored_window :
  forall (S : Type) (score : S -> list float -> Z -> Py.result float * S)
         (hub : Py.result S) (self : VoiceActivityDetector.t S)
         (audio : list float) (m : S),
    VoiceActivityDetector._model S
      (VoiceActivityDetector._load_model S hub self) = Some m ->
    fst (VoiceActivityDetector.contains_speech S score hub self audio)
    = true ->
    exists k m0 r m1,
      0 <= k
      /\ 512 * k + 512 < Z.of_nat (length audio)
      /\ score m0 (Py.slice audio (512 * k) (512 * k + 512))
           (VoiceActivityDetector.sample_rate S self) = (r, m1)
      /\ match r with
         | Py.Ok confidence =>
             PrimFloat.ltb (VoiceActivityDetector.threshold S self)
               confidence = true
         | Py.Raise _ => True
         end.
Proof.
  intros S score hub self audio m Hm.
  rewrite (contains_speech_loaded score hub self audio m Hm).
  destruct (VoiceActivityDetector.scan S score _ _ audio m _)
    as [[b|e] m'] eqn:Es; cbn [fst].
  - intros ->. apply scan_true in Es as (i & m0 & c & Hi & Hs & Hc).
    apply window_starts_spec in Hi as (k & Hk & -> & Hlt).
    exists k, m0, (Py.Ok c), m'. auto.
  - intros _. apply scan_raise in Es as (i & m0 & Hi & Hs).
    apply window_starts_spec in Hi as (k & Hk & -> & Hlt).
    exists k, m0, (Py.Raise e), m'. auto.
Qed.

Lemma speech_needs_a_scored_window_witness :
  exists k m0 r m1,
    0 <= k
    /\ 512 * k + 512 < Z.of_nat (length (Doubles.one_window ++ [1%float]))
    /\ Doubles.energy_score m0
         (Py.slice (Doubles.one_window ++ [1%float]) (512 * k) (512 * k + 512))
         16000 = (r, m1)
    /\ match r with
       | Py.Ok confidence => PrimFloat.ltb 0.5 confidence = true
       | Py.Raise _ => True
       end.
Proof.
  apply (speech_needs_a_scored_window unit Doubles.energy_score (Py.Ok tt)
           (Doubles.gate None) (Doubles.one_window ++ [1%float]) tt).
  - reflexivity.
  - vm_compute. reflexivity.
Defined.

(** ** Trimmed text *)






(** ** The transcription engine at its edges *)

Section EngineEdges.

Import AudioCapture TranscriptionEngine.

Context {W M S : Type}.
Variable WhisperModel : W -> Py.str -> Py.str -> Py.str -> Py.result M * W.
Variable model_transcribe :
  W -> M -> list float -> Py.str -> Py.result (list Py.str) * W.
Variable score : S -> list float -> Z -> Py.result float * S.
Variable lower_table : Py.str -> nat -> Py.str.

Abbreviation engine := (TranscriptionEngine.t W M S).
Abbreviation fallback := (_fallback_to_cpu W M WhisperModel S).
Abbreviation load := (load_model W M WhisperModel S).
Abbreviation region := (locked_region W M model_transcribe S).
Abbreviation transcribe :=
  (transcribe_chunk W M WhisperModel model_transcribe S score lower_table).
Abbreviation on_cpu := (TranscriptionEngine.on_cpu W M S).
Abbreviation same_settings := (TranscriptionEngine.same_settings W M S).
Abbreviation path :=
  (TranscriptionEngine.path W M WhisperModel model_transcribe S score
     lower_table).

Lemma same_settings_trans (a b c : engine) :
  same_settings a b -> same_settings b c -> same_settings a c.
Proof.
  unfold TranscriptionEngine.same_settings.
  intros (H1 & H2 & H3 & H4) (G1 & G2 & G3 & G4).
  repeat split; congruence.
Qed.

Lemma same_settings_set_vad (self : engine) v :
  same_settings self (set_vad W M S self v).
Proof. unfold TranscriptionEngine.same_settings. simpl. auto. Qed.

(** A call leaves the settings of the engine alone. *)
Lemma transcribe_chunk_settings hub chunk (self : engine) w r self' w' evs :
  transcribe hub chunk self w = (r, self', w', evs) ->
  same_settings self self'.
Proof.
  intros Ht.
  destruct (transcribe_chunk_path WhisperModel model_transcribe score
              lower_table hub chunk self w)
    as [vad' Hv Ht' | vad' self1 w1 evs1 Hl Hm Ht'
       | vad' self1 w1 evs1 m v w2 out Hl Hm Hr Ht'
       | vad' self1 w1 evs1 m msg w2 out Hl Hm Hr Hf Ht'
       | vad' self1 w1 evs1 m msg w2 out self2 w3 ok Hl Hm Hr Hf Hfb Ht'];
    rewrite Ht in Ht'; injection Ht' as -> -> -> ->;
    try (destruct (load_model_spec WhisperModel model_transcribe lower_table
                         (set_vad W M S self vad') w)
           as (s1' & w1' & e1' & Hl' & _ & Hs1 & _);
         rewrite Hl in Hl'; injection Hl' as <- <- <-).
  - apply same_settings_set_vad.
  - eapply same_settings_trans; [apply same_settings_set_vad|exact Hs1].
  - eapply same_settings_trans; [apply same_settings_set_vad|exact Hs1].
  - eapply same_settings_trans; [apply same_settings_set_vad|exact Hs1].
  - destruct (fallback_spec WhisperModel self1 w2)
      as (s2 & w3' & ok' & Hfb' & _ & Hs2 & _).
    rewrite Hfb in Hfb'. injection Hfb' as <- <- <-.
    eapply same_settings_trans; [apply same_settings_set_vad|].
    eapply same_settings_trans; [exact Hs1|exact Hs2].
Qed.

(** X3: no exception leaves [transcribe_chunk], whatever the chunk,
    the state of the engine, the voice-activity model and the
    speech-to-text library do; and a call changes neither the model
    name, the language, the sample rate nor the registered callback. *)
Theorem transcribe_chunk_never_raises :
  forall hub chunk (self : TranscriptionEngine.t W M S) w,
    exists v self' w' evs,
      transcribe_chunk W M WhisperModel model_transcribe S score lower_table
        hub chunk self w = (Py.Ok v, self', w', evs)
      /\ TranscriptionEngine.same_settings W M S self self'.
Proof.
  intros hub chunk self w.
  destruct (transcribe_chunk_returns WhisperModel model_transcribe score
              lower_table hub chunk self w) as (v & self' & w' & evs & H).
  exists v, self', w', evs. split; [exact H|].
  eapply transcribe_chunk_settings. exact H.
Qed.


(** X5: the [except] branch of [transcribe_chunk] also catches what the
    registered callback raises.  When the model has produced text and
    the callback raises, the call returns [None]: the segment is lost.
    If the message of that exception does not mention "cuda" or
    "cublas" nothing else happens; if it does, the engine switches to
    the CPU backend although the model did not fail. *)
Theorem raising_callback_loses_segment :
  forall hub chunk (self : TranscriptionEngine.t W M S) w vad' m segments
         w1 full dur cb msg w2,
    VoiceActivityDetector.contains_speech S score hub (_vad W M S self)
      (data chunk) = (true, vad') ->
    _model W M S self = Some m ->
    model_transcribe w (handle M m) (data chunk) (language W M S self)
    = (Py.Ok segments, w1) ->
    full_text segments = Some full ->
    TranscriptionEngine.chunk_duration (Z.of_nat (length (data chunk)))
      (TranscriptionEngine.sample_rate W M S self) = Py.Ok dur ->
    _on_transcript W M S self = Some cb ->
    cb (mkSegment (source chunk) full (timestamp chunk) dur) w1
    = (Py.Raise msg, w2) ->
    exists self' w' evs,
      transcribe_chunk W M WhisperModel model_transcribe S score lower_table
        hub chunk self w = (Py.Ok None, self', w', evs)
      /\ (is_backend_fault lower_table msg = false ->
          self' = set_vad W M S self vad' /\ w' = w2
          /\ evs = [EvTranscribe (built_device M m) (Py.Ok segments)])
      /\ (is_backend_fault lower_table msg = true ->
          TranscriptionEngine.on_cpu W M S self'
          /\ exists ok,
               evs = [EvTranscribe (built_device M m) (Py.Ok segments);
                      EvConstruct cpu int8 ok]).
Proof.
  intros hub chunk self w vad' m segments w1 full dur cb msg w2
    Hv Hm Ht Hf Hd Hcb Hcall.
  unfold transcribe_chunk. rewrite Hv. cbn [negb].
  unfold load_model. cbn [_model set_vad]. rewrite Hm.
  cbn [_model set_vad]. rewrite Hm.
  unfold locked_region. cbn [language sample_rate _on_transcript set_vad].
  rewrite Ht, Hf, Hd, Hcb, Hcall.
  destruct (is_backend_fault lower_table msg) eqn:Efault.
  - destruct (fallback_spec WhisperModel (set_vad W M S self vad') w2)
      as (self2 & w3 & ok & Hfb & Hc & _).
    rewrite Hfb. eexists _, _, _. split; [reflexivity|].
    split; [discriminate|]. intros _. split; [exact Hc|].
    exists ok. reflexivity.
  - eexists _, _, _. split; [reflexivity|].
    split; [|discriminate]. auto.
Qed.

(** X6: while the speech-to-text library cannot build any model, every
    call of [transcribe_chunk] returns [None], leaves the engine without
    a model, and only ever tries to build one: nothing is transcribed,
    and the next call tries again. *)
Theorem unbuildable_model_yields_nothing :
  (forall w name device compute_type,
     exists e w',
       WhisperModel w name device compute_type = (Py.Raise e, w')) ->
  forall hub chunk (self : TranscriptionEngine.t W M S) w,
    _model W M S self = None ->
    exists self' w' evs,
      transcribe_chunk W M WhisperModel model_transcribe S score lower_table
        hub chunk self w = (Py.Ok None, self', w', evs)
      /\ _model W M S self' = None
      /\ Forall is_construct evs
      /\ (fst (VoiceActivityDetector.contains_speech S score hub
                 (_vad W M S self) (data chunk)) = true ->
          evs <> []).
Proof.
  intros Hfail hub chunk self w Hm.
  unfold transcribe_chunk.
  destruct (VoiceActivityDetector.contains_speech S score hub _ _)
    as [speech vad'].
  destruct speech; cbn [negb fst].
  2: { eexists _, _, _. split; [reflexivity|].
       split; [exact Hm|]. split; [constructor|discriminate]. }
  unfold load_model. cbn [_model set_vad model_name device compute_type].
  rewrite Hm.
  destruct (Hfail w (model_name W M S self) (device W M S self)
              (compute_type W M S self)) as (e & w1 & ->).
  destruct (Py.str_eqb (device W M S self) cuda).
  - unfold _fallback_to_cpu.
    cbn [model_name set_device_model set_vad].
    destruct (Hfail w1 (model_name W M S self) cpu int8) as (e2 & w2 & ->).
    cbn [_model set_device_model].
    eexists _, _, _. split; [reflexivity|]. split; [reflexivity|].
    split; [repeat constructor|discriminate].
  - cbn [_model set_vad]. rewrite Hm.
    eexists _, _, _. split; [reflexivity|]. split; [exact Hm|].
    split; [repeat constructor|discriminate].
Qed.

(** X7: a chunk that arrives while the engine is configured for CUDA
    and CUDA is not usable is not lost: when building the model for
    "cuda" fails and building it for "cpu" succeeds, the same call goes
    on to transcribe the chunk with the CPU model, and the engine ends
    on the CPU backend. *)
Theorem failed_cuda_load_transcribes_on_cpu :
  forall hub chunk (self : TranscriptionEngine.t W M S) w vad' e w1 m w2,
    VoiceActivityDetector.contains_speech S score hub (_vad W M S self)
      (data chunk) = (true, vad') ->
    _model W M S self = None ->
    device W M S self = cuda ->
    WhisperModel w (model_name W M S self) cuda (compute_type W M S self)
    = (Py.Raise e, w1) ->
    WhisperModel w1 (model_name W M S self) cpu int8 = (Py.Ok m, w2) ->
    exists r self' w' rest,
      transcribe_chunk W M WhisperModel model_transcribe S score lower_table
        hub chunk self w
      = (r, self', w',
         [EvConstruct cuda (compute_type W M S self) false;
          EvConstruct cpu int8 true;
          EvTranscribe cpu
            (fst (model_transcribe w2 m (data chunk) (language W M S self)))]
           ++ rest)
      /\ TranscriptionEngine.on_cpu W M S self'.
Proof.
  intros hub chunk self w vad' e w1 m w2 Hv Hm Hd Hc1 Hc2.
  set (self1 := set_device_model W M S
                  (set_device_model W M S (set_vad W M S self vad')
                     cpu int8 None)
                  cpu int8 (Some (mkLoaded M m cpu int8))).
  assert (Hload : load_model W M WhisperModel S (set_vad W M S self vad') w
                  = (self1, w2,
                     [EvConstruct cuda (compute_type W M S self) false;
                      EvConstruct cpu int8 true])).
  { unfold load_model. cbn [_model set_vad model_name device compute_type].
    rewrite Hm, Hd, Hc1.
    change (Py.str_eqb cuda cuda) with true. cbv iota.
    unfold _fallback_to_cpu. cbn [model_name set_device_model set_vad].
    rewrite Hc2. reflexivity. }
  assert (Hcpu : TranscriptionEngine.on_cpu W M S self1).
  { unfold TranscriptionEngine.on_cpu. subst self1. simpl.
    split; [reflexivity|]. split; [reflexivity|].
    intros m0 [= <-]. reflexivity. }
  unfold transcribe_chunk. rewrite Hv. cbn [negb]. rewrite Hload.
  change (_model W M S self1) with (Some (mkLoaded M m cpu int8)).
  cbv iota.
  destruct (locked_region_spec model_transcribe self1
              (mkLoaded M m cpu int8) chunk w2)
    as (r & w3 & out & Hr & Hout & _).
  cbn [handle built_device] in Hr, Hout.
  assert (Hlang : language W M S self1 = language W M S self)
    by reflexivity.
  rewrite Hlang in Hout. rewrite Hr, Hout.
  destruct r as [v|msg].
  - exists (Py.Ok v), self1, w3, []. split; [reflexivity|exact Hcpu].
  - destruct (is_backend_fault lower_table msg).
    + destruct (fallback_spec WhisperModel self1 w3)
        as (self2 & w4 & ok & Hfb & Hc & _).
      rewrite Hfb. exists (Py.Ok None), self2, w4, [EvConstruct cpu int8 ok].
      split; [reflexivity|exact Hc].
    + exists (Py.Ok None), self1, w3, []. split; [reflexivity|exact Hcpu].
Qed.

End EngineEdges.


Lemma raising_callback_loses_segment_witness :
  exists self' w' evs,
    TranscriptionEngine.transcribe_chunk unit Py.str Doubles.WhisperModel
      Doubles.model_transcribe unit Doubles.energy_score Doubles.plain_table
      (Py.Raise (Py.of_string "no network")) Doubles.chunk
      (TranscriptionEngine.set_callback unit Py.str unit
         Doubles.loaded_engine Doubles.raising_callback) tt
    = (Py.Ok None, self', w', evs)
    /\ TranscriptionEngine.on_cpu unit Py.str unit self'
    /\ length evs = 2%nat.
Proof.
  edestruct (raising_callback_loses_segment Doubles.WhisperModel
               Doubles.model_transcribe Doubles.energy_score
               Doubles.plain_table
               (Py.Raise (Py.of_string "no network")) Doubles.chunk
               (TranscriptionEngine.set_callback unit Py.str unit
                  Doubles.loaded_engine Doubles.raising_callback) tt)
    as (self' & w' & evs & Hcall & _ & Hfault).
  - reflexivity.
  - reflexivity.
  - reflexivity.
  - reflexivity.
  - vm_compute. reflexivity.
  - reflexivity.
  - reflexivity.
  - exists self', w', evs. split; [exact Hcall|].
    destruct Hfault as (Hcpu & ok & ->); [vm_compute; reflexivity|].
    split; [exact Hcpu | reflexivity].
Defined.

Lemma unbuildable_model_yields_nothing_witness :
  exists self' w' evs,
    TranscriptionEngine.transcribe_chunk unit Py.str Doubles.no_backend
      Doubles.model_transcribe unit Doubles.energy_score Doubles.plain_table
      (Py.Raise (Py.of_string "no network")) Doubles.chunk
      (Doubles.engine TranscriptionEngine.cuda (Py.of_string "float16")) tt
    = (Py.Ok None, self', w', evs)
    /\ TranscriptionEngine._model unit Py.str unit self' = None.
Proof.
  destruct (unbuildable_model_yields_nothing Doubles.no_backend
              Doubles.model_transcribe Doubles.energy_score
              Doubles.plain_table
              (fun w name device compute_type =>
                 ex_intro _ _ (ex_intro _ tt eq_refl))
              (Py.Raise (Py.of_string "no network")) Doubles.chunk
              (Doubles.engine TranscriptionEngine.cuda
                 (Py.of_string "float16")) tt eq_refl)
    as (self' & w' & evs & Hcall & Hm & _).
  exists self', w', evs. split; [exact Hcall | exact Hm].
Defined.

Lemma failed_cuda_load_transcribes_on_cpu_witness :
  exists r self' w' evs,
    TranscriptionEngine.transcribe_chunk unit Py.str Doubles.cpu_only
      Doubles.model_transcribe unit Doubles.energy_score Doubles.plain_table
      (Py.Raise (Py.of_string "no network")) Doubles.chunk
      (Doubles.engine TranscriptionEngine.cuda (Py.of_string "float16")) tt
    = (r, self', w', evs)
    /\ TranscriptionEngine.on_cpu unit Py.str unit self'
    /\ In (TranscriptionEngine.EvTranscribe TranscriptionEngine.cpu
             (Py.Ok [Py.of_string "Hello"; Py.of_string "";
                     Py.of_string "world"])) evs.
Proof.
  edestruct (failed_cuda_load_transcribes_on_cpu Doubles.cpu_only
               Doubles.model_transcribe Doubles.energy_score
               Doubles.plain_table
               (Py.Raise (Py.of_string "no network")) Doubles.chunk
               (Doubles.engine TranscriptionEngine.cuda
                  (Py.of_string "float16")) tt)
    as (r & self' & w' & rest & Hcall & Hcpu).
  - reflexivity.
  - reflexivity.
  - reflexivity.
  - reflexivity.
  - reflexivity.
  - eexists r, self', w', _. split; [exact Hcall|]. split; [exact Hcpu|].
    right. right. left. reflexivity.
Defined.

(** ** Capture at its edges *)

Section CaptureEdges.

Import AudioCapture.

Variable time_at : nat -> float.

(** A round of a capture thread only appends to the queue, and does
    the same whatever the queue holds. *)
Lemma emit_chunks_queue source target : forall fuel buffer self,
  match emit_chunks time_at fuel source target buffer self with
  | Some (buffer', self') =>
      exists new,
        audio_queue self' = audio_queue self ++ new
        /\ forall queue,
             emit_chunks time_at fuel source target buffer
               (with_queue self queue)
             = Some (buffer', with_queue self' (queue ++ new))
  | None =>
      forall queue,
        emit_chunks time_at fuel source target buffer (with_queue self queue)
        = None
  end.
Proof.
  induction fuel as [|fuel IH]; intros buffer self; cbn [emit_chunks];
    destruct (Z.of_nat (length buffer) <? target).
  - exists []. rewrite app_nil_r. split; [reflexivity|].
    intros queue. now rewrite app_nil_r.
  - reflexivity.
  - exists []. rewrite app_nil_r. split; [reflexivity|].
    intros queue. now rewrite app_nil_r.
  - specialize (IH (Py.slice_from buffer target)
                  (put time_at self source (Py.slice_to buffer target))).
    destruct (emit_chunks time_at fuel source target _ _)
      as [[buffer' self']|].
    + destruct IH as (new & Hq & Hall).
      exists (mkChunk source (Py.slice_to buffer target)
                (time_at (ticks self)) :: new).
      split.
      * rewrite Hq. cbn [put audio_queue]. now rewrite <- app_assoc.
      * intros queue.
        specialize (Hall (queue ++ [mkChunk source (Py.slice_to buffer target)
                                      (time_at (ticks self))])).
        rewrite <- app_assoc in Hall. exact Hall.
    + intros queue.
      exact (IH (queue ++ [mkChunk source (Py.slice_to buffer target)
                             (time_at (ticks self))])).
Qed.

Lemma step_queue a bufs self :
  match step time_at a bufs self with
  | Some (bufs', self') =>
      exists new,
        audio_queue self' = audio_queue self ++ new
        /\ forall queue,
             step time_at a bufs (with_queue self queue)
             = Some (bufs', with_queue self' (queue ++ new))
  | None =>
      forall queue, step time_at a bufs (with_queue self queue) = None
  end.
Proof.
  destruct a as [source native_rate channels raw | source];
    cbn [step with_queue sample_rate chunk_duration].
  - destruct (chunk_samples (sample_rate self) (chunk_duration self))
      as [target|e].
    2: { exists []. rewrite app_nil_r. split; [reflexivity|].
         intros queue. now rewrite app_nil_r. }
    unfold read_once. cbn [sample_rate with_queue].
    destruct (Py.bind raw _) as [audio|e].
    2: { exists []. rewrite app_nil_r. split; [reflexivity|].
         intros queue. now rewrite app_nil_r. }
    pose proof (emit_chunks_queue source target
                  (Datatypes.S (length (bufs source ++ audio)))
                  (bufs source ++ audio) self) as H.
    destruct (emit_chunks time_at _ source target _ self)
      as [[buffer' self']|].
    + destruct H as (new & Hq & Hall). exists new. split; [exact Hq|].
      intros queue. now rewrite Hall.
    + intros queue. now rewrite H.
  - unfold dummy_once. cbn [chunk_size with_queue].
    destruct (chunk_size self <? 0).
    + exists []. rewrite app_nil_r. split; [reflexivity|].
      intros queue. now rewrite app_nil_r.
    + eexists. split; [reflexivity|]. intros queue. reflexivity.
Qed.

Lemma with_queue_same self : with_queue self (audio_queue self) = self.
Proof. now destruct self. Qed.

Lemma with_queue_twice self q1 q2 :
  with_queue (with_queue self q1) q2 = with_queue self q2.
Proof. reflexivity. Qed.

(** The consumer sees the queue the capture threads fill, from its
    front: what it has taken so far, what it takes from here on and
    what is left make up the queue of the run without a consumer. *)
Lemma serve_run turns : forall bufs self taken seen bufs1 self1,
  taken ++ audio_queue seen = audio_queue self ->
  seen = with_queue self (audio_queue seen) ->
  run time_at (captures turns) bufs self = Some (bufs1, self1) ->
  exists chunks seen',
    serve time_at turns bufs seen = Some (chunks, bufs1, seen')
    /\ taken ++ chunks ++ audio_queue seen' = audio_queue self1
    /\ seen' = with_queue self1 (audio_queue seen').
Proof.
  induction turns as [|[a|] turns IH];
    intros bufs self taken seen bufs1 self1 Hq Hseen Hrun.
  - cbn in Hrun. injection Hrun as <- <-.
    exists [], seen. cbn [serve app]. auto.
  - cbn [captures flat_map app] in Hrun. cbn [run] in Hrun.
    pose proof (step_queue a bufs self) as Hstep.
    destruct (step time_at a bufs self) as [[bufs' self']|];
      [|discriminate].
    destruct Hstep as (new & Hnew & Hall).
    cbn [serve]. rewrite Hseen, Hall.
    apply (IH bufs' self' taken
             (with_queue self' (audio_queue seen ++ new)) bufs1 self1).
    + cbn [with_queue audio_queue]. rewrite Hnew, <- Hq.
      now rewrite <- app_assoc.
    + reflexivity.
    + exact Hrun.
  - cbn [captures flat_map app] in Hrun. cbn [serve]. unfold get_chunk.
    destruct (audio_queue seen) as [|chunk rest] eqn:Eq.
    + destruct (IH bufs self taken seen bufs1 self1)
        as (chunks & seen' & Hs & Hq' & Hseen').
      * now rewrite Eq.
      * now rewrite Eq.
      * exact Hrun.
      * rewrite Hs. exists chunks, seen'. auto.
    + destruct (IH bufs self (taken ++ [chunk]) (with_queue seen rest)
                  bufs1 self1)
        as (chunks & seen' & Hs & Hq' & Hseen').
      * cbn [with_queue audio_queue]. rewrite <- Hq, <- app_assoc.
        reflexivity.
      * rewrite Hseen. reflexivity.
      * exact Hrun.
      * rewrite Hs. exists (chunk :: chunks), seen'.
        split; [reflexivity|]. split; [|exact Hseen'].
        rewrite <- Hq'. rewrite <- app_assoc. reflexivity.
Qed.

End CaptureEdges.

(** X8: a capture object whose chunk length
    [int(sample_rate * chunk_duration)] is zero or negative never gets
    past its first successful read: the loop
    [while len(buffer) >= target_chunk_samples] of [_read_stream] does
    not end, whatever the buffer holds and however long it runs. *)
Theorem nonpositive_chunk_length_never_returns :
  forall (time_at : nat -> float) sr cd self0,
    AudioCapture.init sr cd = Py.Ok self0 ->
    AudioCapture.chunk_size self0 <= 0 ->
    (forall fuel source buffer self,
       AudioCapture.emit_chunks time_at fuel source
         (AudioCapture.chunk_size self0) buffer self = None)
    /\ (forall source native_rate channels raw audio reads,
          AudioCapture.prepare sr native_rate channels raw = Py.Ok audio ->
          AudioCapture._read_stream time_at source native_rate channels
            (Py.Ok raw :: reads) self0 = Py.Ok None).
Proof.
  intros time_at sr cd self0 Hinit Hsize.
  destruct (init_spec sr cd self0 Hinit) as (Hsr & Hcd & Hcs & _).
  split.
  - intros fuel source buffer self.
    now apply emit_chunks_diverges.
  - intros source native_rate channels raw audio reads Hprep.
    unfold AudioCapture._read_stream. rewrite Hsr, Hcd, Hcs.
    cbn [Py.bind AudioCapture.read_rounds].
    unfold AudioCapture.read_once. rewrite Hsr. cbn [Py.bind].
    rewrite Hprep.
    now rewrite (emit_chunks_diverges time_at source _ Hsize).
Qed.

Lemma nonpositive_chunk_length_never_returns_witness :
  AudioCapture._read_stream Doubles.clock Doubles.you 16000 1
    [Py.Ok [1%float]] (AudioCapture.mk 16000 0%float 0 [] 0) = Py.Ok None.
Proof.
  eapply (proj2 (nonpositive_chunk_length_never_returns Doubles.clock
                   16000 0%float (AudioCapture.mk 16000 0%float 0 [] 0)
                   eq_refl ltac:(vm_compute; discriminate))).
  reflexivity.
Defined.



(** X10: [get_chunk] hands out the queue from its front, and taking
    chunks out does not disturb the capture threads.  For every order
    of capture rounds and calls of [get_chunk], if the capture rounds
    alone run through, so does the whole, the threads' buffers end up
    the same, and the chunks handed out, in the order of the calls,
    followed by the chunks still queued are exactly the queue the
    capture rounds alone would have left: every chunk is delivered at
    most once, none is skipped, and the order is kept. *)
Theorem consumer_takes_queue_in_order :
  forall (time_at : nat -> float) turns bufs self bufs1 self1,
    AudioCapture.run time_at (AudioCapture.captures turns) bufs self
    = Some (bufs1, self1) ->
    exists chunks self',
      AudioCapture.serve time_at turns bufs self = Some (chunks, bufs1, self')
      /\ chunks ++ AudioCapture.audio_queue self'
         = AudioCapture.audio_queue self1
      /\ AudioCapture.same_config self1 self'
      /\ AudioCapture.ticks self' = AudioCapture.ticks self1.
Proof.
  intros time_at turns bufs self bufs1 self1 Hrun.
  destruct (serve_run time_at turns bufs self [] self bufs1 self1)
    as (chunks & seen' & Hs & Hq & Hseen).
  - reflexivity.
  - symmetry. apply with_queue_same.
  - exact Hrun.
  - exists chunks, seen'. split; [exact Hs|]. split; [exact Hq|].
    rewrite Hseen. unfold AudioCapture.same_config. cbn. auto.
Qed.

Lemma consumer_takes_queue_in_order_witness :
  exists chunks self',
    AudioCapture.serve Doubles.clock Doubles.served_rounds (fun _ => [])
      Doubles.small_capture = Some (chunks, Doubles.served_buffers, self')
    /\ chunks ++ AudioCapture.audio_queue self'
       = AudioCapture.audio_queue Doubles.served_capture
    /\ length chunks = 2%nat.
Proof.
  destruct (consumer_takes_queue_in_order Doubles.clock Doubles.served_rounds
              (fun _ => []) Doubles.small_capture Doubles.served_buffers
              Doubles.served_capture)
    as (chunks & self' & Hs & Hq & _).
  - reflexivity.
  - exists chunks, self'. split; [exact Hs|]. split; [exact Hq|].
    pose proof Hs as Hs'. vm_compute in Hs'.
    injection Hs' as Hc _. rewrite <- Hc. reflexivity.
Defined.

(** ** Metadata files *)

Lemma skip_ws_encoded k rest :
  Json.skip_ws (Json.encode_string k ++ rest) = Json.encode_string k ++ rest.
Proof. reflexivity. Qed.

Lemma member_chunks_head k v rest :
  exists body,
    concat (SessionManager.member_chunks ((k, v) :: rest))
    = Json.encode_string k ++ Py.of_string ": "
        ++ Json.dumps (Json.Str v) ++ body
    /\ body = match rest with
              | [] => []
              | _ :: _ =>
                  44%N :: Json.newline :: 32%N :: 32%N
                    :: concat (SessionManager.member_chunks rest)
              end.
Proof.
  eexists. split; [|reflexivity].
  cbn [SessionManager.member_chunks concat app Json.dumps].
  destruct rest as [|kv rest]; cbn [concat app];
    rewrite ?app_nil_r, <- ?app_assoc; reflexivity.
Qed.

Lemma member_chunks_quote kv rest tail :
  exists r,
    concat (SessionManager.member_chunks (kv :: rest)) ++ tail
    = Json.quote :: r.
Proof.
  destruct kv as [k v].
  destruct (member_chunks_head k v rest) as (body & -> & _).
  unfold Json.encode_string. cbn [app]. eexists. reflexivity.
Qed.

Lemma skip_ws_member_chunks kv rest tail :
  Json.skip_ws (concat (SessionManager.member_chunks (kv :: rest)) ++ tail)
  = concat (SessionManager.member_chunks (kv :: rest)) ++ tail.
Proof.
  destruct (member_chunks_quote kv rest tail) as (r & ->). reflexivity.
Qed.

(** The decoder reads the members of an indented object back, one
    [dict] entry per member, in order. *)
Lemma scan_members_fields tail : forall fields acc fuel,
  fields <> [] ->
  (length fields < fuel)%nat ->
  Json.scan_members fuel
    (concat (SessionManager.member_chunks fields)
       ++ Json.newline :: 125%N :: tail) acc
  = Some (Json.Obj (SessionManager.dict_of fields acc), tail).
Proof.
  induction fields as [|[k v] rest IH]; [contradiction|].
  intros acc fuel _ Hfuel.
  destruct fuel as [|fuel]; [simpl in Hfuel; lia|].
  destruct (member_chunks_head k v rest) as (body & -> & ->).
  rewrite <- !app_assoc.
  rewrite scan_members_step.
  - destruct rest as [|[k2 v2] rest].
    + reflexivity.
    + cbn [app Json.skip_ws]. change (Json.is_ws 44) with false. cbv iota.
      change (44 =? 125)%N with false. change (44 =? 44)%N with true.
      cbv iota.
      change (Json.skip_ws (Json.newline :: 32%N :: 32%N :: ?x))
        with (Json.skip_ws x).
      rewrite skip_ws_member_chunks.
      unfold SessionManager.dict_of. cbn [fold_left fst snd].
      apply IH; [discriminate|]. simpl in Hfuel |- *. lia.
  - destruct fuel as [|fuel]; [simpl in Hfuel; lia|].
    apply scan_once_string.
  - reflexivity.
Qed.

Lemma member_chunks_length fields :
  (length fields <= length (concat (SessionManager.member_chunks fields)))%nat.
Proof.
  induction fields as [|[k v] rest IH]; [simpl; lia|].
  destruct (member_chunks_head k v rest) as (body & -> & ->).
  rewrite !length_app. unfold Json.encode_string at 1. cbn [length].
  destruct rest as [|kv rest]; [simpl; lia|].
  cbn [length] in *. lia.
Qed.

Lemma loads_dict_chunks fields :
  fields <> [] ->
  Json.loads (concat (SessionManager.dict_chunks fields))
  = Py.Ok (Json.Obj (SessionManager.dict_of fields [])).
Proof.
  intros Hne. destruct fields as [|[k v] rest]; [contradiction|].
  unfold SessionManager.dict_chunks.
  set (fields := (k, v) :: rest) in *.
  assert (Htext : concat ([[123%N]; [Json.newline; 32%N; 32%N]]
                            ++ SessionManager.member_chunks fields
                            ++ [[Json.newline]; [125%N]])
                  = 123%N :: Json.newline :: 32%N :: 32%N
                      :: concat (SessionManager.member_chunks fields)
                      ++ [Json.newline; 125%N]).
  { cbn [app concat]. rewrite concat_app. reflexivity. }
  rewrite Htext. unfold Json.loads.
  cbn [Json.skip_ws]. change (Json.is_ws 123) with false. cbv iota.
  cbn [length Json.scan_once].
  change (123 =? Json.quote)%N with false.
  change (123 =? 123)%N with true. cbv iota.
  change (Json.skip_ws (Json.newline :: 32%N :: 32%N :: ?x))
    with (Json.skip_ws x).
  pose proof (member_chunks_length fields) as Hlen.
  unfold fields at 1 2. rewrite skip_ws_member_chunks.
  destruct (member_chunks_quote (k, v) rest [Json.newline; 125%N])
    as (r & Hr).
  rewrite Hr. cbv iota. change (Json.quote =? 125)%N with false. cbv iota.
  rewrite <- Hr. fold fields.
  rewrite (scan_members_fields [] fields []).
  - reflexivity.
  - discriminate.
  - rewrite length_app. cbn [length]. lia.
Qed.

(** Reading translates nothing in a text without carriage returns. *)
Lemma translate_no_returns s :
  SessionManager.no_returns s = true ->
  SessionManager.universal_newlines s = s.
Proof.
  unfold SessionManager.universal_newlines.
  induction s as [|c s IH]; [reflexivity|]. cbn [SessionManager.no_returns forallb].
  intros H. apply andb_true_iff in H as [Hc Hs].
  apply negb_true_iff in Hc.
  cbn [SessionManager.translate_newlines]. rewrite Hc, andb_false_r.
  f_equal. apply IH. exact Hs.
Qed.

Lemma no_breaks_no_returns s :
  SessionManager.no_breaks s = true -> SessionManager.no_returns s = true.
Proof.
  unfold SessionManager.no_breaks, SessionManager.no_returns.
  induction s as [|c s IH]; [reflexivity|]. cbn [forallb].
  intros H. apply andb_true_iff in H as [Hc Hs].
  apply andb_true_iff in Hc as [_ Hc]. now rewrite Hc, IH.
Qed.

Lemma no_returns_concat chunks :
  forallb SessionManager.no_returns chunks = true ->
  SessionManager.no_returns (concat chunks) = true.
Proof.
  induction chunks as [|c chunks IH]; [reflexivity|]. cbn [forallb concat].
  intros H. apply andb_true_iff in H as [Hc Hs].
  unfold SessionManager.no_returns in *. rewrite forallb_app, Hc.
  now apply IH.
Qed.

Lemma member_chunks_no_returns fields :
  forallb SessionManager.no_returns (SessionManager.member_chunks fields)
  = true.
Proof.
  induction fields as [|[k v] rest IH]; [reflexivity|].
  cbn [SessionManager.member_chunks app forallb].
  rewrite !(no_breaks_no_returns _ (encode_string_no_breaks _)).
  destruct rest as [|kv rest]; [reflexivity|].
  cbn [app forallb]. now rewrite IH.
Qed.

Lemma dict_chunks_no_returns fields :
  SessionManager.no_returns (concat (SessionManager.dict_chunks fields))
  = true.
Proof.
  apply no_returns_concat. unfold SessionManager.dict_chunks.
  destruct fields as [|kv rest]; [reflexivity|].
  cbn [app forallb]. rewrite forallb_app, member_chunks_no_returns.
  reflexivity.
Qed.

Lemma metadata_chunks_asdict metadata :
  SessionManager.metadata_chunks metadata
  = SessionManager.dict_chunks (SessionManager.asdict metadata).
Proof. reflexivity. Qed.

Lemma construct_asdict metadata :
  SessionManager.construct
    (Json.Obj (SessionManager.dict_of (SessionManager.asdict metadata) []))
  = Some (Py.Ok metadata).
Proof. destruct metadata. reflexivity. Qed.

(** The text of a metadata file the program wrote reads back as the
    record it was written from. *)
Lemma metadata_text_reads_back metadata :
  Py.bind
    (Json.loads
       (SessionManager.universal_newlines
          (concat (SessionManager.metadata_chunks metadata))))
    (fun data => Py.Ok (SessionManager.construct data))
  = Py.Ok (Some (Py.Ok metadata)).
Proof.
  rewrite metadata_chunks_asdict.
  rewrite translate_no_returns by apply dict_chunks_no_returns.
  rewrite loads_dict_chunks by discriminate.
  cbn [Py.bind]. now rewrite construct_asdict.
Qed.

(** Loading a session the program stored gives its record back and
    makes it the current session, with the transcript read from its
    file. *)
Lemma load_session_stored metadata self d :
  SessionManager.stored metadata d ->
  SessionManager.load_session (SessionManager.id metadata) self d
  = Some
      (match SessionManager._load_transcript (SessionManager.id metadata) d
       with
       | Py.Ok entries =>
           (Some metadata, SessionManager.mk (Some metadata) entries)
       | Py.Raise _ =>
           (None,
            SessionManager.mk (Some metadata)
              (SessionManager._transcript_log self))
       end).
Proof.
  intros (_ & Hfile & _). unfold SessionManager.load_session.
  match goal with
  | |- context [@lookup ?K ?A ?M ?I ?k ?m] =>
      replace (@lookup K A M I k m)
        with (Some (concat (SessionManager.metadata_chunks metadata)))
        by (symmetry; exact Hfile)
  end.
  pose proof (metadata_text_reads_back metadata) as Hread.
  destruct (Json.loads _) as [data|e]; [|discriminate].
  cbn [Py.bind] in Hread. injection Hread as ->.
  destruct (SessionManager._load_transcript _ d); reflexivity.
Qed.

(** ** Sessions on the disk *)

Lemma write_chunks_all chunks :
  forallb SessionManager.encodable chunks = true ->
  SessionManager.write_chunks chunks = (concat chunks, true).
Proof.
  induction chunks as [|c chunks IH]; [reflexivity|]. cbn [forallb].
  intros H. apply andb_true_iff in H as [Hc Hs].
  cbn [SessionManager.write_chunks concat]. now rewrite Hc, (IH Hs).
Qed.

Lemma write_chunks_whole chunks text :
  SessionManager.write_chunks chunks = (text, true) ->
  forallb SessionManager.encodable chunks = true /\ text = concat chunks.
Proof.
  revert text. induction chunks as [|c chunks IH]; intros text.
  - intros [= <-]. auto.
  - cbn [SessionManager.write_chunks forallb concat].
    destruct (SessionManager.encodable c); [|discriminate].
    destruct (SessionManager.write_chunks chunks) as [t ok].
    intros [= <- ->]. destruct (IH t eq_refl) as [-> ->]. auto.
Qed.

(** The chunks of a metadata file are accepted by the codec when the
    six fields are. *)
Lemma metadata_chunks_encodable metadata :
  forallb SessionManager.encodable (SessionManager.metadata_chunks metadata)
  = forallb (fun v => SessionManager.encodable (Json.encode_string v))
      [SessionManager.id metadata; SessionManager.name metadata;
       SessionManager.created_at metadata; SessionManager.updated_at metadata;
       SessionManager.mic_device metadata;
       SessionManager.speaker_device metadata].
Proof.
  destruct metadata as [i n c u m s].
  cbn [SessionManager.metadata_chunks SessionManager.metadata_field app
       forallb SessionManager.id SessionManager.name
       SessionManager.created_at SessionManager.updated_at
       SessionManager.mic_device SessionManager.speaker_device].
  generalize (SessionManager.encodable (Json.encode_string i)).
  generalize (SessionManager.encodable (Json.encode_string n)).
  generalize (SessionManager.encodable (Json.encode_string c)).
  generalize (SessionManager.encodable (Json.encode_string u)).
  generalize (SessionManager.encodable (Json.encode_string m)).
  generalize (SessionManager.encodable (Json.encode_string s)).
  intros [] [] [] [] [] []; reflexivity.
Qed.

Lemma save_metadata_stored metadata d :
  SessionManager.id metadata ∈ SessionManager.dirs d ->
  forallb SessionManager.encodable (SessionManager.metadata_chunks metadata)
  = true ->
  SessionManager._save_metadata metadata d
  = (Py.Ok tt,
     SessionManager.mkDisk (SessionManager.dirs d)
       (<[(SessionManager.id metadata, SessionManager.metadata_json)
          := concat (SessionManager.metadata_chunks metadata)]>
          (SessionManager.files d))).
Proof.
  intros Hdir Henc.
  unfold SessionManager._save_metadata, SessionManager.write_file.
  rewrite (bool_decide_eq_true_2 _ Hdir), (write_chunks_all _ Henc).
  reflexivity.
Qed.

Lemma stored_insert metadata dirs0 files0 :
  SessionManager.id metadata ∈ dirs0 ->
  forallb SessionManager.encodable (SessionManager.metadata_chunks metadata)
  = true ->
  SessionManager.stored metadata
    (SessionManager.mkDisk dirs0
       (<[(SessionManager.id metadata, SessionManager.metadata_json)
          := concat (SessionManager.metadata_chunks metadata)]> files0)).
Proof.
  intros Hdir Henc. unfold SessionManager.stored.
  cbn [SessionManager.dirs SessionManager.files].
  split; [exact Hdir|]. split; [|exact Henc].
  apply lookup_insert_eq.
Qed.

(** What [create_session] leaves when it returns. *)
Lemma create_session_stored session_id session_name now self d metadata
  self' d' :
  SessionManager.create_session session_id session_name now self d
  = (Py.Ok metadata, self', d') ->
  metadata = SessionManager.mkMetadata session_id session_name now now [] []
  /\ self' = SessionManager.mk (Some metadata) []
  /\ d' = SessionManager.mkDisk (SessionManager.dirs d ∪ {[session_id]})
            (<[(session_id, SessionManager.metadata_json)
               := concat (SessionManager.metadata_chunks metadata)]>
               (SessionManager.files d))
  /\ SessionManager.stored metadata d'.
Proof.
  unfold SessionManager.create_session, SessionManager._save_metadata,
    SessionManager.write_file.
  cbn [SessionManager.id SessionManager.dirs SessionManager.files].
  rewrite bool_decide_eq_true_2 by set_solver.
  destruct (SessionManager.write_chunks _) as [mtext [|]] eqn:Ew;
    [|discriminate].
  intros [= <- <- <-].
  destruct (write_chunks_whole _ _ Ew) as [Henc ->].
  split; [reflexivity|]. split; [reflexivity|]. split; [reflexivity|].
  apply (stored_insert
           (SessionManager.mkMetadata session_id session_name now now [] []));
    [cbn; set_solver | exact Henc].
Qed.

Lemma touched_encodable session now :
  forallb SessionManager.encodable (SessionManager.metadata_chunks session)
  = true ->
  SessionManager.encodable now = true ->
  forallb SessionManager.encodable
    (SessionManager.metadata_chunks (SessionManager.touched session now))
  = true.
Proof.
  rewrite !metadata_chunks_encodable. destruct session as [i n c u m s].
  cbn [forallb SessionManager.touched SessionManager.id SessionManager.name
       SessionManager.created_at SessionManager.updated_at
       SessionManager.mic_device SessionManager.speaker_device].
  intros H Hnow. rewrite (encode_string_encodable _ Hnow).
  repeat (apply andb_true_iff in H; destruct H as [?H H]).
  repeat (apply andb_true_iff; split); assumption.
Qed.

(** [add_transcript] on a stored session, with fields and clock reading
    the codec accepts: the call returns, the entry joins the log, its
    line joins the transcript file, and the metadata file is the dump
    of the session with its new [updated_at]. *)
Lemma add_transcript_stored speaker text timestamp now self d session :
  SessionManager._current_session self = Some session ->
  SessionManager.stored session d ->
  SessionManager.encodable speaker = true ->
  SessionManager.encodable text = true ->
  SessionManager.encodable timestamp = true ->
  SessionManager.encodable now = true ->
  SessionManager.add_transcript speaker text timestamp now self d
  = (Py.Ok tt,
     SessionManager.mk (Some (SessionManager.touched session now))
       (SessionManager._transcript_log self
          ++ [SessionManager.entry speaker text timestamp]),
     SessionManager.mkDisk (SessionManager.dirs d)
       (<[(SessionManager.id session, SessionManager.metadata_json)
          := concat (SessionManager.metadata_chunks
                       (SessionManager.touched session now))]>
          (<[(SessionManager.id session, SessionManager.transcript_jsonl)
             := SessionManager.transcript_text (SessionManager.id session) d
                ++ Json.dumps (SessionManager.entry speaker text timestamp)
                ++ [Json.newline]]>
             (SessionManager.files d)))).
Proof.
  intros Hcur (Hdir & _ & Henc) Hs Ht Hn Hnow.
  unfold SessionManager.add_transcript. cbn [SessionManager._current_session].
  rewrite Hcur. unfold SessionManager._append_to_log.
  cbn [SessionManager._current_session].
  unfold SessionManager.write_file at 1.
  rewrite (bool_decide_eq_true_2 _ Hdir).
  cbn [SessionManager.write_chunks].
  rewrite (entry_line_encodable _ _ _ Hs Ht Hn). rewrite app_nil_r.
  unfold SessionManager._update_timestamp.
  cbn [SessionManager._current_session SessionManager._transcript_log].
  fold (SessionManager.touched session now).
  rewrite save_metadata_stored;
    [reflexivity | exact Hdir | now apply touched_encodable].
Qed.

Lemma stored_touched session now dirs0 files0 :
  SessionManager.id session ∈ dirs0 ->
  forallb SessionManager.encodable (SessionManager.metadata_chunks session)
  = true ->
  SessionManager.encodable now = true ->
  SessionManager.stored (SessionManager.touched session now)
    (SessionManager.mkDisk dirs0
       (<[(SessionManager.id session, SessionManager.metadata_json)
          := concat (SessionManager.metadata_chunks
                       (SessionManager.touched session now))]> files0)).
Proof.
  intros Hdir Henc Hnow.
  apply (stored_insert (SessionManager.touched session now));
    [exact Hdir | now apply touched_encodable].
Qed.

(** A run of calls of [add_transcript] on a stored session: the calls
    return, the session stays stored under the same id, name and
    creation time, and log and transcript file grow by the entries. *)
Lemma add_transcripts_stored segments : forall self d session old,
  SessionManager._current_session self = Some session ->
  SessionManager.stored session d ->
  forallb SessionManager.storable segments = true ->
  forallb (fun segment => SessionManager.encodable (snd segment)) segments
  = true ->
  SessionManager.ends_lines
    (SessionManager.transcript_text (SessionManager.id session) d) = true ->
  SessionManager._load_transcript (SessionManager.id session) d
  = Py.Ok old ->
  exists session' d',
    SessionManager.add_transcripts segments self d
    = (SessionManager.mk (Some session')
         (SessionManager._transcript_log self
            ++ map SessionManager.entry_of segments), d')
    /\ SessionManager.stored session' d'
    /\ SessionManager.id session' = SessionManager.id session
    /\ SessionManager.name session' = SessionManager.name session
    /\ SessionManager.created_at session' = SessionManager.created_at session
    /\ SessionManager._load_transcript (SessionManager.id session) d'
       = Py.Ok (old ++ map SessionManager.entry_of segments).
Proof.
  induction segments as [|[[[speaker text] timestamp] now] segments IH];
    intros self d session old Hcur Hst Hok Hclock Hends Hload.
  - exists session, d. cbn [SessionManager.add_transcripts map].
    rewrite !app_nil_r. destruct self as [cur log]. cbn in Hcur. subst cur.
    auto 10.
  - cbn [forallb SessionManager.storable snd] in Hok, Hclock.
    apply andb_true_iff in Hok as [Hseg Hrest].
    apply andb_true_iff in Hseg as [Hseg Hlit].
    apply andb_true_iff in Hseg as [Hs Ht].
    apply andb_true_iff in Hclock as [Hnow Hclock].
    destruct (scan_number_chars _ _ _ (number_literal_spec _ Hlit))
      as (Hchars & _).
    cbn [SessionManager.add_transcripts].
    rewrite (add_transcript_stored speaker text timestamp now self d session
               Hcur Hst Hs Ht (number_encodable _ Hchars) Hnow).
    destruct (dumps_entry_shape speaker text timestamp Hlit)
      as (body & Hshape & Hbody).
    assert (Hline : SessionManager.no_breaks
                      (Json.dumps (SessionManager.entry speaker text
                                     timestamp)) = true).
    { rewrite Hshape. change (123%N :: ?x) with ([123%N] ++ x).
      now rewrite !no_breaks_app, Hbody. }
    destruct Hst as (Hdir & Hfile & Henc).
    match goal with
    | |- context [SessionManager.add_transcripts segments ?s ?dd] =>
        destruct (IH s dd (SessionManager.touched session now)
                    (old ++ [SessionManager.entry speaker text timestamp]))
          as (session' & d' & Heq & Hst' & Hid & Hname & Hcreated & Hload')
    end.
    + reflexivity.
    + now apply stored_touched.
    + exact Hrest.
    + exact Hclock.
    + cbn [SessionManager.touched SessionManager.id].
      rewrite transcript_text_after. apply ends_lines_append.
    + cbn [SessionManager.touched SessionManager.id].
      rewrite load_transcript_text, transcript_text_after.
      rewrite readlines_append by assumption.
      rewrite load_lines_app, <- load_transcript_text, Hload.
      cbn [Py.bind]. now apply load_entry_line.
    + exists session', d'. rewrite Heq.
      cbn [SessionManager._transcript_log map SessionManager.entry_of].
      rewrite <- !app_assoc. cbn [app].
      cbn [SessionManager.touched SessionManager.id SessionManager.name
           SessionManager.created_at] in Hid, Hname, Hcreated, Hload'.
      rewrite <- !app_assoc in Hload'. cbn [app] in Hload'.
      auto 10.
Qed.

(** X11: what a manager writes survives a restart.  After
    [create_session] has returned (no transcript file of that id
    existed before) and segments the log can hold have been appended,
    with clock readings the codec accepts, [load_session] called for
    that id on any manager, a fresh one in particular, returns the
    session as the writing manager holds it and leaves that manager in
    exactly the state of the writing one: the same current session,
    under the name and creation time it was created with, and the same
    transcript log. *)
Theorem session_survives_restart :
  forall session_id session_name now self d metadata self1 d1 segments other,
    SessionManager.create_session session_id session_name now self d
    = (Py.Ok metadata, self1, d1) ->
    SessionManager.files d !! (session_id, SessionManager.transcript_jsonl)
    = None ->
    forallb SessionManager.storable segments = true ->
    forallb (fun segment => SessionManager.encodable (snd segment)) segments
    = true ->
    exists session,
      SessionManager._current_session
        (fst (SessionManager.add_transcripts segments self1 d1))
      = Some session
      /\ SessionManager.id session = session_id
      /\ SessionManager.name session = session_name
      /\ SessionManager.created_at session = now
      /\ SessionManager._transcript_log
           (fst (SessionManager.add_transcripts segments self1 d1))
         = map SessionManager.entry_of segments
      /\ SessionManager.load_session session_id other
           (snd (SessionManager.add_transcripts segments self1 d1))
         = Some (Some session,
                 fst (SessionManager.add_transcripts segments self1 d1)).
Proof.
  intros session_id session_name now self d metadata self1 d1 segments other
    Hcreate Hnone Hok Hclock.
  destruct (create_session_ready _ _ _ _ _ _ _ _ Hcreate Hnone)
    as (_ & _ & _ & _ & Htext & Hload).
  destruct (create_session_stored _ _ _ _ _ _ _ _ Hcreate)
    as (Hm & -> & _ & Hst).
  assert (Hid : SessionManager.id metadata = session_id) by now subst.
  destruct (add_transcripts_stored segments
              (SessionManager.mk (Some metadata) []) d1 metadata [])
    as (session & d2 & Heq & Hst2 & Hid2 & Hname2 & Hcreated2 & Hload2);
    try assumption.
  - reflexivity.
  - rewrite Hid, Htext. reflexivity.
  - now rewrite Hid.
  - rewrite Heq. cbn [fst snd SessionManager._current_session
                      SessionManager._transcript_log app].
    exists session. split; [reflexivity|].
    split; [congruence|]. split; [subst; exact Hname2|].
    split; [subst; exact Hcreated2|]. split; [reflexivity|].
    rewrite <- Hid, <- Hid2.
    rewrite (load_session_stored session other d2 Hst2).
    rewrite Hid2, Hload2. reflexivity.
Qed.

Lemma session_survives_restart_witness :
  exists session,
    SessionManager.load_session Doubles.session_id SessionManager.init
      (snd (SessionManager.add_transcripts Doubles.segments Doubles.manager
              Doubles.disk))
    = Some (Some session,
            fst (SessionManager.add_transcripts Doubles.segments
                   Doubles.manager Doubles.disk))
    /\ SessionManager.name session = Py.of_string "meeting"
    /\ SessionManager.updated_at session
       = Py.of_string "2026-01-01T12:00:05".
Proof.
  destruct (session_survives_restart Doubles.session_id
              (Py.of_string "meeting") (Py.of_string "2026-01-01T12:00:00")
              SessionManager.init (SessionManager.mkDisk ∅ ∅)
              Doubles.session Doubles.manager Doubles.disk Doubles.segments
              SessionManager.init)
    as (session & Hcur & _ & Hname & _ & _ & Hload).
  - vm_compute. reflexivity.
  - reflexivity.
  - vm_compute. reflexivity.
  - vm_compute. reflexivity.
  - exists session. split; [exact Hload|]. split; [exact Hname|].
    vm_compute in Hcur. injection Hcur as <-. reflexivity.
Defined.

Lemma stored_doubles : SessionManager.stored Doubles.session Doubles.disk.
Proof.
  unfold SessionManager.stored. split; [|split].
  - refine (bool_decide_unpack _ _). vm_compute. exact I.
  - vm_compute. reflexivity.
  - vm_compute. reflexivity.
Qed.

(** X12: [load_session] makes the session the current one before it
    reads the transcript.  For a stored session whose transcript file
    cannot be read (a line that is not JSON), the call returns [None],
    as if nothing had been loaded, yet the manager now holds that
    session as the current one together with the log it had before:
    the entries of the previous session. *)
Theorem failed_load_switches_session :
  forall metadata self d e,
    SessionManager.stored metadata d ->
    SessionManager._load_transcript (SessionManager.id metadata) d
    = Py.Raise e ->
    SessionManager.load_session (SessionManager.id metadata) self d
    = Some (None,
            SessionManager.mk (Some metadata)
              (SessionManager._transcript_log self)).
Proof.
  intros metadata self d e Hst Hload.
  rewrite (load_session_stored metadata self d Hst), Hload. reflexivity.
Qed.

Lemma failed_load_switches_session_witness :
  SessionManager.load_session Doubles.session_id Doubles.other_manager
    Doubles.corrupt_disk
  = Some (None,
          SessionManager.mk (Some Doubles.session)
            (SessionManager._transcript_log Doubles.other_manager)).
Proof.
  apply (failed_load_switches_session Doubles.session Doubles.other_manager
           Doubles.corrupt_disk (Py.of_string "Expecting value")).
  - unfold SessionManager.stored. split; [|split].
    + refine (bool_decide_unpack _ _). vm_compute. exact I.
    + vm_compute. reflexivity.
    + vm_compute. reflexivity.
  - vm_compute. reflexivity.
Defined.

(** X13: [rename_session] on a stored session, with a name and a clock
    reading the codec accepts, rewrites the metadata file as the dump
    of the session under its new name and new [updated_at], id and
    creation time unchanged, and touches no other file, the transcript
    in particular.  In memory only the name of the current session
    changes, and only if it is the session renamed: its [updated_at]
    keeps the old value, and another current session is left alone. *)
Theorem rename_session_rewrites_metadata :
  forall session new_name now self d,
    SessionManager.stored session d ->
    SessionManager.encodable new_name = true ->
    SessionManager.encodable now = true ->
    exists d',
      SessionManager.rename_session (SessionManager.id session) new_name now
        self d
      = Some (Py.Ok tt,
              match SessionManager._current_session self with
              | Some current =>
                  if Py.str_eqb (SessionManager.id current)
                       (SessionManager.id session)
                  then SessionManager.mk
                         (Some (SessionManager.with_name current new_name))
                         (SessionManager._transcript_log self)
                  else self
              | None => self
              end, d')
      /\ SessionManager.stored
           (SessionManager.touched
              (SessionManager.with_name session new_name) now) d'
      /\ SessionManager.dirs d' = SessionManager.dirs d
      /\ forall key,
           key <> (SessionManager.id session, SessionManager.metadata_json) ->
           SessionManager.files d' !! key = SessionManager.files d !! key.
Proof.
  intros session new_name now self d (Hdir & Hfile & Henc) Hname Hnow.
  assert (Henc' : forallb SessionManager.encodable
                    (SessionManager.metadata_chunks
                       (SessionManager.touched
                          (SessionManager.with_name session new_name) now))
                  = true).
  { apply touched_encodable; [|exact Hnow].
    rewrite metadata_chunks_encodable in *.
    destruct session as [i n c u m s].
    cbn [forallb SessionManager.with_name SessionManager.id
         SessionManager.name SessionManager.created_at
         SessionManager.updated_at SessionManager.mic_device
         SessionManager.speaker_device] in *.
    rewrite (encode_string_encodable _ Hname).
    repeat (apply andb_true_iff in Henc; destruct Henc as [?H Henc]).
    repeat (apply andb_true_iff; split); assumption. }
  unfold SessionManager.rename_session.
  match goal with
  | |- context [@lookup ?K ?A ?M ?I ?k ?m] =>
      replace (@lookup K A M I k m)
        with (Some (concat (SessionManager.metadata_chunks session)))
        by (symmetry; exact Hfile)
  end.
  rewrite metadata_chunks_asdict.
  rewrite translate_no_returns by apply dict_chunks_no_returns.
  rewrite loads_dict_chunks by discriminate.
  assert (Hfields :
            SessionManager.string_members
              (Json.dict_set
                 (Json.dict_set
                    (SessionManager.dict_of (SessionManager.asdict session) [])
                    (Py.of_string "name") (Json.Str new_name))
                 (Py.of_string "updated_at") (Json.Str now))
            = Some (SessionManager.asdict
                      (SessionManager.touched
                         (SessionManager.with_name session new_name) now)))
    by (destruct session; reflexivity).
  rewrite Hfields, <- metadata_chunks_asdict.
  unfold SessionManager.write_file.
  rewrite (bool_decide_eq_true_2 _ Hdir), (write_chunks_all _ Henc').
  cbn [app].
  eexists. split; [reflexivity|]. split; [|split].
  - apply (stored_insert
             (SessionManager.touched
                (SessionManager.with_name session new_name) now));
      assumption.
  - reflexivity.
  - intros key Hkey. cbn [SessionManager.files].
    now rewrite lookup_insert_ne by congruence.
Qed.

Lemma rename_session_rewrites_metadata_witness :
  exists d',
    SessionManager.rename_session Doubles.session_id
      (Py.of_string "weekly sync") (Py.of_string "2026-01-02T08:00:00")
      Doubles.manager Doubles.disk
    = Some (Py.Ok tt,
            SessionManager.mk
              (Some (SessionManager.with_name Doubles.session
                       (Py.of_string "weekly sync"))) [], d')
    /\ SessionManager.load_session Doubles.session_id SessionManager.init d'
       = Some (Some (SessionManager.touched
                       (SessionManager.with_name Doubles.session
                          (Py.of_string "weekly sync"))
                       (Py.of_string "2026-01-02T08:00:00")),
               SessionManager.mk
                 (Some (SessionManager.touched
                          (SessionManager.with_name Doubles.session
                             (Py.of_string "weekly sync"))
                          (Py.of_string "2026-01-02T08:00:00"))) []).
Proof.
  destruct (rename_session_rewrites_metadata Doubles.session
              (Py.of_string "weekly sync")
              (Py.of_string "2026-01-02T08:00:00") Doubles.manager
              Doubles.disk stored_doubles eq_refl eq_refl)
    as (d' & Hrename & Hst & _ & Hfiles).
  exists d'. split; [exact Hrename|].
  change Doubles.session_id
    with (SessionManager.id
            (SessionManager.touched
               (SessionManager.with_name Doubles.session
                  (Py.of_string "weekly sync"))
               (Py.of_string "2026-01-02T08:00:00"))).
  rewrite (load_session_stored _ SessionManager.init d' Hst).
  unfold SessionManager._load_transcript.
  match goal with
  | |- context [@lookup ?K ?A ?M ?I ?k ?m] =>
      replace (@lookup K A M I k m) with (@None Py.str);
        [reflexivity|]
  end.
  symmetry.
  etransitivity; [apply Hfiles; intros H; inversion H|].
  vm_compute. reflexivity.
Defined.

Lemma insert_other_name (sid0 name0 text : Py.str)
  (files0 : gmap (Py.str * Py.str) Py.str) (sid filename : Py.str) :
  filename <> name0 ->
  (<[(sid0, name0) := text]> files0) !! (sid, filename)
  = files0 !! (sid, filename).
Proof. intros H. now rewrite lookup_insert_ne by congruence. Qed.

Lemma load_transcript_insert (sid0 name0 text : Py.str) d sid :
  name0 <> SessionManager.transcript_jsonl ->
  SessionManager._load_transcript sid
    (SessionManager.mkDisk (SessionManager.dirs d)
       (<[(sid0, name0) := text]> (SessionManager.files d)))
  = SessionManager._load_transcript sid d.
Proof.
  intros H. unfold SessionManager._load_transcript.
  cbn [SessionManager.files].
  now rewrite insert_other_name by congruence.
Qed.

(** X14: [add_ai_response] keeps the replies apart from the
    transcript.  Whatever the arguments, the manager and the disk, the
    call leaves the manager as it was (current session, its timestamp,
    the transcript log), creates no directory, and changes no file
    other than one named [ai_responses.jsonl], so the transcript of
    every session loads as before; with no current session it returns
    normally and leaves the disk as it was; with a current session
    whose directory exists and a line the codec accepts it returns
    normally and the file of that session grows by exactly that
    line. *)
Theorem ai_responses_stay_apart :
  forall selected_text answer provider timestamp self d,
    exists r d',
      SessionManager.add_ai_response selected_text answer provider timestamp
        self d = (r, self, d')
      /\ SessionManager.dirs d' = SessionManager.dirs d
      /\ (forall sid filename,
            filename <> SessionManager.ai_responses_jsonl ->
            SessionManager.files d' !! (sid, filename)
            = SessionManager.files d !! (sid, filename))
      /\ (forall sid,
            SessionManager._load_transcript sid d'
            = SessionManager._load_transcript sid d)
      /\ (SessionManager._current_session self = None ->
          r = Py.Ok tt /\ d' = d)
      /\ (forall session,
            SessionManager._current_session self = Some session ->
            SessionManager.id session ∈ SessionManager.dirs d ->
            SessionManager.encodable
              (Json.dumps
                 (SessionManager.ai_entry selected_text answer provider
                    timestamp) ++ [Json.newline]) = true ->
            r = Py.Ok tt
            /\ SessionManager.files d'
                 !! (SessionManager.id session,
                     SessionManager.ai_responses_jsonl)
               = Some (default []
                         (SessionManager.files d
                            !! (SessionManager.id session,
                                SessionManager.ai_responses_jsonl))
                       ++ Json.dumps
                            (SessionManager.ai_entry selected_text answer
                               provider timestamp) ++ [Json.newline])).
Proof.
  intros selected_text answer provider timestamp self d.
  unfold SessionManager.add_ai_response, SessionManager._append_to_log.
  destruct (SessionManager._current_session self) as [session|] eqn:Hcur.
  2: { exists (Py.Ok tt), d. repeat split; auto; discriminate. }
  unfold SessionManager.write_file.
  destruct (bool_decide (SessionManager.id session ∈ SessionManager.dirs d))
    eqn:Hdir.
  2: { eexists _, d. split; [reflexivity|]. split; [reflexivity|].
       split; [reflexivity|]. split; [reflexivity|].
       split; [discriminate|].
       intros s [= <-] Hin _. apply bool_decide_eq_false in Hdir.
       contradiction. }
  cbn [SessionManager.write_chunks].
  destruct (SessionManager.encodable _) eqn:Henc; cbn [app];
    (eexists _, _; split; [reflexivity|]; split; [reflexivity|];
     split; [intros sid filename Hf; cbn [SessionManager.files];
             now apply insert_other_name|];
     split; [intros sid; apply load_transcript_insert;
             intros H; inversion H|];
     split; [discriminate|]).
  - intros s [= <-] _ _. split; [reflexivity|].
    cbn [SessionManager.files]. rewrite lookup_insert_eq.
    now rewrite app_nil_r.
  - intros s [= <-] _ H. rewrite H in Henc. discriminate.
Qed.

(** X15: when the directory of the current session is gone, every call
    of [add_transcript] raises (the file cannot be opened) and writes
    nothing, but the entry has joined the in-memory log before the
    write is tried: over any run of calls the disk stays as it was
    while the log grows by every entry, so log and transcript file no
    longer agree. *)
Theorem add_transcript_missing_directory :
  forall session self d,
    SessionManager._current_session self = Some session ->
    SessionManager.id session ∉ SessionManager.dirs d ->
    (forall speaker text timestamp now,
       SessionManager.add_transcript speaker text timestamp now self d
       = (Py.Raise SessionManager.no_such_directory,
          SessionManager.mk (Some session)
            (SessionManager._transcript_log self
               ++ [SessionManager.entry speaker text timestamp]), d))
    /\ (forall segments,
          SessionManager.add_transcripts segments self d
          = (SessionManager.mk (Some session)
               (SessionManager._transcript_log self
                  ++ map SessionManager.entry_of segments), d)).
Proof.
  intros session self d Hcur Hdir.
  assert (Hone : forall log speaker text timestamp now,
            SessionManager.add_transcript speaker text timestamp now
              (SessionManager.mk (Some session) log) d
            = (Py.Raise SessionManager.no_such_directory,
               SessionManager.mk (Some session)
                 (log ++ [SessionManager.entry speaker text timestamp]), d)).
  { intros log speaker text timestamp now.
    unfold SessionManager.add_transcript, SessionManager._append_to_log,
      SessionManager.write_file.
    cbn [SessionManager._current_session SessionManager._transcript_log].
    now rewrite (bool_decide_eq_false_2 _ Hdir). }
  destruct self as [cur log]. cbn in Hcur. subst cur.
  cbn [SessionManager._transcript_log]. split; [apply Hone|].
  intros segments. revert log.
  induction segments as [|[[[speaker text] timestamp] now] segments IH];
    intros log.
  - cbn. now rewrite app_nil_r.
  - cbn [SessionManager.add_transcripts]. rewrite Hone, IH.
    cbn [map SessionManager.entry_of]. now rewrite <- app_assoc.
Qed.

Lemma add_transcript_missing_directory_witness :
  SessionManager.add_transcripts Doubles.segments Doubles.manager
    (SessionManager.mkDisk ∅ ∅)
  = (SessionManager.mk (Some Doubles.session)
       (map SessionManager.entry_of Doubles.segments),
     SessionManager.mkDisk ∅ ∅).
Proof.
  apply (proj2 (add_transcript_missing_directory Doubles.session
                  Doubles.manager (SessionManager.mkDisk ∅ ∅) eq_refl
                  (not_elem_of_empty _))).
Defined.

(** X16: [create_session] writes one file, the metadata of the new
    session, and removes nothing: the directories that existed still
    exist, every other file is as it was, and when the call returns the
    new session is stored, is the current one, and the in-memory log is
    empty.  In particular a transcript file already present under the
    same id (a session created within the same second) is neither
    removed nor emptied, so the new session starts with an empty log
    over a transcript that is not. *)
Theorem create_session_writes_only_metadata :
  forall session_id session_name now self d r self' d',
    SessionManager.create_session session_id session_name now self d
    = (r, self', d') ->
    SessionManager.dirs d' = SessionManager.dirs d ∪ {[session_id]}
    /\ (forall key,
          key <> (session_id, SessionManager.metadata_json) ->
          SessionManager.files d' !! key = SessionManager.files d !! key)
    /\ (forall sid,
          SessionManager._load_transcript sid d'
          = SessionManager._load_transcript sid d)
    /\ match r with
       | Py.Ok metadata =>
           metadata
           = SessionManager.mkMetadata session_id session_name now now [] []
           /\ self' = SessionManager.mk (Some metadata) []
           /\ SessionManager.stored metadata d'
       | Py.Raise _ => self' = self
       end.
Proof.
  intros session_id session_name now self d r self' d' Hcreate.
  assert (Hdisk : exists text,
             d' = SessionManager.mkDisk (SessionManager.dirs d ∪ {[session_id]})
                    (<[(session_id, SessionManager.metadata_json) := text]>
                       (SessionManager.files d))).
  { revert Hcreate.
    unfold SessionManager.create_session, SessionManager._save_metadata,
      SessionManager.write_file.
    cbn [SessionManager.id SessionManager.dirs SessionManager.files].
    rewrite bool_decide_eq_true_2 by set_solver.
    destruct (SessionManager.write_chunks _) as [mtext [|]];
      intros [= <- <- <-]; eexists; reflexivity. }
  destruct Hdisk as (text & Hd').
  split; [now subst d'|]. split; [|split].
  - intros key Hkey. subst d'. cbn [SessionManager.files].
    now rewrite lookup_insert_ne by congruence.
  - intros sid. subst d'.
    apply (load_transcript_insert session_id SessionManager.metadata_json
             text
             (SessionManager.mkDisk (SessionManager.dirs d ∪ {[session_id]})
                (SessionManager.files d)) sid).
    intros H. inversion H.
  - destruct r as [metadata|e].
    + destruct (create_session_stored _ _ _ _ _ _ _ _ Hcreate)
        as (Hm & Hs & _ & Hst). auto.
    + revert Hcreate.
      unfold SessionManager.create_session.
      destruct (SessionManager._save_metadata _ _) as [[u|e0] d0];
        [discriminate|]. now intros [= _ <- _].
Qed.

Lemma create_session_writes_only_metadata_witness :
  SessionManager._load_transcript Doubles.session_id
    (snd (SessionManager.create_session Doubles.session_id
            (Py.of_string "again") (Py.of_string "2026-01-01T12:00:00")
            Doubles.other_manager
            (snd (SessionManager.add_transcripts Doubles.segments
                    Doubles.manager Doubles.disk))))
  = Py.Ok (map SessionManager.entry_of Doubles.segments)
  /\ SessionManager._transcript_log
       (snd (fst (SessionManager.create_session Doubles.session_id
                    (Py.of_string "again")
                    (Py.of_string "2026-01-01T12:00:00")
                    Doubles.other_manager
                    (snd (SessionManager.add_transcripts Doubles.segments
                            Doubles.manager Doubles.disk))))) = [].
Proof.
  destruct (SessionManager.create_session Doubles.session_id
              (Py.of_string "again") (Py.of_string "2026-01-01T12:00:00")
              Doubles.other_manager
              (snd (SessionManager.add_transcripts Doubles.segments
                      Doubles.manager Doubles.disk)))
    as [[r self'] d'] eqn:E.
  destruct (create_session_writes_only_metadata _ _ _ _ _ _ _ _ E)
    as (_ & _ & Hload & Hr).
  cbn [fst snd]. split.
  - rewrite Hload. vm_compute. reflexivity.
  - pose proof E as E'. vm_compute in E'. injection E' as _ <- _.
    reflexivity.
Defined.

(** ** The transcription loop *)

(** [add_transcript] appends its entry to the in-memory log whether or
    not the write succeeds. *)
Lemma add_transcript_appends speaker text timestamp now self d :
  SessionManager._transcript_log
    (snd (fst (SessionManager.add_transcript speaker text timestamp now
                 self d)))
  = SessionManager._transcript_log self
    ++ [SessionManager.entry speaker text timestamp].
Proof.
  unfold SessionManager.add_transcript.
  cbn [SessionManager._current_session].
  destruct (SessionManager._current_session self) as [session|];
    [|reflexivity].
  destruct (SessionManager._append_to_log _ _ _ _) as [[u|e] d1];
    [|reflexivity].
  unfold SessionManager._update_timestamp.
  cbn [SessionManager._current_session SessionManager._transcript_log].
  destruct (SessionManager._save_metadata _ _) as [r d2]. reflexivity.
Qed.

Section Loop.

Import AlterBackend.

Context {W M S : Type}.
Variable WhisperModel : W -> Py.str -> Py.str -> Py.str -> Py.result M * W.
Variable model_transcribe :
  W -> M -> list float -> Py.str -> Py.result (list Py.str) * W.
Variable score : S -> list float -> Z -> Py.result float * S.
Variable lower_table : Py.str -> nat -> Py.str.
Variable float_literal : float -> Py.str.

Abbreviation backend := (AlterBackend.t W M S).
Abbreviation handle := (handle_segment W M S float_literal).
Abbreviation round :=
  (transcription_round W M WhisperModel model_transcribe S score lower_table
     float_literal).
Abbreviation loop :=
  (_transcription_loop W M WhisperModel model_transcribe S score lower_table
     float_literal).

(** What is done with a segment touches neither engine nor capture
    object, and lengthens the log by the entry of the segment. *)
Lemma handle_segment_spec segment now (self : backend) :
  transcription_engine W M S (handle segment now self)
  = transcription_engine W M S self
  /\ audio_capture W M S (handle segment now self)
     = audio_capture W M S self
  /\ SessionManager._transcript_log
       (session_manager W M S (handle segment now self))
     = SessionManager._transcript_log (session_manager W M S self)
       ++ [entry_of float_literal segment].
Proof.
  unfold handle_segment, entry_of.
  pose proof (add_transcript_appends
                (TranscriptionEngine.speaker segment)
                (TranscriptionEngine.text segment)
                (float_literal (TranscriptionEngine.seg_timestamp segment))
                now (session_manager W M S self) (sessions W M S self))
    as Hlog.
  destruct (SessionManager.add_transcript _ _ _ _ _ _) as [[r manager] disk].
  cbn [fst snd] in Hlog.
  destruct r as [u|e]; [|cbn; auto].
  unfold send_message. cbn [_ws].
  destruct (_ws W M S self); cbn; auto.
Qed.

End Loop.

(** X17: the transcription loop hands each queued chunk, oldest first,
    to [transcribe_chunk] exactly once, and appends to the in-memory
    transcript exactly the segments those calls return, in that order.
    For any number of rounds on a queue that no capture thread is
    filling meanwhile: the engine and its world end as after the same
    calls made one after the other, the chunks consumed are gone from
    the front of the queue, and the log has grown by one entry per
    returned segment (speaker, text and timestamp of the segment),
    whether or not the entry could be written to the disk. *)
Theorem loop_logs_every_returned_segment :
  forall (W M S : Type)
         (WhisperModel : W -> Py.str -> Py.str -> Py.str -> Py.result M * W)
         (model_transcribe :
            W -> M -> list float -> Py.str -> Py.result (list Py.str) * W)
         (score : S -> list float -> Z -> Py.result float * S)
         (lower_table : Py.str -> nat -> Py.str)
         (float_literal : float -> Py.str)
         (rounds : list (Py.result S * Py.str))
         (self : AlterBackend.t W M S) (w : W),
    exists results engine w' evs self',
      TranscriptionEngine.transcribe_all W M WhisperModel model_transcribe S
        score lower_table
        (combine (map fst rounds)
           (AudioCapture.audio_queue (AlterBackend.audio_capture W M S self)))
        (AlterBackend.transcription_engine W M S self) w
      = (results, engine, w', evs)
      /\ AlterBackend._transcription_loop W M WhisperModel model_transcribe S
           score lower_table float_literal rounds self w = (self', w')
      /\ AlterBackend.transcription_engine W M S self' = engine
      /\ AudioCapture.audio_queue (AlterBackend.audio_capture W M S self')
         = skipn (length rounds)
             (AudioCapture.audio_queue
                (AlterBackend.audio_capture W M S self))
      /\ SessionManager._transcript_log
           (AlterBackend.session_manager W M S self')
         = SessionManager._transcript_log
             (AlterBackend.session_manager W M S self)
           ++ map (AlterBackend.entry_of float_literal)
                (AlterBackend.segments_of results).
Proof.
  intros W M S WhisperModel model_transcribe score lower_table float_literal.
  induction rounds as [|[hub now] rounds IH]; intros self w.
  - exists [], (AlterBackend.transcription_engine W M S self), w, [], self.
    cbn. rewrite app_nil_r. auto.
  - cbn [map fst AlterBackend._transcription_loop length].
    unfold AlterBackend.transcription_round, AudioCapture.get_chunk.
    destruct (AudioCapture.audio_queue
                (AlterBackend.audio_capture W M S self))
      as [|chunk queue] eqn:Equeue.
    + destruct (IH self w)
        as (results & engine & w' & evs & self' & Hall & Hloop & He & Hq & Hl).
      rewrite Equeue in Hall, Hq.
      replace (combine (map fst rounds) []) with (@nil (Py.result S * AudioCapture.AudioChunk)) in Hall
        by (now destruct (map fst rounds)).
      cbn in Hall. injection Hall as <- <- <- <-.
      exists [], (AlterBackend.transcription_engine W M S self), w, [], self'.
      cbn [combine TranscriptionEngine.transcribe_all skipn map
           AlterBackend.segments_of].
      rewrite skipn_nil in Hq. cbn [map AlterBackend.segments_of] in Hl.
      auto.
    + cbn [combine TranscriptionEngine.transcribe_all].
      destruct (TranscriptionEngine.transcribe_chunk W M WhisperModel
                  model_transcribe S score lower_table hub chunk
                  (AlterBackend.transcription_engine W M S self) w)
        as [[[r engine1] w1] evs1].
      set (self1 := AlterBackend.mk W M S
                      (AlterBackend.session_manager W M S self)
                      (AlterBackend.sessions W M S self)
                      (AlterBackend.utterances W M S self) engine1
                      (AudioCapture.with_queue
                         (AlterBackend.audio_capture W M S self) queue)
                      (AlterBackend._ws W M S self)
                      (AlterBackend.sent W M S self)).
      assert (Hnext : forall self2,
                AlterBackend.transcription_engine W M S self2 = engine1 ->
                AlterBackend.audio_capture W M S self2
                = AudioCapture.with_queue
                    (AlterBackend.audio_capture W M S self) queue ->
                forall extra,
                  SessionManager._transcript_log
                    (AlterBackend.session_manager W M S self2)
                  = SessionManager._transcript_log
                      (AlterBackend.session_manager W M S self) ++ extra ->
                  map (AlterBackend.entry_of float_literal)
                    (AlterBackend.segments_of [r]) = extra ->
                  exists results engine w' evs self',
                    (let '(rs, self'', w'', evs') :=
                       TranscriptionEngine.transcribe_all W M WhisperModel
                         model_transcribe S score lower_table
                         (combine (map fst rounds) queue) engine1 w1 in
                     (r :: rs, self'', w'', evs1 ++ evs'))
                    = (results, engine, w', evs)
                    /\ AlterBackend._transcription_loop W M WhisperModel
                         model_transcribe S score lower_table float_literal
                         rounds self2 w1 = (self', w')
                    /\ AlterBackend.transcription_engine W M S self' = engine
                    /\ AudioCapture.audio_queue
                         (AlterBackend.audio_capture W M S self')
                       = skipn (length rounds) queue
                    /\ SessionManager._transcript_log
                         (AlterBackend.session_manager W M S self')
                       = SessionManager._transcript_log
                           (AlterBackend.session_manager W M S self)
                         ++ map (AlterBackend.entry_of float_literal)
                              (AlterBackend.segments_of results)).
      { intros self2 He2 Hc2 extra Hl2 Hextra.
        destruct (IH self2 w1)
          as (results & engine & w' & evs & self' & Hall & Hloop & He & Hq
              & Hl).
        rewrite He2, Hc2 in Hall. cbn [AudioCapture.with_queue
          AudioCapture.audio_queue] in Hall. rewrite Hall.
        exists (r :: results), engine, w', (evs1 ++ evs), self'.
        split; [reflexivity|]. split; [exact Hloop|]. split; [exact He|].
        split; [rewrite Hq, Hc2; reflexivity|].
        rewrite Hl, Hl2, <- Hextra, <- app_assoc. f_equal.
        destruct r as [[seg|]|e]; reflexivity. }
      destruct r as [[segment|]|e].
      * destruct (handle_segment_spec float_literal segment now self1)
          as (He & Hc & Hl).
        apply (Hnext _ He Hc [AlterBackend.entry_of float_literal segment]);
          [exact Hl|].
        cbn. reflexivity.
      * apply (Hnext self1 eq_refl eq_refl []); [|reflexivity].
        cbn. now rewrite app_nil_r.
      * apply (Hnext self1 eq_refl eq_refl []); [|reflexivity].
        cbn. now rewrite app_nil_r.
Qed.

Lemma add_transcript_no_directory session log d speaker text timestamp now :
  SessionManager.id session ∉ SessionManager.dirs d ->
  SessionManager.add_transcript speaker text timestamp now
    (SessionManager.mk (Some session) log) d
  = (Py.Raise SessionManager.no_such_directory,
     SessionManager.mk (Some session)
       (log ++ [SessionManager.entry speaker text timestamp]), d).
Proof.
  intros Hdir.
  unfold SessionManager.add_transcript, SessionManager._append_to_log,
    SessionManager.write_file.
  cbn [SessionManager._current_session SessionManager._transcript_log].
  now rewrite (bool_decide_eq_false_2 _ Hdir).
Qed.

Section LoopOutcomes.

Import AlterBackend.

Context {W M S : Type}.
Variable WhisperModel : W -> Py.str -> Py.str -> Py.str -> Py.result M * W.
Variable model_transcribe :
  W -> M -> list float -> Py.str -> Py.result (list Py.str) * W.
Variable score : S -> list float -> Z -> Py.result float * S.
Variable lower_table : Py.str -> nat -> Py.str.
Variable float_literal : float -> Py.str.

Abbreviation backend := (AlterBackend.t W M S).
Abbreviation handle := (handle_segment W M S float_literal).
Abbreviation round :=
  (transcription_round W M WhisperModel model_transcribe S score lower_table
     float_literal).
Abbreviation loop :=
  (_transcription_loop W M WhisperModel model_transcribe S score lower_table
     float_literal).
Abbreviation transcribe :=
  (TranscriptionEngine.transcribe_chunk W M WhisperModel model_transcribe S
     score lower_table).
Abbreviation transcribe_seq :=
  (TranscriptionEngine.transcribe_all W M WhisperModel model_transcribe S
     score lower_table).

(** A round, by what the queue holds and what the engine returns. *)
Lemma round_spec hub now (self : backend) w :
  match AudioCapture.audio_queue (audio_capture W M S self) with
  | [] => round hub now self w = (self, w)
  | chunk :: queue =>
      exists r engine w' evs,
        transcribe hub chunk (transcription_engine W M S self) w
        = (r, engine, w', evs)
        /\ round hub now self w
           = (let self1 :=
                mk W M S (session_manager W M S self) (sessions W M S self)
                  (utterances W M S self) engine
                  (AudioCapture.with_queue (audio_capture W M S self) queue)
                  (_ws W M S self) (sent W M S self) in
              match r with
              | Py.Ok (Some segment) => handle segment now self1
              | _ => self1
              end, w')
  end.
Proof.
  unfold transcription_round, AudioCapture.get_chunk.
  destruct (AudioCapture.audio_queue (audio_capture W M S self))
    as [|chunk queue]; [reflexivity|].
  destruct (transcribe hub chunk _ w) as [[[r engine] w'] evs].
  exists r, engine, w', evs. split; [reflexivity|].
  destruct r as [[segment|]|e]; reflexivity.
Qed.

(** The loop and the calls it makes, round by round: an invariant [P]
    of the backend that every handled segment and every change of
    engine and queue keeps, and a list [out] that every handled segment
    extends, hold at the end for the segments the calls returned. *)
Lemma loop_invariant
  (P : backend -> list TranscriptionEngine.TranscriptSegment -> Prop)
  (ok : TranscriptionEngine.TranscriptSegment -> bool)
  (good : Py.str -> bool) :
  (forall self done engine capture,
     P self done ->
     P (mk W M S (session_manager W M S self) (sessions W M S self)
          (utterances W M S self) engine capture (_ws W M S self)
          (sent W M S self)) done) ->
  (forall self done segment now,
     P self done -> ok segment = true -> good now = true ->
     P (handle segment now self) (done ++ [segment])) ->
  forall rounds (self : backend) w done results engine w' evs,
    P self done ->
    forallb (fun round => good (snd round)) rounds = true ->
    transcribe_seq
      (combine (map fst rounds)
         (AudioCapture.audio_queue (audio_capture W M S self)))
      (transcription_engine W M S self) w = (results, engine, w', evs) ->
    forallb ok (segments_of results) = true ->
    exists self',
      loop rounds self w = (self', w')
      /\ P self' (done ++ segments_of results).
Proof.
  intros Hframe Hhandle.
  induction rounds as [|[hub now] rounds IH];
    intros self w done results engine w' evs HP Hgood Hall Hok.
  - cbn in Hall. injection Hall as <- <- <- <-.
    exists self. cbn. now rewrite app_nil_r.
  - cbn [forallb snd] in Hgood. apply andb_true_iff in Hgood as [Hnow Hgood].
    cbn [_transcription_loop].
    pose proof (round_spec hub now self w) as Hround.
    cbn [map fst] in Hall.
    destruct (AudioCapture.audio_queue (audio_capture W M S self))
      as [|chunk queue] eqn:Equeue.
    + rewrite Hround.
      apply (IH self w done results engine w' evs HP Hgood); [|exact Hok].
      rewrite Equeue.
      replace (combine (map fst rounds) [])
        with (@nil (Py.result S * AudioCapture.AudioChunk))
        by (now destruct (map fst rounds)).
      exact Hall.
    + destruct Hround as (r & engine1 & w1 & evs1 & Ht & ->).
      cbn [combine TranscriptionEngine.transcribe_all] in Hall.
      rewrite Ht in Hall.
      destruct (transcribe_seq (combine (map fst rounds) queue) engine1 w1)
        as [[[rs engine2] w2] evs2] eqn:Hrest.
      injection Hall as <- <- <- <-.
      set (self1 := mk W M S (session_manager W M S self)
                      (sessions W M S self) (utterances W M S self) engine1
                      (AudioCapture.with_queue (audio_capture W M S self)
                         queue)
                      (_ws W M S self) (sent W M S self)).
      assert (HP1 : P self1 done) by (apply Hframe; exact HP).
      destruct r as [[segment|]|e].
      * cbn [segments_of forallb] in Hok.
        apply andb_true_iff in Hok as [Hseg Hok].
        destruct (handle_segment_spec float_literal segment now self1)
          as (He & Hc & _).
        destruct (IH (handle segment now self1) w1 (done ++ [segment]) rs
                    engine2 w2 evs2)
          as (self' & Hloop & HP').
        -- now apply Hhandle.
        -- exact Hgood.
        -- rewrite He, Hc. exact Hrest.
        -- exact Hok.
        -- exists self'. split; [exact Hloop|].
           cbn [segments_of]. now rewrite <- app_assoc in HP'.
      * apply (IH self1 w1 done rs engine2 w2 evs2 HP1 Hgood Hrest Hok).
      * apply (IH self1 w1 done rs engine2 w2 evs2 HP1 Hgood Hrest Hok).
Qed.

End LoopOutcomes.

(** The disk after a line has joined the transcript of a stored session
    and its metadata has been rewritten. *)
Lemma transcript_after_append session now d speaker text timestamp old :
  SessionManager.stored session d ->
  SessionManager.encodable now = true ->
  Json.number_literal timestamp = true ->
  SessionManager.ends_lines
    (SessionManager.transcript_text (SessionManager.id session) d) = true ->
  SessionManager._load_transcript (SessionManager.id session) d
  = Py.Ok old ->
  SessionManager.stored (SessionManager.touched session now)
    (SessionManager.mkDisk (SessionManager.dirs d)
       (<[(SessionManager.id session, SessionManager.metadata_json)
          := concat (SessionManager.metadata_chunks
                       (SessionManager.touched session now))]>
          (<[(SessionManager.id session, SessionManager.transcript_jsonl)
             := SessionManager.transcript_text (SessionManager.id session) d
                ++ Json.dumps (SessionManager.entry speaker text timestamp)
                ++ [Json.newline]]>
             (SessionManager.files d))))
  /\ SessionManager.ends_lines
       (SessionManager.transcript_text (SessionManager.id session)
          (SessionManager.mkDisk (SessionManager.dirs d)
             (<[(SessionManager.id session, SessionManager.metadata_json)
                := concat (SessionManager.metadata_chunks
                             (SessionManager.touched session now))]>
                (<[(SessionManager.id session,
                    SessionManager.transcript_jsonl)
                   := SessionManager.transcript_text
                        (SessionManager.id session) d
                      ++ Json.dumps
                           (SessionManager.entry speaker text timestamp)
                      ++ [Json.newline]]>
                   (SessionManager.files d))))) = true
  /\ SessionManager._load_transcript (SessionManager.id session)
       (SessionManager.mkDisk (SessionManager.dirs d)
          (<[(SessionManager.id session, SessionManager.metadata_json)
             := concat (SessionManager.metadata_chunks
                          (SessionManager.touched session now))]>
             (<[(SessionManager.id session, SessionManager.transcript_jsonl)
                := SessionManager.transcript_text
                     (SessionManager.id session) d
                   ++ Json.dumps
                        (SessionManager.entry speaker text timestamp)
                   ++ [Json.newline]]>
                (SessionManager.files d))))
     = Py.Ok (old ++ [SessionManager.entry speaker text timestamp]).
Proof.
  intros (Hdir & _ & Henc) Hnow Hlit Hends Hload.
  destruct (dumps_entry_shape speaker text timestamp Hlit)
    as (body & Hshape & Hbody).
  assert (Hline : SessionManager.no_breaks
                    (Json.dumps (SessionManager.entry speaker text
                                   timestamp)) = true).
  { rewrite Hshape. change (123%N :: ?x) with ([123%N] ++ x).
    now rewrite !no_breaks_app, Hbody. }
  split; [now apply stored_touched|]. split.
  - rewrite transcript_text_after. apply ends_lines_append.
  - rewrite load_transcript_text, transcript_text_after.
    rewrite readlines_append by assumption.
    rewrite load_lines_app, <- load_transcript_text, Hload.
    cbn [Py.bind]. now apply load_entry_line.
Qed.

(** X18: once the directory of the current session is gone, the
    transcription loop goes quiet without stopping.  Whatever the
    rounds, the queue and the engine do, the loop runs through; the
    current session stays the current one, but nothing is written to
    the disk, nothing is recorded in the learning store, and no
    "transcript" message is handed to the socket: the exception of
    [add_transcript] ends each such round before those steps. *)
Theorem lost_directory_silences_loop :
  forall (W M S : Type)
         (WhisperModel : W -> Py.str -> Py.str -> Py.str -> Py.result M * W)
         (model_transcribe :
            W -> M -> list float -> Py.str -> Py.result (list Py.str) * W)
         (score : S -> list float -> Z -> Py.result float * S)
         (lower_table : Py.str -> nat -> Py.str)
         (float_literal : float -> Py.str)
         (rounds : list (Py.result S * Py.str))
         (self : AlterBackend.t W M S) (w : W) session,
    SessionManager._current_session (AlterBackend.session_manager W M S self)
    = Some session ->
    SessionManager.id session
      ∉ SessionManager.dirs (AlterBackend.sessions W M S self) ->
    exists self' w',
      AlterBackend._transcription_loop W M WhisperModel model_transcribe S
        score lower_table float_literal rounds self w = (self', w')
      /\ AlterBackend.sessions W M S self' = AlterBackend.sessions W M S self
      /\ AlterBackend.utterances W M S self'
         = AlterBackend.utterances W M S self
      /\ AlterBackend.sent W M S self' = AlterBackend.sent W M S self
      /\ SessionManager._current_session
           (AlterBackend.session_manager W M S self') = Some session.
Proof.
  intros W M S WhisperModel model_transcribe score lower_table float_literal
    rounds self w session Hcur Hdir.
  destruct (TranscriptionEngine.transcribe_all W M WhisperModel
              model_transcribe S score lower_table
              (combine (map fst rounds)
                 (AudioCapture.audio_queue
                    (AlterBackend.audio_capture W M S self)))
              (AlterBackend.transcription_engine W M S self) w)
    as [[[results engine] w'] evs] eqn:Hall.
  destruct (loop_invariant WhisperModel model_transcribe score lower_table
              float_literal
              (fun self' _ =>
                 SessionManager._current_session
                   (AlterBackend.session_manager W M S self') = Some session
                 /\ AlterBackend.sessions W M S self'
                    = AlterBackend.sessions W M S self
                 /\ AlterBackend.utterances W M S self'
                    = AlterBackend.utterances W M S self
                 /\ AlterBackend.sent W M S self'
                    = AlterBackend.sent W M S self)
              (fun _ => true) (fun _ => true))
    with (rounds := rounds) (self := self) (w := w) (done := @nil TranscriptionEngine.TranscriptSegment)
         (results := results) (engine := engine) (w' := w') (evs := evs)
    as (self' & Hloop & Hc & Hd & Hu & Hs).
  - intros self0 done engine0 capture0 H. exact H.
  - intros self0 done segment now (Hc & Hd & Hu & Hs) _ _.
    unfold AlterBackend.handle_segment.
    destruct (AlterBackend.session_manager W M S self0) as [cur log].
    cbn in Hc. subst cur.
    rewrite add_transcript_no_directory by (rewrite Hd; exact Hdir).
    cbn. auto.
  - auto.
  - clear. induction rounds as [|round rounds IH]; cbn; auto.
  - exact Hall.
  - clear. induction (AlterBackend.segments_of results); cbn; auto.
  - exists self', w'. auto.
Qed.

Lemma lost_directory_silences_loop_witness :
  exists self' w',
    Doubles.run_loop (SessionManager.mkDisk ∅ ∅) = (self', w')
    /\ AlterBackend.sessions unit Py.str unit self'
       = SessionManager.mkDisk ∅ ∅
    /\ AlterBackend.sent unit Py.str unit self' = []
    /\ length (SessionManager._transcript_log
                 (AlterBackend.session_manager unit Py.str unit self'))
       = 1%nat.
Proof.
  destruct (lost_directory_silences_loop unit Py.str unit
              Doubles.WhisperModel Doubles.model_transcribe
              Doubles.energy_score Doubles.plain_table Doubles.literal
              Doubles.loop_rounds
              (Doubles.backend (SessionManager.mkDisk ∅ ∅)) tt
              Doubles.session eq_refl (not_elem_of_empty _))
    as (self' & w' & Hloop & Hd & _ & Hs & _).
  exists self', w'. split; [exact Hloop|]. split; [exact Hd|].
  split; [exact Hs|].
  pose proof Hloop as Hl. unfold Doubles.run_loop in Hl.
  vm_compute in Hl. injection Hl as <- _. reflexivity.
Defined.

(** X19: what the front end is told is what was stored.  With a socket
    connected and a stored current session whose transcript file ends
    with a newline (or is empty or absent) and loads as [old], when the
    segments the engine returns for the queued chunks are storable and
    the clock readings are text the codec accepts, the loop hands to the
    socket exactly one "transcript" message per returned segment, in
    order, and afterwards the transcript file of the session loads as
    [old] followed by the entries of those segments, the same entries
    by which the in-memory log has grown. *)
Theorem loop_announces_what_it_stores :
  forall (W M S : Type)
         (WhisperModel : W -> Py.str -> Py.str -> Py.str -> Py.result M * W)
         (model_transcribe :
            W -> M -> list float -> Py.str -> Py.result (list Py.str) * W)
         (score : S -> list float -> Z -> Py.result float * S)
         (lower_table : Py.str -> nat -> Py.str)
         (float_literal : float -> Py.str)
         (rounds : list (Py.result S * Py.str))
         (self : AlterBackend.t W M S) (w : W) session old results engine w'
         evs,
    AlterBackend._ws W M S self = true ->
    SessionManager._current_session (AlterBackend.session_manager W M S self)
    = Some session ->
    SessionManager.stored session (AlterBackend.sessions W M S self) ->
    SessionManager.ends_lines
      (SessionManager.transcript_text (SessionManager.id session)
         (AlterBackend.sessions W M S self)) = true ->
    SessionManager._load_transcript (SessionManager.id session)
      (AlterBackend.sessions W M S self) = Py.Ok old ->
    forallb (fun round => SessionManager.encodable (snd round)) rounds
    = true ->
    TranscriptionEngine.transcribe_all W M WhisperModel model_transcribe S
      score lower_table
      (combine (map fst rounds)
         (AudioCapture.audio_queue (AlterBackend.audio_capture W M S self)))
      (AlterBackend.transcription_engine W M S self) w
    = (results, engine, w', evs) ->
    forallb (AlterBackend.storable float_literal)
      (AlterBackend.segments_of results) = true ->
    exists self',
      AlterBackend._transcription_loop W M WhisperModel model_transcribe S
        score lower_table float_literal rounds self w = (self', w')
      /\ AlterBackend.sent W M S self'
         = AlterBackend.sent W M S self
           ++ map (AlterBackend.transcript_message float_literal)
                (AlterBackend.segments_of results)
      /\ SessionManager._load_transcript (SessionManager.id session)
           (AlterBackend.sessions W M S self')
         = Py.Ok (old ++ map (AlterBackend.entry_of float_literal)
                           (AlterBackend.segments_of results))
      /\ SessionManager._transcript_log
           (AlterBackend.session_manager W M S self')
         = SessionManager._transcript_log
             (AlterBackend.session_manager W M S self)
           ++ map (AlterBackend.entry_of float_literal)
                (AlterBackend.segments_of results).
Proof.
  intros W M S WhisperModel model_transcribe score lower_table float_literal
    rounds self w session old results engine w' evs
    Hws Hcur Hst Hends Hload Hgood Hall Hok.
  destruct (loop_invariant WhisperModel model_transcribe score lower_table
              float_literal
              (fun self' done =>
                 AlterBackend._ws W M S self' = true
                 /\ AlterBackend.sent W M S self'
                    = AlterBackend.sent W M S self
                      ++ map (AlterBackend.transcript_message float_literal)
                           done
                 /\ SessionManager._transcript_log
                      (AlterBackend.session_manager W M S self')
                    = SessionManager._transcript_log
                        (AlterBackend.session_manager W M S self)
                      ++ map (AlterBackend.entry_of float_literal) done
                 /\ exists current,
                      SessionManager._current_session
                        (AlterBackend.session_manager W M S self')
                      = Some current
                      /\ SessionManager.id current
                         = SessionManager.id session
                      /\ SessionManager.stored current
                           (AlterBackend.sessions W M S self')
                      /\ SessionManager.ends_lines
                           (SessionManager.transcript_text
                              (SessionManager.id session)
                              (AlterBackend.sessions W M S self')) = true
                      /\ SessionManager._load_transcript
                           (SessionManager.id session)
                           (AlterBackend.sessions W M S self')
                         = Py.Ok (old
                                    ++ map (AlterBackend.entry_of
                                              float_literal) done))
              (AlterBackend.storable float_literal)
              SessionManager.encodable)
    with (rounds := rounds) (self := self) (w := w) (done := @nil TranscriptionEngine.TranscriptSegment)
         (results := results) (engine := engine) (w' := w') (evs := evs)
    as (self' & Hloop & _ & Hsent & Hlog & _ & _ & _ & _ & _ & Hload').
  - intros self0 done engine0 capture0 H. exact H.
  - intros self0 done segment now
      (Hws0 & Hsent0 & Hlog0 & current & Hcur0 & Hid0 & Hst0 & Hends0
       & Hload0) Hseg Hnow.
    unfold AlterBackend.storable in Hseg.
    apply andb_true_iff in Hseg as [Hseg Hlit].
    apply andb_true_iff in Hseg as [Hs Ht].
    destruct (scan_number_chars _ _ _ (number_literal_spec _ Hlit))
      as (Hchars & _).
    rewrite <- Hid0 in Hends0, Hload0.
    destruct (transcript_after_append current now
                (AlterBackend.sessions W M S self0)
                (TranscriptionEngine.speaker segment)
                (TranscriptionEngine.text segment)
                (float_literal (TranscriptionEngine.seg_timestamp segment))
                _ Hst0 Hnow Hlit Hends0 Hload0)
      as (Hst1 & Hends1 & Hload1).
    unfold AlterBackend.handle_segment.
    rewrite (add_transcript_stored _ _ _ now _ _ current Hcur0 Hst0 Hs Ht
               (number_encodable _ Hchars) Hnow).
    unfold AlterBackend.send_message. cbn [AlterBackend._ws]. rewrite Hws0.
    cbn [AlterBackend._ws AlterBackend.sent AlterBackend.session_manager
         AlterBackend.sessions SessionManager._transcript_log
         SessionManager._current_session].
    split; [reflexivity|].
    split; [now rewrite Hsent0, map_app, app_assoc|].
    split; [now rewrite Hlog0, map_app, app_assoc|].
    exists (SessionManager.touched current now).
    split; [reflexivity|]. split; [exact Hid0|]. split; [exact Hst1|].
    rewrite <- Hid0. split; [exact Hends1|].
    rewrite map_app, (app_assoc old). exact Hload1.
  - cbn [map]. rewrite !app_nil_r. split; [exact Hws|].
    split; [reflexivity|]. split; [reflexivity|].
    exists session. auto.
  - exact Hgood.
  - exact Hall.
  - exact Hok.
  - exists self'. cbn [app] in Hsent, Hlog, Hload'. auto.
Qed.

Lemma loop_announces_what_it_stores_witness :
  exists self',
    Doubles.run_loop Doubles.disk = (self', tt)
    /\ length (AlterBackend.sent unit Py.str unit self') = 1%nat
    /\ SessionManager._load_transcript Doubles.session_id
         (AlterBackend.sessions unit Py.str unit self')
       = Py.Ok (SessionManager._transcript_log
                  (AlterBackend.session_manager unit Py.str unit self')).
Proof.
  destruct (TranscriptionEngine.transcribe_all unit Py.str
              Doubles.WhisperModel Doubles.model_transcribe unit
              Doubles.energy_score Doubles.plain_table
              (combine (map fst Doubles.loop_rounds)
                 (AudioCapture.audio_queue
                    (AlterBackend.audio_capture unit Py.str unit
                       (Doubles.backend Doubles.disk))))
              (AlterBackend.transcription_engine unit Py.str unit
                 (Doubles.backend Doubles.disk)) tt)
    as [[[results engine] w'] evs] eqn:Hall.
  pose proof Hall as Hall'. vm_compute in Hall'.
  injection Hall' as <- <- <- <-.
  destruct (loop_announces_what_it_stores unit Py.str unit
              Doubles.WhisperModel Doubles.model_transcribe
              Doubles.energy_score Doubles.plain_table Doubles.literal
              Doubles.loop_rounds (Doubles.backend Doubles.disk) tt
              Doubles.session [] _ _ _ _ eq_refl eq_refl stored_doubles
              eq_refl eq_refl eq_refl Hall eq_refl)
    as (self' & Hloop & Hsent & Hload & Hlog).
  exists self'. split; [exact Hloop|]. split.
  - rewrite Hsent. reflexivity.
  - change Doubles.session_id with (SessionManager.id Doubles.session).
    rewrite Hload, Hlog. reflexivity.
Defined.

(** ** The learning store *)

(** The scanner reads back the line [record] writes for an
    utterance. *)
Lemma scan_once_utterance utterance fuel :
  Json.number_literal (LearningStore.timestamp utterance) = true ->
  Json.scan_once (6 + fuel) (Json.dumps (LearningStore.asdict utterance))
  = Some (LearningStore.asdict utterance, []).
Proof.
  destruct utterance as [text timestamp session_id context].
  cbn [LearningStore.timestamp]. intros Hlit.
  unfold LearningStore.asdict.
  cbn [Json.dumps map Py.join fst snd LearningStore.text
       LearningStore.timestamp LearningStore.session_id
       LearningStore.context].
  change (6 + fuel)%nat with (Datatypes.S (Datatypes.S (4 + fuel))).
  cbn [Json.scan_once].
  change (123 =? Json.quote)%N with false.
  change (123 =? 123)%N with true. cbv iota.
  rewrite <- !app_assoc.
  set (k1 := Py.of_string "text"). set (k2 := Py.of_string "timestamp").
  set (k3 := Py.of_string "session_id"). set (k4 := Py.of_string "context").
  assert (Hskip : forall k rest,
            Json.skip_ws (Json.encode_string k ++ rest)
            = Json.encode_string k ++ rest) by reflexivity.
  rewrite Hskip.
  change (Json.encode_string k1 ++ ?x)
    with (Json.quote :: (flat_map Json.escape_char k1 ++ [Json.quote]) ++ x).
  cbv iota. change (Json.quote =? 125)%N with false. cbv iota.
  change (Json.quote :: (flat_map Json.escape_char k1 ++ [Json.quote]) ++ ?x)
    with (Json.encode_string k1 ++ x).
  change (Json.encode_string text) with (Json.dumps (Json.Str text)).
  change (Json.encode_string session_id)
    with (Json.dumps (Json.Str session_id)).
  change (Json.encode_string context) with (Json.dumps (Json.Str context)).
  change timestamp with (Json.dumps (Json.Num timestamp)) at 1.
  rewrite scan_members_step;
    [|apply scan_once_string | reflexivity].
  change (Py.of_string ", " ++ ?x) with (44%N :: 32%N :: x).
  cbn [Json.skip_ws]. change (Json.is_ws 44) with false. cbv iota.
  change (44 =? 125)%N with false. change (44 =? 44)%N with true. cbv iota.
  change (Json.skip_ws (32%N :: ?x)) with (Json.skip_ws x).
  rewrite Hskip.
  change (4 + fuel)%nat with (Datatypes.S (3 + fuel)).
  destruct (scan_number_chars _ _ _ (number_literal_spec _ Hlit))
    as (_ & x & ts' & Hts & Hx).
  assert (Hws : Json.is_ws x = false).
  { unfold Json.is_ws, Json.is_digit in *.
    destruct Hx as [Hx| ->]; [|reflexivity].
    apply andb_true_iff in Hx as [H1 H2]. apply N.leb_le in H1, H2.
    rewrite !(proj2 (N.eqb_neq x _)) by lia. reflexivity. }
  rewrite scan_members_step;
    [| cbn [Json.dumps]; change (Py.of_string ", " ++ ?x)
                            with (44%N :: 32%N :: x);
       now apply scan_once_number
     | cbn [Json.dumps]; rewrite Hts; cbn [app Json.skip_ws];
       now rewrite Hws].
  change (Py.of_string ", " ++ ?x) with (44%N :: 32%N :: x).
  cbn [Json.skip_ws]. change (Json.is_ws 44) with false. cbv iota.
  change (44 =? 125)%N with false. change (44 =? 44)%N with true. cbv iota.
  change (Json.skip_ws (32%N :: ?x)) with (Json.skip_ws x).
  rewrite Hskip.
  change (3 + fuel)%nat with (Datatypes.S (2 + fuel)).
  rewrite scan_members_step;
    [|apply scan_once_string | reflexivity].
  change (Py.of_string ", " ++ ?x) with (44%N :: 32%N :: x).
  cbn [Json.skip_ws]. change (Json.is_ws 44) with false. cbv iota.
  change (44 =? 125)%N with false. change (44 =? 44)%N with true. cbv iota.
  change (Json.skip_ws (32%N :: ?x)) with (Json.skip_ws x).
  rewrite Hskip.
  change (2 + fuel)%nat with (Datatypes.S (1 + fuel)).
  rewrite scan_members_step;
    [reflexivity | apply scan_once_string | reflexivity].
Qed.

(** [json.loads] gives back the [dict] [json.dumps] wrote for an
    utterance. *)
Lemma loads_dumps_utterance utterance :
  Json.number_literal (LearningStore.timestamp utterance) = true ->
  Json.loads (Json.dumps (LearningStore.asdict utterance))
  = Py.Ok (LearningStore.asdict utterance).
Proof.
  intros Hlit. unfold Json.loads.
  set (line := Json.dumps (LearningStore.asdict utterance)).
  assert (Hskip : Json.skip_ws line = line) by reflexivity.
  assert (Hlen : (5 <= length line)%nat).
  { unfold line, LearningStore.asdict.
    cbn [Json.dumps map Py.join fst snd].
    cbn [length]. rewrite !length_app. simpl. lia. }
  destruct (Nat.le_exists_sub 5 (length line) Hlen) as (g & Hg & _).
  rewrite Hskip, Hg.
  replace (Datatypes.S (g + 5)) with (6 + g)%nat by lia.
  unfold line. now rewrite scan_once_utterance.
Qed.

Lemma dumps_utterance_shape utterance :
  Json.number_literal (LearningStore.timestamp utterance) = true ->
  exists body,
    Json.dumps (LearningStore.asdict utterance) = 123%N :: body ++ [125%N]
    /\ SessionManager.no_breaks body = true.
Proof.
  intros Hlit. eexists. split.
  - unfold LearningStore.asdict. cbn [Json.dumps]. reflexivity.
  - cbn [map Py.join fst snd Json.dumps]. rewrite !no_breaks_app.
    rewrite !encode_string_no_breaks.
    destruct (scan_number_chars _ _ _ (number_literal_spec _ Hlit))
      as (Hch & _).
    now rewrite (number_no_breaks _ Hch).
Qed.

(** [UserUtterance] built from the [dict] of an utterance is that
    utterance. *)
Lemma construct_utterance utterance :
  LearningStore.construct (LearningStore.asdict utterance)
  = Some (Py.Ok utterance).
Proof. now destruct utterance. Qed.

(** The line of a storable utterance is accepted by the codec, holds no
    line break, and is written whole. *)
Lemma record_storable utterance file :
  LearningStore.storable utterance = true ->
  LearningStore.record utterance file
  = Some (default [] file
            ++ Json.dumps (LearningStore.asdict utterance)
            ++ [Json.newline]).
Proof.
  unfold LearningStore.storable, LearningStore.record.
  rewrite !andb_true_iff. intros [[[Ht Hlit] Hs] Hc].
  destruct (scan_number_chars _ _ _ (number_literal_spec _ Hlit))
    as (Hchars & _).
  replace (SessionManager.encodable
             (Json.dumps (LearningStore.asdict utterance) ++ [Json.newline]))
    with true; [reflexivity|].
  symmetry. unfold LearningStore.asdict.
  cbn [Json.dumps map Py.join fst snd].
  change (123%N :: ?x) with ([123%N] ++ x).
  rewrite !encodable_app.
  rewrite !encode_string_encodable by (assumption || reflexivity).
  now rewrite (number_encodable _ Hchars).
Qed.

Lemma load_examples_app l1 l2 : forall utterances,
  LearningStore.load_examples (l1 ++ l2) utterances
  = match LearningStore.load_examples l1 utterances with
    | Some (Py.Ok utterances') => LearningStore.load_examples l2 utterances'
    | other => other
    end.
Proof.
  induction l1 as [|line l1 IH]; intros utterances; [reflexivity|].
  cbn [app LearningStore.load_examples].
  destruct (Py.is_empty (Py.strip line)); [apply IH|].
  destruct (Json.loads (Py.strip line)) as [data|e]; [|reflexivity].
  destruct (LearningStore.construct data) as [[utterance|e]|];
    [apply IH|reflexivity|reflexivity].
Qed.

(** The line of an utterance reads back as the utterance. *)
Lemma load_example_line utterance utterances :
  Json.number_literal (LearningStore.timestamp utterance) = true ->
  LearningStore.load_examples
    [Json.dumps (LearningStore.asdict utterance) ++ [Json.newline]]
    utterances
  = Some (Py.Ok (utterances ++ [utterance])).
Proof.
  intros Hlit. cbn [LearningStore.load_examples].
  destruct (dumps_utterance_shape utterance Hlit) as (body & Hshape & _).
  assert (Hstrip : Py.strip
            (Json.dumps (LearningStore.asdict utterance) ++ [Json.newline])
          = Json.dumps (LearningStore.asdict utterance)).
  { rewrite Hshape. cbn [app]. rewrite <- app_assoc. cbn [app].
    now apply strip_wrapped. }
  rewrite Hstrip, loads_dumps_utterance by exact Hlit.
  rewrite Hshape at 1. cbn [Py.is_empty].
  now rewrite construct_utterance.
Qed.

(** The lines of storable utterances read back as the utterances. *)
Lemma load_example_lines us : forall utterances,
  forallb LearningStore.storable us = true ->
  LearningStore.load_examples
    (map (fun u => Json.dumps (LearningStore.asdict u) ++ [Json.newline]) us)
    utterances
  = Some (Py.Ok (utterances ++ us)).
Proof.
  induction us as [|u us IH]; intros utterances Hus.
  - cbn. now rewrite app_nil_r.
  - cbn [forallb] in Hus. apply andb_true_iff in Hus as [Hu Hus].
    change (map ?f (u :: us)) with ([f u] ++ map f us).
    rewrite load_examples_app, load_example_line.
    + rewrite IH by exact Hus. now rewrite <- app_assoc.
    + unfold LearningStore.storable in Hu.
      now rewrite !andb_true_iff in Hu.
Qed.

(** The file after storable utterances have been recorded: what it
    held, then one line for each. *)
Lemma records_lines us : forall file,
  forallb LearningStore.storable us = true ->
  SessionManager.ends_lines (default [] file) = true ->
  us <> [] ->
  exists text,
    LearningStore.records us file = Some text
    /\ SessionManager.ends_lines text = true
    /\ SessionManager.readlines text
       = SessionManager.readlines (default [] file)
         ++ map (fun u => Json.dumps (LearningStore.asdict u)
                          ++ [Json.newline]) us.
Proof.
  induction us as [|u us IH]; intros file Hus Hends Hne; [contradiction|].
  cbn [forallb] in Hus. apply andb_true_iff in Hus as [Hu Hus].
  unfold LearningStore.records. cbn [fold_left].
  rewrite (record_storable u file Hu).
  assert (Hlit : Json.number_literal (LearningStore.timestamp u) = true).
  { unfold LearningStore.storable in Hu. now rewrite !andb_true_iff in Hu. }
  destruct (dumps_utterance_shape u Hlit) as (body & Hshape & Hbody).
  assert (Hline : SessionManager.no_breaks
                    (Json.dumps (LearningStore.asdict u)) = true).
  { rewrite Hshape. change (123%N :: ?x) with ([123%N] ++ x).
    now rewrite !no_breaks_app, Hbody. }
  pose proof (readlines_append (default [] file) _ Hends Hline) as Hread.
  pose proof (ends_lines_append (default [] file)
                (Json.dumps (LearningStore.asdict u))) as Hends'.
  destruct us as [|u' us].
  - eexists. split; [reflexivity|]. split; [exact Hends'|exact Hread].
  - destruct (IH (Some (default [] file
                          ++ Json.dumps (LearningStore.asdict u)
                          ++ [Json.newline])) Hus Hends')
      as (text & Htext & Hends'' & Hlines); [discriminate|].
    exists text. split; [exact Htext|]. split; [exact Hends''|].
    change (default [] (Some ?x)) with x in Hlines.
    rewrite Hlines, Hread, <- app_assoc. reflexivity.
Qed.

(** [l[lo:]] is [l] without its first elements. *)
Lemma slice_from_drops {A} (l : list A) lo :
  Py.slice_from l lo = skipn (Py.clamp_index (Z.of_nat (length l)) lo) l.
Proof.
  unfold Py.slice_from, Py.slice.
  assert (Hfull : Py.clamp_index (Z.of_nat (length l)) (Z.of_nat (length l))
                  = length l).
  { unfold Py.clamp_index.
    destruct (Z.ltb_spec (Z.of_nat (length l)) 0); lia. }
  apply firstn_all2. rewrite length_skipn, Hfull. lia.
Qed.

(** A newline at the end of a line does not change what [strip]
    leaves of it. *)
Lemma strip_newline s : Py.strip (s ++ [Json.newline]) = Py.strip s.
Proof.
  unfold Py.strip, Py.rstrip.
  destruct (lstrip_split s) as (ws & Hs & Hws).
  destruct (Py.lstrip s) as [|c r] eqn:El.
  - rewrite app_nil_r in Hs. subst ws.
    rewrite lstrip_all by exact Hws. reflexivity.
  - rewrite Hs at 1. rewrite <- app_assoc, lstrip_all by exact Hws.
    cbn [app Py.lstrip]. rewrite (lstrip_head _ _ _ El).
    change (c :: r ++ [Json.newline]) with ((c :: r) ++ [Json.newline]).
    rewrite rev_app_distr. reflexivity.
Qed.

(** X20: what [record] stores, [get_recent_examples] gives back.
    After storable utterances have been recorded, one call of [record]
    each, into a file that was absent, empty or ended with a newline,
    [get_recent_examples(n)] returns the last [n] of them, in the order
    of their recording, for every [n] from 1 to their number, whatever
    the file held before. *)
Theorem recent_examples_are_last_recorded :
  forall (us : list LearningStore.UserUtterance) (file : option Py.str)
         (n : Z),
    forallb LearningStore.storable us = true ->
    SessionManager.ends_lines (default [] file) = true ->
    1 <= n <= Z.of_nat (length us) ->
    LearningStore.get_recent_examples n (LearningStore.records us file)
    = Some (skipn (length us - Z.to_nat n) us).
Proof.
  intros us file n Hus Hends Hn.
  destruct (records_lines us file Hus Hends) as (text & -> & _ & Hlines).
  { intros ->. cbn in Hn. lia. }
  unfold LearningStore.get_recent_examples. rewrite Hlines.
  set (old := SessionManager.readlines (default [] file)).
  set (line := fun u : LearningStore.UserUtterance =>
                 Json.dumps (LearningStore.asdict u) ++ [Json.newline]).
  rewrite (proj2 (Z.leb_le _ _))
    by (rewrite length_app, length_map; lia).
  rewrite slice_from_drops, length_app, length_map.
  unfold Py.clamp_index. rewrite (proj2 (Z.ltb_lt (- n) 0)) by lia.
  replace (Z.to_nat
             (Z.max (Z.of_nat (length old + length us) + - n) 0))
    with (length old + (length us - Z.to_nat n))%nat by lia.
  rewrite skipn_app, skipn_all2 by lia. cbn [app].
  replace (length old + (length us - Z.to_nat n) - length old)%nat
    with (length us - Z.to_nat n)%nat by lia.
  rewrite skipn_map.
  rewrite <- (firstn_skipn (length us - Z.to_nat n) us) in Hus.
  rewrite forallb_app in Hus. apply andb_true_iff in Hus as [_ Hus].
  unfold line. now rewrite (load_example_lines _ [] Hus).
Qed.

Lemma recent_examples_are_last_recorded_witness :
  LearningStore.get_recent_examples 2
    (LearningStore.records Doubles.said None)
  = Some (skipn 1 Doubles.said).
Proof.
  apply (recent_examples_are_last_recorded Doubles.said None 2).
  - vm_compute. reflexivity.
  - reflexivity.
  - vm_compute. split; discriminate.
Defined.

(** X21: asked for no example, [get_recent_examples] returns them all.
    With [n = 0] the slice of the last [n] lines starts at index [-0],
    the first line: after storable utterances have been recorded into a
    store without a file, [get_recent_examples(0)] returns every one of
    them. *)
Theorem zero_examples_requested_gives_all :
  forall (us : list LearningStore.UserUtterance),
    forallb LearningStore.storable us = true ->
    LearningStore.get_recent_examples 0 (LearningStore.records us None)
    = Some us.
Proof.
  intros us Hus. destruct us as [|u us]; [reflexivity|].
  destruct (records_lines (u :: us) None Hus eq_refl)
    as (text & Htext & _ & Hlines); [discriminate|].
  change (@None Py.str) with (@None (list N)). rewrite Htext.
  unfold LearningStore.get_recent_examples. rewrite Hlines.
  change (SessionManager.readlines (default [] None)) with (@nil Py.str).
  cbn [app].
  rewrite (proj2 (Z.leb_le _ _)) by lia.
  rewrite slice_from_drops. change (- 0) with 0.
  unfold Py.clamp_index. change (0 <? 0) with false. cbv iota.
  rewrite Z.min_l by lia. change (Z.to_nat 0) with 0%nat. rewrite skipn_O.
  now rewrite (load_example_lines _ [] Hus).
Qed.

Lemma zero_examples_requested_gives_all_witness :
  LearningStore.get_recent_examples 0
    (LearningStore.records Doubles.said None)
  = Some Doubles.said.
Proof.
  apply (zero_examples_requested_gives_all Doubles.said).
  vm_compute. reflexivity.
Defined.

(** X22: one unreadable line at the end of the file hides every
    example.  When the last line of [utterances.jsonl] is not blank and
    is not JSON (a write cut short, say), [get_recent_examples] returns
    no example at all, for every [n] and whatever valid lines come
    before: the exception of that one line empties the answer. *)
Theorem unreadable_last_line_hides_examples :
  forall (n : Z) (text bad e : Py.str)
         (examples : list LearningStore.UserUtterance),
    SessionManager.ends_lines text = true ->
    SessionManager.no_breaks bad = true ->
    Py.is_empty (Py.strip bad) = false ->
    Json.loads (Py.strip bad) = Py.Raise e ->
    LearningStore.get_recent_examples n
      (Some (text ++ bad ++ [Json.newline])) = Some examples ->
    examples = [].
Proof.
  intros n text bad e examples Hends Hbad Hne Hloads.
  unfold LearningStore.get_recent_examples.
  rewrite (readlines_append text bad Hends Hbad).
  set (old := SessionManager.readlines text).
  set (last := bad ++ [Json.newline]).
  assert (Hsuffix : forall k,
            match LearningStore.load_examples (skipn k (old ++ [last])) []
            with
            | Some (Py.Ok examples) => examples = []
            | _ => True
            end).
  { intros k. rewrite skipn_app.
    destruct (Nat.le_gt_cases k (length old)) as [Hk|Hk].
    - replace (k - length old)%nat with 0%nat by lia. rewrite skipn_O.
      rewrite load_examples_app.
      destruct (LearningStore.load_examples (skipn k old) [])
        as [[us|e1]|]; [|exact I|exact I].
      cbn [LearningStore.load_examples]. unfold last.
      now rewrite strip_newline, Hne, Hloads.
    - rewrite (skipn_all2 old) by lia.
      rewrite skipn_all2 by (cbn [length]; lia). exact eq_refl. }
  pose proof (Hsuffix 0%nat) as Hwhole. rewrite skipn_O in Hwhole.
  rewrite slice_from_drops.
  specialize (Hsuffix (Py.clamp_index
                         (Z.of_nat (length (old ++ [last]))) (- n))).
  destruct (n <=? Z.of_nat (length (old ++ [last]))).
  - clear Hwhole. revert Hsuffix.
    destruct (LearningStore.load_examples _ []) as [[us|e1]|].
    + intros Hus [= <-]. exact Hus.
    + intros _ [= <-]. reflexivity.
    + discriminate.
  - clear Hsuffix. revert Hwhole.
    destruct (LearningStore.load_examples _ []) as [[us|e1]|].
    + intros Hus [= <-]. exact Hus.
    + intros _ [= <-]. reflexivity.
    + discriminate.
Qed.

Lemma unreadable_last_line_hides_examples_witness :
  LearningStore.get_recent_examples 5
    (Some (default [] (LearningStore.records Doubles.said None)
             ++ Py.of_string "{'text': 'cut sh" ++ [Json.newline]))
  = Some [].
Proof.
  destruct (LearningStore.get_recent_examples 5
              (Some (default [] (LearningStore.records Doubles.said None)
                       ++ Py.of_string "{'text': 'cut sh"
                       ++ [Json.newline])))
    as [examples|] eqn:Hget.
  - f_equal.
    apply (unreadable_last_line_hides_examples 5
             (default [] (LearningStore.records Doubles.said None))
             (Py.of_string "{'text': 'cut sh")
             (Py.of_string "Expecting value") examples);
      [vm_compute; reflexivity | vm_compute; reflexivity
      | vm_compute; reflexivity | vm_compute; reflexivity | exact Hget].
  - vm_compute in Hget. discriminate.
Defined.

(** ** The sessions on the disk *)

Lemma str_leb_refl a : Py.str_leb a a = true.
Proof.
  induction a as [|x a IH]; [reflexivity|]. cbn [Py.str_leb].
  now rewrite N.eqb_refl, IH, orb_true_r.
Qed.

Lemma str_leb_total a : forall b,
  Py.str_leb a b = true \/ Py.str_leb b a = true.
Proof.
  induction a as [|x a IH]; intros [|y b]; cbn [Py.str_leb]; auto.
  destruct (N.ltb_spec x y), (N.ltb_spec y x), (N.eqb_spec x y),
    (N.eqb_spec y x); cbn [orb andb]; auto; try lia.
Qed.

(** Sorting keeps the names. *)
Lemma insert_reverse_In key name x sorted :
  In x (Py.insert_reverse key name sorted) <-> x = name \/ In x sorted.
Proof.
  induction sorted as [|first rest IH]; cbn [Py.insert_reverse].
  - cbn. intuition congruence.
  - destruct (Py.str_leb (key first) (key name)); cbn [In].
    + intuition congruence.
    + rewrite IH. intuition congruence.
Qed.

Lemma sorted_reverse_In key x names :
  In x (Py.sorted_reverse key names) <-> In x names.
Proof.
  induction names as [|name names IH]; cbn [Py.sorted_reverse]; [reflexivity|].
  rewrite insert_reverse_In, IH. cbn [In]. intuition congruence.
Qed.

(** A name whose key is above the key of every other name comes
    first. *)
Lemma sorted_reverse_head key names top :
  In top names ->
  forallb (fun name =>
             Py.str_eqb name top
             || negb (Py.str_leb (key top) (key name))) names = true ->
  exists rest, Py.sorted_reverse key names = top :: rest.
Proof.
  induction names as [|name names IH]; [contradiction|].
  intros Hin Hmax. cbn [forallb] in Hmax.
  apply andb_true_iff in Hmax as [Hname Hmax].
  cbn [Py.sorted_reverse].
  destruct (Py.str_eqb name top) eqn:Ename.
  - apply str_eqb_spec in Ename. subst name.
    destruct (Py.sorted_reverse key names) as [|first rest] eqn:Es;
      [now exists []|].
    cbn [Py.insert_reverse].
    assert (Hfirst : In first names).
    { apply (sorted_reverse_In key). rewrite Es. now left. }
    rewrite List.forallb_forall in Hmax. specialize (Hmax first Hfirst).
    assert (Hle : Py.str_leb (key first) (key top) = true).
    { apply orb_true_iff in Hmax as [Heq|Hlt].
      - apply str_eqb_spec in Heq. subst first. apply str_leb_refl.
      - apply negb_true_iff in Hlt.
        destruct (str_leb_total (key first) (key top)); congruence. }
    rewrite Hle. now exists (first :: rest).
  - destruct Hin as [->|Hin];
      [rewrite str_eqb_refl in Ename; discriminate|].
    destruct (IH Hin Hmax) as (rest & ->).
    cbn [Py.insert_reverse]. cbn [orb] in Hname.
    apply negb_true_iff in Hname. rewrite Hname.
    now exists (Py.insert_reverse key name rest).
Qed.

(** The metadata file of a stored session reads back as its record. *)
Lemma read_metadata_stored metadata d :
  SessionManager.stored metadata d ->
  SessionManager.read_metadata (SessionManager.id metadata) d
  = Some (Some metadata).
Proof.
  intros (_ & Hfile & _). unfold SessionManager.read_metadata.
  match goal with
  | |- context [@lookup ?K ?A ?M ?I ?k ?m] =>
      replace (@lookup K A M I k m)
        with (Some (concat (SessionManager.metadata_chunks metadata)))
        by (symmetry; exact Hfile)
  end.
  pose proof (metadata_text_reads_back metadata) as Hread.
  destruct (Json.loads _) as [data|e]; [|discriminate].
  cbn [Py.bind] in Hread. injection Hread as ->. reflexivity.
Qed.

(** A directory whose metadata can be read is listed. *)
Lemma list_from_In names : forall d session_id metadata sessions,
  SessionManager.list_from names d = Some sessions ->
  In session_id names ->
  SessionManager.read_metadata session_id d = Some (Some metadata) ->
  In metadata sessions.
Proof.
  induction names as [|name names IH];
    intros d session_id metadata sessions Hlist Hin Hread; [contradiction|].
  cbn [SessionManager.list_from] in Hlist.
  destruct (SessionManager.read_metadata name d) as [[found|]|] eqn:Ename;
    [| |discriminate];
    destruct (SessionManager.list_from names d) as [others|] eqn:Eothers;
    try discriminate; injection Hlist as <-.
  - destruct Hin as [->|Hin].
    + rewrite Hread in Ename. injection Ename as ->. now left.
    + right. eapply IH; eauto.
  - destruct Hin as [->|Hin]; [congruence|]. eapply IH; eauto.
Qed.

Lemma stored_shelf : SessionManager.stored Doubles.session Doubles.shelf.
Proof.
  unfold SessionManager.stored. split; [|split].
  - refine (bool_decide_unpack _ _). vm_compute. exact I.
  - vm_compute. reflexivity.
  - vm_compute. reflexivity.
Qed.

(** X23: a stored session is listed.  Whenever a session is stored on
    the disk (its directory exists and its metadata file holds what
    [_save_metadata] writes for it), [list_sessions] returns its
    record, on every platform and whatever else the sessions directory
    holds: directories without metadata or with metadata that cannot
    be read are passed over without ending the listing. *)
Theorem stored_session_is_listed :
  forall (normcase : Py.str -> Py.str)
         (metadata : SessionManager.SessionMetadata)
         (d : SessionManager.disk)
         (sessions : list SessionManager.SessionMetadata),
    SessionManager.stored metadata d ->
    SessionManager.list_sessions normcase d = Some sessions ->
    In metadata sessions.
Proof.
  intros normcase metadata d sessions Hstored Hlist.
  unfold SessionManager.list_sessions in Hlist.
  apply (list_from_In _ d (SessionManager.id metadata) metadata sessions
           Hlist).
  - apply sorted_reverse_In.
    apply list_elem_of_In, elem_of_elements.
    now destruct Hstored.
  - now apply read_metadata_stored.
Qed.

Lemma stored_session_is_listed_witness :
  SessionManager.list_sessions (Py.lower Doubles.plain_table) Doubles.shelf
  = Some [Doubles.session]
  /\ In Doubles.session [Doubles.session].
Proof.
  assert (Hlist : SessionManager.list_sessions (Py.lower Doubles.plain_table)
                    Doubles.shelf
                  = Some [Doubles.session])
    by (vm_compute; reflexivity).
  split; [exact Hlist|].
  exact (stored_session_is_listed (Py.lower Doubles.plain_table)
           Doubles.session Doubles.shelf [Doubles.session] stored_shelf
           Hlist).
Defined.

(** X24: the latest session is the one whose directory comes last in
    the order of the platform's paths.  [normcase] is what the platform
    does to a name before paths are compared (nothing on a POSIX
    system, lower-casing on Windows).  When the stored session
    [metadata] has a directory whose folded name is above the folded
    name of every other directory of the sessions directory, it is the
    first session [list_sessions] returns and the one
    [load_latest_session] loads: it becomes the current session, with
    the transcript read from its file (or, when that cannot be read,
    with the log the manager had, [None] being returned). *)
Theorem latest_session_has_greatest_name :
  forall (normcase : Py.str -> Py.str)
         (metadata : SessionManager.SessionMetadata)
         (self : SessionManager.t) (d : SessionManager.disk)
         (sessions : list SessionManager.SessionMetadata),
    SessionManager.stored metadata d ->
    forallb (fun name =>
               Py.str_eqb name (SessionManager.id metadata)
               || negb (Py.str_leb (normcase (SessionManager.id metadata))
                          (normcase name)))
      (elements (SessionManager.dirs d)) = true ->
    SessionManager.list_sessions normcase d = Some sessions ->
    hd_error sessions = Some metadata
    /\ SessionManager.load_latest_session normcase self d
       = Some
           (match
              SessionManager._load_transcript (SessionManager.id metadata) d
            with
            | Py.Ok entries =>
                (Some metadata, SessionManager.mk (Some metadata) entries)
            | Py.Raise _ =>
                (None,
                 SessionManager.mk (Some metadata)
                   (SessionManager._transcript_log self))
            end).
Proof.
  intros normcase metadata self d sessions Hstored Hmax Hlist.
  assert (Hhead : hd_error sessions = Some metadata).
  { unfold SessionManager.list_sessions in Hlist.
    destruct (sorted_reverse_head normcase
                (elements (SessionManager.dirs d))
                (SessionManager.id metadata)) as (rest & Hsorted).
    - apply list_elem_of_In, elem_of_elements. now destruct Hstored.
    - exact Hmax.
    - rewrite Hsorted in Hlist. cbn [SessionManager.list_from] in Hlist.
      rewrite (read_metadata_stored metadata d Hstored) in Hlist.
      destruct (SessionManager.list_from rest d); [|discriminate].
      now injection Hlist as <-. }
  split; [exact Hhead|].
  unfold SessionManager.load_latest_session. rewrite Hlist.
  destruct sessions as [|latest others]; [discriminate|].
  injection Hhead as ->. now apply load_session_stored.
Qed.

Lemma latest_session_has_greatest_name_witness :
  SessionManager.load_latest_session (Py.lower Doubles.plain_table)
    Doubles.other_manager Doubles.mixed_case
  = Some (Some Doubles.beta, SessionManager.mk (Some Doubles.beta) []).
Proof.
  refine (proj2 (latest_session_has_greatest_name
                   (Py.lower Doubles.plain_table) Doubles.beta
                   Doubles.other_manager Doubles.mixed_case [Doubles.beta]
                   _ eq_refl eq_refl)).
  unfold SessionManager.stored. split; [|split].
  - refine (bool_decide_unpack _ _). vm_compute. exact I.
  - vm_compute. reflexivity.
  - vm_compute. reflexivity.
Defined.
